(** * Dashboard-QP: the chart helper and its driver scripts

    A shallow embedding of the decision logic of [hdfc_viz.py],
    [generate_dashboard.py] and [remove_subtotal.py].  Plotting itself
    (matplotlib, seaborn) and spreadsheet I/O (pandas) are libraries: a
    figure is modelled by the record of what the helper asks the plotting
    library to draw, a sheet by the table pandas hands to the script. *)

From Stdlib Require Import ZArith QArith Qabs Qround Qminmax Lia Lqa Ascii String.
From Stdlib Require Import Numbers.DecimalString Numbers.DecimalNat Numbers.DecimalFacts.
From stdpp Require Import base list strings gmap.

Local Open Scope nat_scope.
Local Open Scope list_scope.

(** ** Python built-ins used by the scripts *)

Module Py.

(** *** Exceptions

    The classes below all derive from [Exception]; a [KeyError] carries
    the missing key, the others their message.  [exn_str] is [str(e)]. *)
Inductive exn : Type :=
| ValueError (msg : string)
| IndexError (msg : string)
| KeyError (key : string)
| ZeroDivisionError (msg : string)
| OtherException (class_name msg : string).

Definition exn_str (e : exn) : string :=
  match e with
  | ValueError m | IndexError m | ZeroDivisionError m => m
  | KeyError key => String "'" (key +:+ "'")
  | OtherException _ m => m
  end.

Definition is_ValueError (e : exn) : bool :=
  match e with ValueError _ => true | _ => false end.

(** A computation either returns or raises. *)
Inductive result (A : Type) : Type :=
| Ok (a : A)
| Raise (e : exn).
Arguments Ok {A} a.
Arguments Raise {A} e.

#[export] Instance result_ret : MRet result := fun A a => Ok a.
#[export] Instance result_bind : MBind result := fun A B f m =>
  match m with
  | Ok a => f a
  | Raise e => Raise e
  end.

Definition returns {A} (m : result A) : Prop := exists a, m = Ok a.

(** *** Sequences *)

(** [range(start, stop, step)] for a positive step; the loop is unrolled
    with a fuel that [stop] always covers. *)
Fixpoint range_from (fuel start stop step : nat) : list nat :=
  match fuel with
  | 0 => []
  | S fuel' =>
      if start <? stop
      then start :: range_from fuel' (start + step) stop step
      else []
  end.

Definition range (start stop step : nat) : list nat :=
  range_from stop start stop step.

(** [l[i:j]] for non-negative bounds: out-of-range bounds are clipped. *)
Definition slice {A} (l : list A) (i j : nat) : list A :=
  take (j - i) (drop i l).

(** Truth value of a list: empty lists are falsy. *)
Definition truthy {A} (l : list A) : bool :=
  match l with [] => false | _ :: _ => true end.

(** [l[i]] for a non-negative index. *)
Definition getitem {A} (l : list A) (i : nat) : result A :=
  match l !! i with
  | Some a => Ok a
  | None => Raise (IndexError "list index out of range")
  end.

(** [l[-1]]. *)
Definition getitem_last {A} (l : list A) : result A :=
  match last l with
  | Some a => Ok a
  | None => Raise (IndexError "list index out of range")
  end.

(** [d[k]] on a dictionary. *)
Definition dict_getitem {A} (d : gmap string A) (k : string) : result A :=
  match d !! k with
  | Some a => Ok a
  | None => Raise (KeyError k)
  end.

(** [a % b] on non-negative integers. *)
Definition mod_ (a b : nat) : result nat :=
  if b =? 0 then Raise (ZeroDivisionError "integer modulo by zero")
  else Ok (a mod b).

(** [mapM] over a list, left to right, stopping at the first raise. *)
Fixpoint for_each {A B} (f : A -> result B) (l : list A) : result (list B) :=
  match l with
  | [] => Ok []
  | a :: l' => b ← f a; bs ← for_each f l'; Ok (b :: bs)
  end.

(** *** Strings (sequences of bytes; case mapping acts on ASCII letters) *)

Definition lower_ascii (c : ascii) : ascii :=
  let n := nat_of_ascii c in
  if (65 <=? n) && (n <=? 90) then ascii_of_nat (n + 32) else c.

Fixpoint lower (s : string) : string :=
  match s with
  | EmptyString => EmptyString
  | String c s' => String (lower_ascii c) (lower s')
  end.

(** [c in s] for a one-character string [c]. *)
Fixpoint contains_char (c : ascii) (s : string) : bool :=
  match s with
  | EmptyString => false
  | String c' s' => Ascii.eqb c c' || contains_char c s'
  end.

(** [s.endswith(suffix)]: some tail of [s] is [suffix]. *)
Fixpoint endswith (s suffix : string) : bool :=
  String.eqb s suffix
  || match s with
     | EmptyString => false
     | String _ s' => endswith s' suffix
     end.

(** [s.endswith((s1, ..., sn))]. *)
Definition endswith_any (s : string) (suffixes : list string) : bool :=
  existsb (endswith s) suffixes.

(** The split at the last occurrence of [sep], if there is one. *)
Fixpoint rpartition (sep : ascii) (s : string) : option (string * string) :=
  match s with
  | EmptyString => None
  | String c s' =>
      match rpartition sep s' with
      | Some (base, ext) => Some (String c base, ext)
      | None => if Ascii.eqb c sep then Some (EmptyString, s') else None
      end
  end.

(** [s.rsplit(sep, 1)]. *)
Definition rsplit1 (sep : ascii) (s : string) : list string :=
  match rpartition sep s with
  | Some (base, ext) => [base; ext]
  | None => [s]
  end.

(** [a, b = l]. *)
Definition unpack2 {A} (l : list A) : result (A * A) :=
  match l with
  | [a; b] => Ok (a, b)
  | [] | [_] => Raise (ValueError "not enough values to unpack")
  | _ => Raise (ValueError "too many values to unpack")
  end.

(** [str(n)]. *)
Definition str_nat (n : nat) : string := NilZero.string_of_uint (Nat.to_uint n).

(** [str(l)] for a list of strings without quotes or escapes in them. *)
Definition str_list (l : list string) : string :=
  "[" +:+ String.concat ", " ((fun s => String "'" (s +:+ "'")) <$> l) +:+ "]".

(** *** Floating-point values

    A float is NaN or a number; numbers are taken as exact rationals, so
    the thresholds of the formatting rules are the decimal constants the
    source writes.  Infinities are not represented. *)
Inductive float : Type :=
| NaN
| Num (q : Q).

Definition Qltb (x y : Q) : bool :=
  match (x ?= y)%Q with Lt => true | _ => false end.

(** [x % 1] for a float [x]. *)
Definition mod1 (x : Q) : Q := (x - inject_Z (Qfloor x))%Q.

(** [round(x)]: nearest integer, ties to the even one. *)
Definition round (x : Q) : Z :=
  let f := Qfloor x in
  match (mod1 x ?= 1 # 2)%Q with
  | Lt => f
  | Gt => (f + 1)%Z
  | Eq => if Z.even f then f else (f + 1)%Z
  end.

(** [int(x)]: truncation towards zero. *)
Definition int (x : Q) : Z := Z.quot (Qnum x) (Zpos (Qden x)).

Definition str_Z_abs (z : Z) : string :=
  NilZero.string_of_uint (N.to_uint (Z.abs_N z)).

(** Thousands separators, on the digits from the least significant. *)
Fixpoint group3 (rev_digits : list ascii) : list ascii :=
  match rev_digits with
  | a :: b :: c :: ((_ :: _) as rest) => a :: b :: c :: ","%char :: group3 rest
  | _ => rev_digits
  end.

(** [f'{z:,}']. *)
Definition format_int_commas (z : Z) : string :=
  let digits := list_ascii_of_string (str_Z_abs z) in
  let grouped := string_of_list_ascii (rev (group3 (rev digits))) in
  if (z <? 0)%Z then String "-" grouped else grouped.

Fixpoint zeros (n : nat) : string :=
  match n with 0 => EmptyString | S n' => String "0" (zeros n') end.

(** [f'{x:.{p}f}']: [p] decimals, rounded half to even. *)
Definition format_fixed (p : nat) (x : Q) : string :=
  let scale := (10 ^ Z.of_nat p)%Z in
  let m := round (Qabs x * inject_Z scale) in
  let int_part := str_Z_abs (m / scale) in
  let frac := str_Z_abs (m mod scale) in
  let frac_part :=
    if p =? 0 then EmptyString
    else String "." (zeros (p - String.length frac) +:+ frac) in
  let body := int_part +:+ frac_part in
  if Qltb x 0 then String "-" body else body.

(** [2 ** k] for an integer [k] of either sign. *)
Definition pow2 (k : Z) : Q :=
  match k with
  | Zneg n => 1 # (2 ^ n)%positive
  | _ => inject_Z (2 ^ k)
  end.

(** The double nearest to [x], ties to the even significand: 53 bits
    above 2^-1022, multiples of 2^-1074 below; [None] when the result
    overflows to an infinity. *)
Definition b64_round (x : Q) : option Q :=
  if Qeq_bool x 0 then Some 0%Q
  else
    let a := Qabs x in
    let e0 := (Z.log2 (Qnum a) - Z.log2 (Zpos (Qden a)))%Z in
    let e := if Qle_bool (pow2 e0) a then e0 else (e0 - 1)%Z in
    let q := Z.max (e - 52) (-1074) in
    let y := (inject_Z (round (a / pow2 q)) * pow2 q)%Q in
    if Qle_bool (pow2 1024) y then None
    else Some (if Qltb x 0 then (- y)%Q else y).

(** [f'{x:.{p}%}']: the product [x * 100] is a double before it is
    formatted. *)
Definition format_percent (p : nat) (x : Q) : string :=
  match b64_round (x * 100) with
  | Some y => format_fixed p y +:+ "%"
  | None => if Qltb x 0 then "-inf%" else "inf%"
  end.

End Py.

Import Py.

(** ** hdfc_viz.py *)

Module HdfcViz.

Local Open Scope string_scope.

(** *** Palettes and background styles *)

(** A color is a hex code, or the value [base_cmap(t)] of the two-color
    [LinearSegmentedColormap] running from [first] to [last]. *)
Inductive color : Type :=
| Hex (code : string)
| Blend (first last : color) (t : Q).

Definition COLOR_SCHEMES : gmap string (list color) :=
  list_to_map
    [ ("corporate", Hex <$> ["#003f5c"; "#2f4b7c"; "#665191"; "#a05195";
                             "#d45087"; "#f95d6a"; "#ff7c43"; "#ffa600"]);
      ("vibrant", Hex <$> ["#1f77b4"; "#ff7f0e"; "#2ca02c"; "#d62728";
                           "#9467bd"; "#8c564b"; "#e377c2"; "#7f7f7f"]);
      ("pastel", Hex <$> ["#66c2a5"; "#fc8d62"; "#8da0cb"; "#e78ac3";
                          "#a6d854"; "#ffd92f"; "#e5c494"; "#b3b3b3"]);
      ("hdfc_brand", Hex <$> ["#ED232A"; "#0033A0"; "#808080"; "#FF6600";
                              "#003366"; "#FFCC00"; "#00CCFF"; "#009900"]);
      ("gradient_blue", Hex <$> ["#f7fbff"; "#deebf7"; "#c6dbef"; "#9ecae1";
                                 "#6baed6"; "#4292c6"; "#2171b5"; "#084594"]);
      ("gradient_red", Hex <$> ["#fff5f0"; "#fee0d2"; "#fcbba1"; "#fc9272";
                                "#fb6a4a"; "#ef3b2c"; "#cb181d"; "#99000d"]) ].

Record bg_settings : Type := { style : string; grid_alpha : Q }.

Definition BG_STYLES : gmap string bg_settings :=
  list_to_map
    [ ("default", {| style := "whitegrid"; grid_alpha := 3 # 10 |});
      ("minimal", {| style := "white"; grid_alpha := 0 |});
      ("classic", {| style := "darkgrid"; grid_alpha := 1 # 10 |});
      ("presentation", {| style := "white"; grid_alpha := 2 # 10 |}) ].

(** *** _format_value *)

Definition _format_value (value : float) (is_percentage : bool)
    (precision : option nat) : string :=
  match value with
  | NaN => "N/A"
  | Num v =>
      if is_percentage then
        let precision :=
          match precision with
          | None => if Qltb (Qabs v) (1 # 100) then 2 else 1
          | Some p => p
          end in
        format_percent precision v
      else if Qltb (Qabs (v - inject_Z (round v))) (1 # 100) && Qle_bool 10 v
      then format_int_commas (int v)
      else
        let precision :=
          match precision with
          | None =>
              if Qltb (Qabs v) (1 # 100) then 4
              else if Qltb (Qabs v) (1 # 10) then 3
              else if Qltb (Qabs v) 1 then 2
              else if Qltb (Qabs v) 10 then 1
              else if Qltb (mod1 (Qabs v)) (1 # 100) then 0 else 2
          | Some p => p
          end in
        if (precision =? 0)%nat then format_int_commas (int v)
        else format_fixed precision v
  end.


(** *** _get_gradient_colors *)

(** The [color_scheme] argument: the name of a scheme or a list of colors. *)
Inductive color_scheme_arg : Type :=
| SchemeName (name : string)
| SchemeList (colors : list color).

(** [i / float(d)]. *)
Definition float_div (i d : nat) : result Q :=
  match d with
  | 0 => Raise (ZeroDivisionError "float division by zero")
  | S _ => Ok (Z.of_nat i # Pos.of_nat d)
  end.

Definition selected_colors (color_scheme : color_scheme_arg)
    : result (list color) :=
  match color_scheme with
  | SchemeList colors => Ok colors
  | SchemeName name =>
      match COLOR_SCHEMES !! name with
      | Some colors => Ok colors
      | None => dict_getitem COLOR_SCHEMES "corporate"
      end
  end.

Definition _get_gradient_colors (color_scheme : color_scheme_arg)
    (num_categories : nat) : result (list color) :=
  colors ← selected_colors color_scheme;
  if (length colors <? num_categories)%nat then
    first ← getitem colors 0;
    last ← getitem_last colors;
    for_each (fun i => t ← float_div i (num_categories - 1);
                       Ok (Blend first last t))
             (seq 0 num_categories)
  else Ok (take num_categories colors).

(** *** Column grouping *)

Section Grouping.
Context {A : Type}.

(** Body of the grouping loop shared by [create_dashboard] and the
    driver: [group = cols[i:i+4]; if group: column_groups.append(group)]. *)
Definition append_group (cols : list A) (column_groups : list (list A))
    (i : nat) : list (list A) :=
  let group := slice cols i (i + 4) in
  if truthy group then column_groups ++ [group] else column_groups.

(** [create_dashboard], the branch taken when [column_groups is None]. *)
Definition auto_column_groups (cols : list A) : list (list A) :=
  if (length cols <=? 4)%nat then [cols]
  else foldl (append_group cols) [] (range 0 (length cols) 4).

End Grouping.

(** *** plot_bar_chart *)

(** The table as the helper sees it: row labels and named numeric
    columns, every column holding one value per row, each NaN or a finite
    number.  Columns of text, which the chart code cannot draw, are not
    represented. *)
Record DataFrame : Type := {
  index_name : option string;
  index : list string;
  table : list (string * list float)
}.

(** [df.columns]. *)
Definition columns (df : DataFrame) : list string := (table df).*1.

(** [df[col]], for a column of the table. *)
Definition series (df : DataFrame) (col : string) : list float :=
  match list_find (fun kv => kv.1 = col) (table df) with
  | Some (_, kv) => kv.2
  | None => []
  end.

(** One entry of [value_format]: both keys are optional. *)
Record format_entry : Type := {
  fe_is_percentage : option bool;
  fe_precision : option nat
}.

(** The [ylabels] argument: absent, one label for all, or per column. *)
Inductive ylabels_arg : Type :=
| YLabelsNone
| YLabel (label : string)
| YLabels (labels : gmap string string).

Definition ylabels_truthy (y : ylabels_arg) : bool :=
  match y with
  | YLabelsNone => false
  | YLabel label => negb (label =? "")
  | YLabels labels => negb (bool_decide (labels = ∅))
  end.

(** The [layout] argument; [None] and ['auto'] both select the automatic
    grid.  An explicit grid has at least one row and one column. *)
Inductive layout_arg : Type :=
| LayoutAuto
| LayoutGrid (rows cols : positive).

Record plot_options : Type := {
  title : option string;
  subtitle : option string;
  xlabel : option string;
  ylabels : ylabels_arg;
  color_scheme : color_scheme_arg;
  bg_style : string;
  show_values : bool;
  value_format : option (gmap string format_entry);
  layout : option layout_arg;
  save_path : option string;
  grid : bool
}.

(** What one subplot shows.  The bars are the plotting library's; when
    values are shown the helper annotates every bar it finds on the axis
    with [_format_value] of the bar's height, and [sp_value_format] holds
    the [is_percentage] and [precision] it passes. *)
Record subplot : Type := {
  sp_axis : nat;
  sp_column : string;
  sp_is_percentage : bool;
  sp_palette : list color;
  sp_xlabel : option string;
  sp_ylabel : string;
  sp_percent_ticks : bool;
  sp_value_format : option (bool * option nat);
  sp_grid_alpha : option Q
}.

(** What a figure shows and where it is saved. *)
Record figure : Type := {
  fig_grid : nat * nat;
  fig_theme : string;
  fig_subplots : list subplot;
  fig_deleted_axes : list nat;
  fig_title : option string;
  fig_subtitle : option string;
  fig_saved_to : option string
}.

(** Truth value of an optional string: [None] and [""] are falsy. *)
Definition given (s : option string) : option string :=
  match s with
  | Some s => if s =? "" then None else Some s
  | None => None
  end.

(** The grid chosen when [layout] is [None] or ['auto']. *)
Definition auto_layout (n : nat) : nat * nat :=
  if (n <=? 2)%nat then (1, n)
  else if (n <=? 4)%nat then (2, 2)
  else
    let cols := 3 `min` n in
    let rows := (n + cols - 1) / cols in
    (rows, cols).

Definition resolve_layout (layout : option layout_arg) (n : nat) : nat * nat :=
  match layout with
  | None | Some LayoutAuto => auto_layout n
  | Some (LayoutGrid rows cols) => (Pos.to_nat rows, Pos.to_nat cols)
  end.

(** [BG_STYLES.get(bg_style, BG_STYLES['default'])]. *)
Definition style_settings (bg_style : string) : result bg_settings :=
  fallback ← dict_getitem BG_STYLES "default";
  Ok (default fallback (BG_STYLES !! bg_style)).

(** Percentage flag and precision of a column. *)
Definition column_format (value_format : option (gmap string format_entry))
    (col : string) : bool * option nat :=
  match value_format ≫= (.!! col) with
  | Some entry => (default false (fe_is_percentage entry), fe_precision entry)
  | None => (contains_char "%" (lower col), None)
  end.

(** [all(abs(v - round(v)) < 0.01 for v in data[col].dropna())]. *)
Definition all_integers (values : list float) : bool :=
  forallb (fun v => match v with
                    | NaN => true
                    | Num q => Qltb (Qabs (q - inject_Z (round q))) (1 # 100)
                    end) values.

Definition y_label (ylabels : ylabels_arg) (col : string)
    (is_percentage : bool) (values : list float) : string :=
  if ylabels_truthy ylabels then
    match ylabels with
    | YLabels labels => default "Value" (labels !! col)
    | YLabel label => label
    | YLabelsNone => "Value"
    end
  else if is_percentage then "Percentage"
  else if all_integers values then "Count" else "Value".

(** The body of the loop over the valid columns, for the column [col]
    drawn on axis [i]. *)
Definition draw_subplot (df : DataFrame) (o : plot_options)
    (settings : bg_settings) (i : nat) (col : string) : result subplot :=
  let '(is_percentage, precision) := column_format (value_format o) col in
  colors ← _get_gradient_colors (color_scheme o) (length (index df));
  _ ← getitem colors 0;
  Ok {| sp_axis := i;
        sp_column := col;
        sp_is_percentage := is_percentage;
        sp_palette := colors;
        sp_xlabel := match given (xlabel o) with
                     | Some x => Some x
                     | None => given (index_name df)
                     end;
        sp_ylabel := y_label (ylabels o) col is_percentage (series df col);
        sp_percent_ticks := is_percentage;
        sp_value_format :=
          if show_values o then Some (is_percentage, precision) else None;
        sp_grid_alpha := if grid o then Some (grid_alpha settings) else None |}.


(** [for i, col in enumerate(valid_columns): if i >= len(axes): break ...]. *)
Fixpoint draw_subplots (df : DataFrame) (o : plot_options)
    (settings : bg_settings) (n_axes i : nat) (valid_columns : list string)
    : result (list subplot) :=
  match valid_columns with
  | [] => Ok []
  | col :: rest =>
      if (n_axes <=? i)%nat then Ok []
      else
        sp ← draw_subplot df o settings i col;
        sps ← draw_subplots df o settings n_axes (S i) rest;
        Ok (sp :: sps)
  end.

Definition valid_columns (df : DataFrame) (requested : list string)
    : list string :=
  filter (fun col => col ∈ columns df) requested.

(** [plot_bar_chart(df, columns, ...)]: the figure and its flattened axes.
    The figure is what the helper asks matplotlib and seaborn to draw:
    their calls are taken to succeed, so an exception here is one the
    helper's own code raises. *)
Definition plot_bar_chart (df : DataFrame) (requested : list string)
    (o : plot_options) : result (figure * list nat) :=
  let valid := valid_columns df requested in
  if negb (truthy valid)
  then Raise (ValueError
                ("None of the specified columns exist in the dataframe. "
                 +:+ "Available columns: " +:+ str_list (columns df)))
  else
    let '(rows, cols) := resolve_layout (layout o) (length valid) in
    settings ← style_settings (bg_style o);
    let axes := seq 0 (rows * cols) in
    sps ← draw_subplots df o settings (length axes) 0 valid;
    Ok ({| fig_grid := (rows, cols);
           fig_theme := style settings;
           fig_subplots := sps;
           fig_deleted_axes :=
             seq (length valid) (length axes - length valid);
           fig_title := given (title o);
           fig_subtitle := match given (title o) with
                           | Some _ => given (subtitle o)
                           | None => None
                           end;
           fig_saved_to := given (save_path o) |}, axes).

(** *** create_dashboard *)

Record dashboard_options : Type := {
  column_groups : option (list (list string));
  output_path : option string;
  title_prefix : string;
  color_schemes : option (list color_scheme_arg);
  dash_bg_style : string;
  layout_options : option (list layout_arg);
  custom_titles : option (gmap nat string);
  custom_subtitles : option (gmap nat string);
  value_formats : option (gmap nat (gmap string format_entry));
  global_xlabel : option string;
  global_ylabel : ylabels_arg
}.

Definition default_color_schemes : list color_scheme_arg :=
  SchemeName <$> ["corporate"; "hdfc_brand"; "vibrant"; "pastel";
                  "gradient_blue"; "gradient_red"].

Definition image_extensions : list string :=
  [".png"; ".jpg"; ".jpeg"; ".pdf"; ".svg"].

(** Where the chart of group [i] is saved. *)
Definition group_save_path (output_path : option string) (i : nat)
    : result (option string) :=
  match given output_path with
  | None => Ok None
  | Some path =>
      if endswith_any (lower path) image_extensions then
        '(base, ext) ← unpack2 (rsplit1 "." path);
        Ok (Some (base +:+ "_group" +:+ str_nat (i + 1) +:+ "." +:+ ext))
      else Ok (Some (path +:+ "_group" +:+ str_nat (i + 1) +:+ ".png"))
  end.

(** The body of the loop over the groups. *)
Definition draw_group (df : DataFrame) (sheet_name : string)
    (o : dashboard_options) (schemes : list color_scheme_arg)
    (i : nat) (group : list string) : result (figure * list nat) :=
  k ← mod_ i (length schemes);
  scheme ← getitem schemes k;
  let group_title :=
    match custom_titles o ≫= (.!! i) with
    | Some t => t
    | None => title_prefix o +:+ " " +:+ sheet_name +:+ " Analysis - Group "
                +:+ str_nat (i + 1)
    end in
  let group_layout :=
    match layout_options o with
    | Some ls => ls !! i
    | None => None
    end in
  save_to ← group_save_path (output_path o) i;
  plot_bar_chart df group
    {| title := Some group_title;
       subtitle := custom_subtitles o ≫= (.!! i);
       xlabel := match given (global_xlabel o) with
                 | Some x => Some x
                 | None => index_name df
                 end;
       ylabels := global_ylabel o;
       color_scheme := scheme;
       bg_style := dash_bg_style o;
       show_values := true;
       value_format := value_formats o ≫= (.!! i);
       layout := group_layout;
       save_path := save_to;
       grid := true |}.

(** [for i, columns in enumerate(column_groups): ... results.append(...)]. *)
Fixpoint draw_groups (df : DataFrame) (sheet_name : string)
    (o : dashboard_options) (schemes : list color_scheme_arg)
    (i : nat) (groups : list (list string))
    : result (list (figure * list nat)) :=
  match groups with
  | [] => Ok []
  | group :: rest =>
      r ← draw_group df sheet_name o schemes i group;
      rs ← draw_groups df sheet_name o schemes (S i) rest;
      Ok (r :: rs)
  end.

Definition create_dashboard (df : DataFrame) (sheet_name : string)
    (o : dashboard_options) : result (list (figure * list nat)) :=
  let schemes := default default_color_schemes (color_schemes o) in
  let groups := default (auto_column_groups (columns df)) (column_groups o) in
  draw_groups df sheet_name o schemes 0 groups.

End HdfcViz.

(** ** generate_dashboard.py *)

Module GenerateDashboard.

Import HdfcViz.
Local Open Scope string_scope.

(** The grouping loop of [main]: no special case for small tables. *)
Definition column_groups {A} (cols : list A) : list (list A) :=
  foldl (append_group cols) [] (range 0 (length cols) 4).

(** The parsed command line. *)
Record args : Type := {
  file : string;
  sheet : option string;
  output : string;
  dpi : nat;
  title : option string;
  style : string;
  colors : string
}.

(** [os.path.join(a, b)] on a POSIX system. *)
Definition path_join (a b : string) : string :=
  if String.prefix "/" b then b
  else if (a =? "") || endswith a "/" then a +:+ b
  else a +:+ "/" +:+ b.

(** Console output, oldest line first. *)
Definition console : Type := list string.

Definition print (line : string) (out : console) : console :=
  (out ++ [line])%list.

Section Main.

(** [pd.read_excel(file, index_col="Category", sheet_name=sheet)]. *)
Variable read_excel : string -> string -> result DataFrame.

(** [create_dashboard] as the plotting library runs it: besides the
    helper's own exceptions, rendering and saving may raise. *)
Variable dashboard :
  DataFrame -> string -> dashboard_options ->
  result (list (figure * list nat)).

(** The keyword arguments [main] passes to [create_dashboard]. *)
Definition dashboard_arguments (a : args) (sheet_name : string)
    (df : DataFrame) : dashboard_options :=
  let groups := column_groups (columns df) in
  let prefix :=
    match given (title a) with Some t => t | None => "HDFC" end in
  let output_path := path_join (output a) ("HDFC_" +:+ sheet_name) in
  {| HdfcViz.column_groups := Some groups;
     output_path := Some output_path;
     title_prefix := prefix;
     color_schemes := Some [SchemeName (colors a)];
     dash_bg_style := style a;
     layout_options := None;
     custom_titles := None;
     custom_subtitles := None;
     value_formats := None;
     global_xlabel := None;
     global_ylabel := YLabelsNone |}.

(** The body of the [try] block; it returns the line it prints. *)
Definition try_body (a : args) (sheet_name : string) : result string :=
  df ← read_excel (file a) sheet_name;
  charts ← dashboard df sheet_name (dashboard_arguments a sheet_name df);
  Ok ("  - Generated " +:+ str_nat (length charts)
        +:+ " chart groups for " +:+ sheet_name).

Definition error_line (sheet_name : string) (e : exn) : string :=
  "Error processing sheet " +:+ sheet_name +:+ ": " +:+ exn_str e.

(** [for sheet in sheets: print(...); try: ... except Exception as e: ...].
    The state is the console; the result tells whether an exception
    left the loop. *)
Fixpoint process_sheets (a : args) (sheets : list string) (out : console)
    : console * result unit :=
  match sheets with
  | [] => (out, Ok ())
  | sheet_name :: rest =>
      let out := print ("Processing sheet: " +:+ sheet_name) out in
      let out :=
        match try_body a sheet_name with
        | Ok line => print line out
        | Raise e => print (error_line sheet_name e) out
        end in
      process_sheets a rest out
  end.

(** [parser.parse_args()]: the parsed command line, unless argparse
    refuses the arguments and exits. *)
Variable parse_args : result args.

(** [os.makedirs(path, exist_ok=True)]. *)
Variable makedirs : string -> result unit.

(** [pd.ExcelFile(file).sheet_names]: opening the workbook. *)
Variable excel_file : string -> result (list string).



End Main.

End GenerateDashboard.

(** ** remove_subtotal.py *)

Module RemoveSubtotal.

Local Open Scope string_scope.

Inductive cell : Type :=
| Text (s : string)
| Number (q : Q)
| Blank.

(** [c == "Sub total"]. *)
Definition is_subtotal (c : cell) : bool :=
  match c with
  | Text s => s =? "Sub total"
  | _ => false
  end.

(** A sheet as pandas hands it over: the column names and the rows, each
    row with its index label and one cell per column.  Column names are
    distinct, so a column is identified by its position. *)
Record DataFrame : Type := {
  columns : list string;
  rows : list (cell * list cell)
}.

Definition cell_at (row : cell * list cell) (j : nat) : cell :=
  default Blank (row.2 !! j).

(** ["Sub total" in df.index]. *)
Definition in_index (df : DataFrame) : bool :=
  existsb (fun row => is_subtotal row.1) (rows df).

(** ["Sub total" in df.values]. *)
Definition in_values (df : DataFrame) : bool :=
  existsb (fun row =>
             existsb (fun j => is_subtotal (cell_at row j))
                     (seq 0 (length (columns df))))
          (rows df).

(** [df.drop("Sub total")]. *)
Definition drop_label (df : DataFrame) : DataFrame :=
  {| columns := columns df;
     rows := filter (fun row => is_subtotal row.1 = false) (rows df) |}.

(** [mask = df[col] == "Sub total"; if mask.any(): df = df[~mask]] for
    the column at position [j]. *)
Definition drop_masked (df : DataFrame) (j : nat) : DataFrame :=
  let mask := (fun row => is_subtotal (cell_at row j)) <$> rows df in
  if existsb id mask
  then {| columns := columns df;
          rows := (filter (fun rm => rm.2 = false) (zip (rows df) mask)).*1 |}
  else df.

(** The two outcomes of reading a sheet: with "Category" as the index,
    or, when that raises, without an index column. *)
Inductive sheet_read : Type :=
| WithCategory (df : DataFrame)
| Plain (df : DataFrame).

Definition frame (r : sheet_read) : DataFrame :=
  match r with WithCategory df | Plain df => df end.

Definition has_category_index (r : sheet_read) : bool :=
  match r with WithCategory _ => true | Plain _ => false end.

(** The cleaning step applied to one sheet. *)
Definition remove_subtotal (r : sheet_read) : DataFrame :=
  let df := frame r in
  if has_category_index r && in_index df then drop_label df
  else if negb (has_category_index r) && in_values df
  then foldl drop_masked df (seq 0 (length (columns df)))
  else df.

(** One sheet of the written workbook: its name, its table and whether
    the index is written as a column. *)
Record written_sheet : Type := {
  ws_name : string;
  ws_frame : DataFrame;
  ws_index : bool
}.

Section Script.

(** [pd.read_excel(original_file, sheet_name=..., index_col="Category")]. *)
Variable read_excel_category : string -> result DataFrame.

(** [pd.read_excel(original_file, sheet_name=...)]. *)
Variable read_excel : string -> DataFrame.

Definition read_sheet (sheet_name : string) : sheet_read :=
  match read_excel_category sheet_name with
  | Ok df => WithCategory df
  | Raise _ => Plain (read_excel sheet_name)
  end.

(** The loop over the sheets, appending to the workbook being written. *)
Definition process (written : list written_sheet) (sheet_name : string)
    : list written_sheet :=
  let r := read_sheet sheet_name in
  (written ++ [{| ws_name := sheet_name;
                  ws_frame := remove_subtotal r;
                  ws_index := has_category_index r |}])%list.

Definition script (sheet_names : list string) : list written_sheet :=
  foldl process [] sheet_names.

End Script.

End RemoveSubtotal.

(** ** generate_examples.py *)

Module GenerateExamples.

Import HdfcViz.
Local Open Scope string_scope.

(** [list(COLOR_SCHEMES.keys())]: the names in the order the dictionary
    literal lists them. *)
Definition COLOR_SCHEME_NAMES : list string :=
  ["corporate"; "vibrant"; "pastel"; "hdfc_brand"; "gradient_blue";
   "gradient_red"].

(** The keyword arguments of the three single charts; what is not passed
    keeps the default of [plot_bar_chart]. *)
Definition basic_options (sheet_name : string) : plot_options :=
  {| title := Some ("HDFC " +:+ sheet_name +:+ " - Basic Example");
     subtitle := Some "Default settings with corporate color scheme";
     xlabel := None;
     ylabels := YLabelsNone;
     color_scheme := SchemeName "corporate";
     bg_style := "default";
     show_values := true;
     value_format := None;
     layout := None;
     save_path := Some ("exports/examples/" +:+ sheet_name +:+ "_basic.png");
     grid := true |}.

Definition professional_options (sheet_name : string) : plot_options :=
  {| title := Some ("HDFC " +:+ sheet_name +:+ " - Professional Style");
     subtitle := Some "HDFC brand colors with enhanced presentation style";
     xlabel := None;
     ylabels := YLabelsNone;
     color_scheme := SchemeName "hdfc_brand";
     bg_style := "presentation";
     show_values := true;
     value_format := None;
     layout := None;
     save_path :=
       Some ("exports/examples/" +:+ sheet_name +:+ "_professional.png");
     grid := true |}.

Definition gradient_options (sheet_name : string) : plot_options :=
  {| title := Some ("HDFC " +:+ sheet_name +:+ " - Gradient Style");
     subtitle := Some "Blue gradient with 2x3 grid layout";
     xlabel := None;
     ylabels := YLabelsNone;
     color_scheme := SchemeName "gradient_blue";
     bg_style := "minimal";
     show_values := true;
     value_format := None;
     layout := Some (LayoutGrid 2 3);
     save_path := Some ("exports/examples/" +:+ sheet_name +:+ "_gradient.png");
     grid := true |}.

(** [for j in range(len(column_groups)): custom_titles[j] = ...]. *)
Definition custom_group_titles (sheet_name : string) (n_groups : nat)
    : gmap nat string :=
  foldl (fun titles j =>
           <[j := "HDFC " +:+ sheet_name +:+ " - Group " +:+ str_nat (j + 1)]>
             titles)
        ∅ (seq 0 n_groups).

Definition example_dashboard (sheet_name : string)
    (groups : list (list string)) : dashboard_options :=
  {| column_groups := Some groups;
     output_path := Some ("exports/examples/" +:+ sheet_name +:+ "_dashboard");
     title_prefix := "HDFC";
     color_schemes := Some (SchemeName <$> COLOR_SCHEME_NAMES);
     dash_bg_style := "presentation";
     layout_options := None;
     custom_titles := Some (custom_group_titles sheet_name (length groups));
     custom_subtitles := None;
     value_formats := None;
     global_xlabel := None;
     global_ylabel := YLabelsNone |}.

(** The columns of the second chart. *)
Definition professional_columns (cols : list string) : list string :=
  let n := length cols in
  if (4 <? n)%nat then slice cols (4 `min` n) (8 `min` n)
  else slice cols 0 (4 `min` n).

(** [if len(columns) > 0: plot_bar_chart(...)]: the chart, if it is drawn. *)
Definition plot_if_any (df : DataFrame) (cols : list string)
    (o : plot_options) : result (list (figure * list nat)) :=
  if (0 <? length cols)%nat
  then chart ← plot_bar_chart df cols o; Ok [chart]
  else Ok [].

Section Script.

(** [pd.read_excel(excel_file, sheet_name=sheet, index_col="Category")]. *)
Variable read_excel : string -> result DataFrame.

(** The body of the loop for one sheet: the figures it draws, in order,
    and the line it prints at the end. *)
Definition sheet_examples (sheet_name : string)
    : result (list (figure * list nat) * string) :=
  df ← read_excel sheet_name;
  let cols := columns df in
  basic ← plot_bar_chart df (slice cols 0 (4 `min` length cols))
             (basic_options sheet_name);
  professional ← plot_if_any df (professional_columns cols)
                    (professional_options sheet_name);
  gradient ← plot_if_any df (slice cols 0 (6 `min` length cols))
                (gradient_options sheet_name);
  let groups := foldl (append_group cols) [] (range 0 (length cols) 4) in
  dashboard ← create_dashboard df sheet_name
                 (example_dashboard sheet_name groups);
  Ok ((basic :: professional) ++ gradient ++ dashboard,
      "  - Created " +:+ str_nat (3 + length dashboard)
        +:+ " visualizations for " +:+ sheet_name)%list.

(** [for i, sheet in enumerate(sheet_names): ...], without a handler: an
    exception ends the loop.  The state is the console. *)
Fixpoint process_sheets (total i : nat) (sheets : list string)
    (out : GenerateDashboard.console)
    : GenerateDashboard.console * result unit :=
  match sheets with
  | [] => (out, Ok ())
  | sheet_name :: rest =>
      let out :=
        GenerateDashboard.print
          ("Processing sheet " +:+ str_nat (i + 1) +:+ "/" +:+ str_nat total
             +:+ ": " +:+ sheet_name) out in
      match sheet_examples sheet_name with
      | Ok (_, line) =>
          process_sheets total (S i) rest (GenerateDashboard.print line out)
      | Raise e => (out, Raise e)
      end
  end.

Definition generate_examples (sheet_names : list string)
    : GenerateDashboard.console * result unit :=
  let '(out, r) := process_sheets (length sheet_names) 0 sheet_names [] in
  match r with
  | Ok _ =>
      (GenerateDashboard.print
         "All example visualizations generated in exports/examples/" out,
       Ok ())
  | Raise e => (out, Raise e)
  end.

End Script.

End GenerateExamples.

(** ** remove_subtotal.py: the files it reads and writes *)

Module RemoveSubtotalFiles.

Import RemoveSubtotal.
Local Open Scope string_scope.

Definition original_file : string := "HDFC.xlsx".
Definition backup_file : string := "HDFC_backup.xlsx".
Definition modified_file : string := "HDFC_modified.xlsx".

(** What opening a missing file raises. *)
Definition FileNotFoundError (path : string) : exn :=
  OtherException "FileNotFoundError"
    ("[Errno 2] No such file or directory: '" +:+ path +:+ "'").

Section Files.

(** The content of a workbook file, and what pandas does with it. *)
Variable workbook : Type.

(** [pd.ExcelFile(f).sheet_names]. *)
Variable sheet_names : workbook -> list string.

(** [pd.read_excel(f, sheet_name=..., index_col="Category")]. *)
Variable read_excel_category : workbook -> string -> result DataFrame.

(** [pd.read_excel(f, sheet_name=...)]. *)
Variable read_excel : workbook -> string -> DataFrame.

(** The file [pd.ExcelWriter] leaves when the [with] block ends. *)
Variable to_excel : list written_sheet -> workbook.

(** The working directory: the files by name. *)
Abbreviation files := (gmap string workbook).

(** [open(path)] for reading. *)
Definition open_file (fs : files) (path : string) : result workbook :=
  match fs !! path with
  | Some w => Ok w
  | None => Raise (FileNotFoundError path)
  end.

(** [if not os.path.exists(backup_file):
       shutil.copy2(original_file, backup_file)]. *)
Definition make_backup (fs : files) : result files :=
  match fs !! backup_file with
  | Some _ => Ok fs
  | None => w ← open_file fs original_file; Ok (<[backup_file := w]> fs)
  end.

(** The whole script, as a transformation of the working directory. *)
Definition run (fs : files) : result files :=
  fs ← make_backup fs;
  w ← open_file fs original_file;
  let written := script (read_excel_category w) (read_excel w) (sheet_names w) in
  Ok (<[modified_file := to_excel written]> fs).

End Files.

End RemoveSubtotalFiles.

(** ** vix-claude.py *)

Module VixClaude.

Local Open Scope string_scope.

(** *** Text of labels and titles (ASCII) *)

Definition is_upper (c : ascii) : bool :=
  let n := nat_of_ascii c in (65 <=? n)%nat && (n <=? 90)%nat.

Definition is_lower (c : ascii) : bool :=
  let n := nat_of_ascii c in (97 <=? n)%nat && (n <=? 122)%nat.

Definition upper_ascii (c : ascii) : ascii :=
  if is_lower c then ascii_of_nat (nat_of_ascii c - 32) else c.

(** [s.replace('_', ' ')]. *)
Fixpoint replace_underscores (s : string) : string :=
  match s with
  | EmptyString => EmptyString
  | String c s' =>
      String (if Ascii.eqb c "_" then " "%char else c) (replace_underscores s')
  end.

(** [s.title()]: a letter that follows a letter is lowered, any other
    letter is raised. *)
Fixpoint title_from (previous_is_cased : bool) (s : string) : string :=
  match s with
  | EmptyString => EmptyString
  | String c s' =>
      String (if previous_is_cased then lower_ascii c else upper_ascii c)
             (title_from (is_upper c || is_lower c) s')
  end.

Definition title (s : string) : string := title_from false s.

(** [col.replace('_', ' ').title()]. *)
Definition display_name (col : string) : string :=
  title (replace_underscores col).

(** *** Tables

    A table is known here by its columns, each with its name and whether
    its dtype is numeric, and by its number of rows. *)
Record DataFrame : Type := {
  columns : list (string * bool);
  n_rows : nat
}.

(** [df.columns]. *)
Definition column_names (df : DataFrame) : list string := (columns df).*1.

(** [df.select_dtypes(include=[np.number]).columns.tolist()]. *)
Definition select_numeric (df : DataFrame) : list string :=
  (filter (fun c => c.2 = true) (columns df)).*1.

(** [if x in l: l.remove(x)]: the first occurrence goes. *)
Fixpoint remove (x : string) (l : list string) : list string :=
  match l with
  | [] => []
  | y :: l' => if String.eqb y x then l' else y :: remove x l'
  end.

(** *** Figures

    One axis per group.  An axis is hidden or carries, for each valid
    column, one series of bars: the bars of row [x] are centred at
    [x + bar_offset], [bar_width] wide and as high as the column's values. *)
Record bar_series : Type := {
  bar_column : string;
  bar_offset : Q;
  bar_width_ : Q;
  bar_label : string;
  bar_color : nat
}.

Inductive axis : Type :=
| Hidden
| Drawn (ax_title xlabel : string) (xticks : nat) (bars : list bar_series).

(** [0.8 / len(valid_cols)], where [valid_cols] is not empty. *)
Definition bar_width (n_valid : nat) : Q :=
  (8 # 10) / inject_Z (Z.of_nat n_valid).

(** [(j - len(valid_cols)/2 + 0.5) * bar_width]. *)
Definition offset (j n_valid : nat) : Q :=
  (inject_Z (Z.of_nat j) - inject_Z (Z.of_nat n_valid) / 2 + (1 # 2))
  * bar_width n_valid.

(** The text written above a bar. *)
Definition value_label (height : float) : option string :=
  match height with
  | NaN => None
  | Num h =>
      Some (if Qltb (Qabs h) 1000 then format_fixed 2 h else format_fixed 0 h)
  end.

Definition newline : string := String (ascii_of_nat 10) EmptyString.

Definition group_title (i : nat) (valid_cols : list string) : string :=
  let group_title :=
    "Group " +:+ str_nat (i + 1) +:+ ": "
    +:+ String.concat " | " (display_name <$> slice valid_cols 0 2) in
  if (2 <? length valid_cols)%nat
  then group_title +:+ newline +:+ "+ "
       +:+ str_nat (length valid_cols - 2) +:+ " more columns"
  else group_title.

(** The body of the loop over the groups. *)
Definition draw_axis (df : DataFrame) (category_col : string) (i : nat)
    (group_cols : list string) : result axis :=
  let valid_cols := filter (fun col => col ∈ column_names df) group_cols in
  if truthy valid_cols then
    if bool_decide (category_col ∈ column_names df) then
      let n := length valid_cols in
      Ok (Drawn (group_title i valid_cols) (display_name category_col)
            (n_rows df)
            (imap (fun j col =>
                     {| bar_column := col;
                        bar_offset := offset j n;
                        bar_width_ := bar_width n;
                        bar_label := display_name col;
                        bar_color := j |})
                  valid_cols))
    else Raise (KeyError category_col)
  else Ok Hidden.

Fixpoint draw_axes (df : DataFrame) (category_col : string) (i : nat)
    (column_groups : list (list string)) : result (list axis) :=
  match column_groups with
  | [] => Ok []
  | group_cols :: rest =>
      ax ← draw_axis df category_col i group_cols;
      axes ← draw_axes df category_col (S i) rest;
      Ok (ax :: axes)
  end.

(** [plt.subplots(0, 1)] is refused by matplotlib. *)
Definition create_grouped_barplots (df : DataFrame)
    (column_groups : list (list string)) (category_col : string)
    : result (list axis) :=
  if (length column_groups =? 0)%nat
  then Raise (ValueError "Number of rows must be a positive integer, not 0")
  else draw_axes df category_col 0 column_groups.

(** The grouping of [create_predefined_groups_plot]. *)
Definition predefined_groups (numeric_cols : list string)
    : list (list string) :=
  let n := length numeric_cols in
  let column_groups : list (list string) := [] in
  let column_groups :=
    if (2 <=? n)%nat then (column_groups ++ [slice numeric_cols 0 2])%list
    else if (0 <? n)%nat then (column_groups ++ [slice numeric_cols 0 1])%list
    else column_groups in
  let column_groups :=
    if (6 <=? n)%nat then (column_groups ++ [slice numeric_cols 2 6])%list
    else if (2 <? n)%nat
         then (column_groups ++ [slice numeric_cols 2 (Nat.min 6 n)])%list
    else column_groups in
  let column_groups :=
    if (10 <=? n)%nat then (column_groups ++ [slice numeric_cols 6 10])%list
    else if (6 <? n)%nat
         then (column_groups ++ [slice numeric_cols 6 (Nat.min 10 n)])%list
    else column_groups in
  let column_groups :=
    if (12 <=? n)%nat then (column_groups ++ [slice numeric_cols 10 12])%list
    else if (10 <? n)%nat
         then (column_groups ++ [slice numeric_cols 10 (Nat.min 12 n)])%list
    else column_groups in
  let column_groups :=
    if (12 <? n)%nat then (column_groups ++ [drop 12 numeric_cols])%list
    else column_groups in
  filter (fun group => truthy group = true) column_groups.

(** What the function prints about the groups. *)
Definition group_lines (column_groups : list (list string)) : list string :=
  "Column Groups:"
  :: imap (fun i group => "Group " +:+ str_nat (i + 1) +:+ ": "
                          +:+ str_list group)
          column_groups.

(** The printed lines and the figure's axes. *)
Definition create_predefined_groups_plot (df : DataFrame)
    (category_col : string) : list string * result (list axis) :=
  let numeric_cols := remove category_col (select_numeric df) in
  let column_groups := predefined_groups numeric_cols in
  (group_lines column_groups,
   create_grouped_barplots df column_groups category_col).

End VixClaude.

(** ** Definitions used to state the properties *)

(** [ceil_div n d] is the ceiling of [n / d]. *)
Definition ceil_div (n d : nat) : nat := (n + d - 1) / d.
Arguments ceil_div : simpl never.

(** The palette the helper falls back to. *)
Definition corporate : list HdfcViz.color :=
  HdfcViz.Hex <$> ["#003f5c"; "#2f4b7c"; "#665191"; "#a05195";
                   "#d45087"; "#f95d6a"; "#ff7c43"; "#ffa600"]%string.

(** The palette a scheme stands for: a list of colors is used as given,
    a name of COLOR_SCHEMES stands for its palette and any other name for
    the corporate palette. *)
Definition scheme_palette (scheme : HdfcViz.color_scheme_arg)
    : list HdfcViz.color :=
  match scheme with
  | HdfcViz.SchemeList colors => colors
  | HdfcViz.SchemeName name =>
      match HdfcViz.COLOR_SCHEMES !! name with
      | Some colors => colors
      | None => corporate
      end
  end.

(** The gradient from [first] to [final] sampled at n evenly spaced
    points, the two ends included. *)
Definition gradient (first final : HdfcViz.color) (n : nat)
    : list HdfcViz.color :=
  (fun i => HdfcViz.Blend first final (Z.of_nat i # Pos.of_nat (n - 1)))
    <$> seq 0 n.

(** A scheme argument the helper can draw from: a name, or a list that
    holds at least one color. *)
Definition usable_scheme (scheme : HdfcViz.color_scheme_arg) : Prop :=
  match scheme with
  | HdfcViz.SchemeName _ => True
  | HdfcViz.SchemeList colors => colors <> []
  end.

(** The lines one sheet adds to the console of the driver. *)
Definition sheet_lines
    (read_excel : string -> string -> result HdfcViz.DataFrame)
    (dashboard : HdfcViz.DataFrame -> string -> HdfcViz.dashboard_options ->
                 result (list (HdfcViz.figure * list nat)))
    (a : GenerateDashboard.args) (sheet_name : string) : list string :=
  [ ("Processing sheet: " +:+ sheet_name)%string;
    match GenerateDashboard.try_body read_excel dashboard a sheet_name with
    | Ok line => line
    | Raise e => GenerateDashboard.error_line sheet_name e
    end ].

(** *** The formatting rule in the words of the specification *)

(** The part of [x] after the decimal point. *)
Definition fractional_part (x : Q) : Q := (x - inject_Z (Qfloor x))%Q.

(** [x] lies within 0.01 of an integer: the distance to the integer below
    or to the one above is less than 0.01. *)
Definition near_integer (x : Q) : bool :=
  Qltb (Qmin (fractional_part x) (1 - fractional_part x)) (1 # 100).



(** *** The cleaning step in the words of the specification *)

(** A row labelled "Sub total": by its Category label when the sheet is
    indexed by Category, and by a cell holding that text when the sheet
    has no Category column. *)
Definition subtotal_row (r : RemoveSubtotal.sheet_read)
    (row : RemoveSubtotal.cell * list RemoveSubtotal.cell) : bool :=
  if RemoveSubtotal.has_category_index r
  then RemoveSubtotal.is_subtotal row.1
  else existsb (fun j => RemoveSubtotal.is_subtotal (RemoveSubtotal.cell_at row j))
         (seq 0 (length (RemoveSubtotal.columns (RemoveSubtotal.frame r)))).

(** The sheet with its subtotal rows removed, the others kept as they are
    and in their order. *)
Definition without_subtotal_rows (r : RemoveSubtotal.sheet_read)
    : RemoveSubtotal.DataFrame :=
  {| RemoveSubtotal.columns := RemoveSubtotal.columns (RemoveSubtotal.frame r);
     RemoveSubtotal.rows :=
       filter (fun row => subtotal_row r row = false)
              (RemoveSubtotal.rows (RemoveSubtotal.frame r)) |}.

(** The settings of the 'default' background style. *)
Definition default_style : HdfcViz.bg_settings :=
  {| HdfcViz.style := "whitegrid"; HdfcViz.grid_alpha := 3 # 10 |}.

(** *** Sample data *)

Definition sample_frame : HdfcViz.DataFrame :=
  {| HdfcViz.index_name := Some "Category"%string;
     HdfcViz.index := ["Retail"; "Corporate"; "SME"]%string;
     HdfcViz.table :=
       [ ("Accounts"%string, [Num 120; Num 80; Num 45]);
         ("Growth %"%string, [Num (5 # 100); Num (1 # 8); Num (3 # 1000)]);
         ("Balance"%string, [Num (2501 # 2); Num 990; NaN]) ] |}.

Definition sample_options : HdfcViz.plot_options :=
  {| HdfcViz.title := Some "HDFC"%string;
     HdfcViz.subtitle := None;
     HdfcViz.xlabel := None;
     HdfcViz.ylabels := HdfcViz.YLabelsNone;
     HdfcViz.color_scheme := HdfcViz.SchemeName "corporate";
     HdfcViz.bg_style := "default"%string;
     HdfcViz.show_values := true;
     HdfcViz.value_format := None;
     HdfcViz.layout := None;
     HdfcViz.save_path := None;
     HdfcViz.grid := true |}.



(** The same options with [layout] replaced. *)
Definition with_layout (o : HdfcViz.plot_options)
    (l : option HdfcViz.layout_arg) : HdfcViz.plot_options :=
  {| HdfcViz.title := HdfcViz.title o;
     HdfcViz.subtitle := HdfcViz.subtitle o;
     HdfcViz.xlabel := HdfcViz.xlabel o;
     HdfcViz.ylabels := HdfcViz.ylabels o;
     HdfcViz.color_scheme := HdfcViz.color_scheme o;
     HdfcViz.bg_style := HdfcViz.bg_style o;
     HdfcViz.show_values := HdfcViz.show_values o;
     HdfcViz.value_format := HdfcViz.value_format o;
     HdfcViz.layout := l;
     HdfcViz.save_path := HdfcViz.save_path o;
     HdfcViz.grid := HdfcViz.grid o |}.

Definition sample_dashboard (output_path : option string)
    : HdfcViz.dashboard_options :=
  {| HdfcViz.column_groups :=
       Some [["Accounts"; "Growth %"]; ["Balance"]]%string;
     HdfcViz.output_path := output_path;
     HdfcViz.title_prefix := "HDFC"%string;
     HdfcViz.color_schemes :=
       Some [HdfcViz.SchemeName "hdfc_brand"; HdfcViz.SchemeName "pastel"];
     HdfcViz.dash_bg_style := "presentation"%string;
     HdfcViz.layout_options := None;
     HdfcViz.custom_titles := None;
     HdfcViz.custom_subtitles := None;
     HdfcViz.value_formats := None;
     HdfcViz.global_xlabel := None;
     HdfcViz.global_ylabel := HdfcViz.YLabelsNone |}.

(** A sheet that holds the Category column and nothing else. *)
Definition empty_frame : HdfcViz.DataFrame :=
  {| HdfcViz.index_name := Some "Category"%string;
     HdfcViz.index := ["Retail"; "Corporate"]%string;
     HdfcViz.table := [] |}.

Definition automatic_dashboard : HdfcViz.dashboard_options :=
  {| HdfcViz.column_groups := None;
     HdfcViz.output_path := None;
     HdfcViz.title_prefix := "HDFC"%string;
     HdfcViz.color_schemes := None;
     HdfcViz.dash_bg_style := "presentation"%string;
     HdfcViz.layout_options := None;
     HdfcViz.custom_titles := None;
     HdfcViz.custom_subtitles := None;
     HdfcViz.value_formats := None;
     HdfcViz.global_xlabel := None;
     HdfcViz.global_ylabel := HdfcViz.YLabelsNone |}.

(** A driver run: the sheet "Bad" cannot be loaded, the others hold the
    sample table. *)
Definition sample_read_excel (file sheet_name : string)
    : result HdfcViz.DataFrame :=
  if (sheet_name =? "Bad")%string
  then Raise (ValueError "Index Category invalid")
  else Ok sample_frame.

Definition sample_args : GenerateDashboard.args :=
  {| GenerateDashboard.file := "HDFC_modified.xlsx"%string;
     GenerateDashboard.sheet := None;
     GenerateDashboard.output := "./exports"%string;
     GenerateDashboard.dpi := 300;
     GenerateDashboard.title := None;
     GenerateDashboard.style := "presentation"%string;
     GenerateDashboard.colors := "hdfc_brand"%string |}.

(** A workbook for the cleaning script: "Summary" has a Category column,
    "Notes" has none. *)
Definition sample_summary : RemoveSubtotal.DataFrame :=
  {| RemoveSubtotal.columns := ["Accounts"; "Remark"]%string;
     RemoveSubtotal.rows :=
       [ (RemoveSubtotal.Text "Retail",
          [RemoveSubtotal.Number 120; RemoveSubtotal.Text "Sub total"]);
         (RemoveSubtotal.Text "Sub total",
          [RemoveSubtotal.Number 200; RemoveSubtotal.Blank]);
         (RemoveSubtotal.Text "SME",
          [RemoveSubtotal.Number 80; RemoveSubtotal.Blank]) ] |}.

Definition sample_notes : RemoveSubtotal.DataFrame :=
  {| RemoveSubtotal.columns := ["Name"; "Amount"]%string;
     RemoveSubtotal.rows :=
       [ (RemoveSubtotal.Number 0,
          [RemoveSubtotal.Text "A"; RemoveSubtotal.Number 1]);
         (RemoveSubtotal.Number 1,
          [RemoveSubtotal.Text "Sub total"; RemoveSubtotal.Number 3]);
         (RemoveSubtotal.Number 2,
          [RemoveSubtotal.Text "B"; RemoveSubtotal.Text "Sub total"]);
         (RemoveSubtotal.Number 3,
          [RemoveSubtotal.Text "C"; RemoveSubtotal.Number 2]) ] |}.



(** The sample options with an explicit grid of one row and two columns. *)
Definition sample_tight_options : HdfcViz.plot_options :=
  with_layout sample_options (Some (HdfcViz.LayoutGrid 1 2)).

(** A dashboard whose second group names no column of the sample table. *)
Definition broken_dashboard : HdfcViz.dashboard_options :=
  {| HdfcViz.column_groups := Some [["Accounts"]; ["Missing"]; ["Balance"]]%string;
     HdfcViz.output_path := None;
     HdfcViz.title_prefix := "HDFC"%string;
     HdfcViz.color_schemes := None;
     HdfcViz.dash_bg_style := "presentation"%string;
     HdfcViz.layout_options := None;
     HdfcViz.custom_titles := None;
     HdfcViz.custom_subtitles := None;
     HdfcViz.value_formats := None;
     HdfcViz.global_xlabel := None;
     HdfcViz.global_ylabel := HdfcViz.YLabelsNone |}.

(** The sample dashboard with an empty list of color schemes. *)
Definition colorless_dashboard : HdfcViz.dashboard_options :=
  {| HdfcViz.column_groups := Some [["Accounts"]]%string;
     HdfcViz.output_path := None;
     HdfcViz.title_prefix := "HDFC"%string;
     HdfcViz.color_schemes := Some [];
     HdfcViz.dash_bg_style := "presentation"%string;
     HdfcViz.layout_options := None;
     HdfcViz.custom_titles := None;
     HdfcViz.custom_subtitles := None;
     HdfcViz.value_formats := None;
     HdfcViz.global_xlabel := None;
     HdfcViz.global_ylabel := HdfcViz.YLabelsNone |}.

(** A table with columns and no row. *)
Definition rowless_frame : HdfcViz.DataFrame :=
  {| HdfcViz.index_name := Some "Category"%string;
     HdfcViz.index := [];
     HdfcViz.table := [("Accounts"%string, []); ("Balance"%string, [])] |}.

Definition rowless_read_excel (file sheet_name : string)
    : result HdfcViz.DataFrame :=
  Ok rowless_frame.


(** The title [create_dashboard] passes for the group of index [i]. *)
Definition group_title (o : HdfcViz.dashboard_options) (sheet_name : string)
    (i : nat) : string :=
  match HdfcViz.custom_titles o ≫= (.!! i) with
  | Some t => t
  | None => (HdfcViz.title_prefix o +:+ " " +:+ sheet_name
               +:+ " Analysis - Group " +:+ str_nat (i + 1))%string
  end.

(** A sheet read back the way it was read before: with the Category
    index when it had one. *)
Definition reread (r : RemoveSubtotal.sheet_read)
    (df : RemoveSubtotal.DataFrame) : RemoveSubtotal.sheet_read :=
  match r with
  | RemoveSubtotal.WithCategory _ => RemoveSubtotal.WithCategory df
  | RemoveSubtotal.Plain _ => RemoveSubtotal.Plain df
  end.

(** A working directory for the cleaning script: a workbook is the list of
    its sheets as they would be written. *)
Definition sample_workbook : list RemoveSubtotal.written_sheet :=
  [ {| RemoveSubtotal.ws_name := "Summary"%string;
       RemoveSubtotal.ws_frame := sample_summary;
       RemoveSubtotal.ws_index := true |};
    {| RemoveSubtotal.ws_name := "Notes"%string;
       RemoveSubtotal.ws_frame := sample_notes;
       RemoveSubtotal.ws_index := false |} ].

Definition workbook_sheet_names (w : list RemoveSubtotal.written_sheet)
    : list string :=
  RemoveSubtotal.ws_name <$> w.

Definition workbook_read_category (w : list RemoveSubtotal.written_sheet)
    (sheet_name : string) : result RemoveSubtotal.DataFrame :=
  match list_find (fun ws => RemoveSubtotal.ws_name ws = sheet_name
                             /\ RemoveSubtotal.ws_index ws = true) w with
  | Some (_, ws) => Ok (RemoveSubtotal.ws_frame ws)
  | None => Raise (ValueError "Index Category invalid")
  end.

Definition workbook_read_plain (w : list RemoveSubtotal.written_sheet)
    (sheet_name : string) : RemoveSubtotal.DataFrame :=
  match list_find (fun ws => RemoveSubtotal.ws_name ws = sheet_name) w with
  | Some (_, ws) => RemoveSubtotal.ws_frame ws
  | None => {| RemoveSubtotal.columns := []; RemoveSubtotal.rows := [] |}
  end.

Definition sample_directory : gmap string (list RemoveSubtotal.written_sheet) :=
  {[ "HDFC.xlsx"%string := sample_workbook ]}.

(** The columns whose bars an axis shows, in their order. *)
Definition axis_columns (ax : VixClaude.axis) : list string :=
  match ax with
  | VixClaude.Hidden => []
  | VixClaude.Drawn _ _ _ bars => VixClaude.bar_column <$> bars
  end.

Definition axis_hidden (ax : VixClaude.axis) : bool :=
  match ax with VixClaude.Hidden => true | _ => false end.

(** The first two, the next four, the next four, the next two and the
    remaining elements of a list. *)
Definition five_slices {A} (l : list A) : list (list A) :=
  [take 2 l; take 4 (drop 2 l); take 4 (drop 6 l); take 2 (drop 10 l);
   drop 12 l].

(** A table with a text column and three numeric ones. *)
Definition status_frame : VixClaude.DataFrame :=
  {| VixClaude.columns :=
       [("Category", false); ("CAP_LRM_cohort", true);
        ("CAP_12_cohort", true); ("Average_KPI", true)]%string;
     VixClaude.n_rows := 2 |}.

(** ** Arithmetic helpers *)

Lemma ceil_div_4_bounds n : n <= 4 * ceil_div n 4 < n + 4.
Proof.
  unfold ceil_div.
  pose proof (Nat.div_mod_eq (n + 4 - 1) 4) as E.
  pose proof (Nat.mod_upper_bound (n + 4 - 1) 4).
  lia.
Qed.

Lemma ceil_div_4_step n : 0 < n -> ceil_div n 4 = S (ceil_div (n - 4) 4).
Proof.
  intros Hn.
  pose proof (ceil_div_4_bounds n).
  pose proof (ceil_div_4_bounds (n - 4)).
  lia.
Qed.

Lemma ceil_div_4_zero : ceil_div 0 4 = 0.
Proof. reflexivity. Qed.

(** ** The grouping loop *)

Section GroupingFacts.
Context {A : Type}.
Implicit Types (cols : list A) (acc : list (list A)).

Lemma slice_nonempty cols i :
  i < length cols -> truthy (slice cols i (i + 4)) = true.
Proof.
  intros Hi. unfold slice.
  replace (i + 4 - i) with 4 by lia.
  destruct (drop i cols) as [|x rest] eqn:E; [|reflexivity].
  apply (f_equal length) in E. rewrite length_drop in E. simpl in E. lia.
Qed.

(** One run of the loop from index [i], with enough fuel, appends the
    chunks of [drop i cols]. *)
Lemma loop_from_spec cols fuel : forall i acc,
  length cols - i <= fuel ->
  forall out,
  out = foldl (HdfcViz.append_group cols) acc
          (range_from fuel i (length cols) 4) ->
  concat out = concat acc ++ drop i cols
  /\ length out = length acc + ceil_div (length cols - i) 4
  /\ (Forall (fun g => 1 <= length g <= 4) acc ->
      Forall (fun g => 1 <= length g <= 4) out).
Proof.
  assert (Hstop : forall i acc, length cols <= i ->
    concat acc = concat acc ++ drop i cols
    /\ length acc = length acc + ceil_div (length cols - i) 4
    /\ (Forall (fun g => 1 <= length g <= 4) acc ->
        Forall (fun g => 1 <= length g <= 4) acc)).
  { intros i acc Hi. replace (length cols - i) with 0 by lia.
    rewrite drop_ge by lia. rewrite app_nil_r, ceil_div_4_zero.
    repeat split; auto with lia. }
  induction fuel as [|fuel IH]; intros i acc Hfuel out ->; simpl.
  - apply Hstop. lia.
  - destruct (Nat.ltb_spec i (length cols)) as [Hlt|Hge]; simpl;
      [|by apply Hstop].
    pose proof (slice_nonempty cols i Hlt) as Ht.
    unfold HdfcViz.append_group at 2 4 6. rewrite Ht.
    assert (Hfuel' : length cols - (i + 4) <= fuel) by lia.
    destruct (IH (i + 4) (acc ++ [slice cols i (i + 4)]) Hfuel' _ eq_refl)
      as (Hc & Hl & Hf).
    assert (Hlen : 1 <= length (slice cols i (i + 4)) <= 4).
    { unfold slice. rewrite length_take, length_drop. lia. }
    split; [|split].
    + rewrite Hc, concat_app. simpl. rewrite app_nil_r, <- app_assoc.
      f_equal. unfold slice. replace (i + 4 - i) with 4 by lia.
      rewrite <- drop_drop. apply take_drop.
    + rewrite Hl, length_app. simpl.
      rewrite (ceil_div_4_step (length cols - i)) by lia.
      replace (length cols - (i + 4)) with (length cols - i - 4) by lia. lia.
    + intros Hacc. apply Hf. apply Forall_app. split; [done|].
      by constructor.
Qed.

(** The driver's loop: for every table, ceil(N/4) groups of one to four
    columns that concatenate to the column list. *)
Lemma main_column_groups_spec cols :
  length (GenerateDashboard.column_groups cols) = ceil_div (length cols) 4
  /\ Forall (fun g => 1 <= length g <= 4) (GenerateDashboard.column_groups cols)
  /\ concat (GenerateDashboard.column_groups cols) = cols.
Proof.
  unfold GenerateDashboard.column_groups, range.
  assert (Hfuel : length cols - 0 <= length cols) by lia.
  destruct (loop_from_spec cols (length cols) 0 [] Hfuel _ eq_refl)
    as (Hc & Hl & Hf).
  rewrite Nat.sub_0_r in Hl. simpl in *. auto.
Qed.

(** [create_dashboard]'s own grouping agrees with the driver's loop on
    every table that has at least one column. *)
Lemma auto_column_groups_nonempty cols :
  cols <> [] ->
  HdfcViz.auto_column_groups cols = GenerateDashboard.column_groups cols.
Proof.
  intros Hne. unfold HdfcViz.auto_column_groups.
  destruct (Nat.leb_spec (length cols) 4) as [Hle|Hgt]; [|reflexivity].
  destruct cols as [|a [|b [|c [|d [|e rest]]]]]; try done; simpl in Hle; lia.
Qed.

(** So [create_dashboard] puts every table that has a column into
    ceil(N/4) groups of one to four columns, in order. *)
Lemma auto_column_groups_spec cols :
  cols <> [] ->
  length (HdfcViz.auto_column_groups cols) = ceil_div (length cols) 4
  /\ Forall (fun g => 1 <= length g <= 4) (HdfcViz.auto_column_groups cols)
  /\ concat (HdfcViz.auto_column_groups cols) = cols.
Proof.
  intros Hne. rewrite auto_column_groups_nonempty by done.
  apply main_column_groups_spec.
Qed.

End GroupingFacts.

(** ** The error monad *)

Section ResultFacts.
Context {A B : Type}.

Lemma bind_Ok (a : A) (f : A -> result B) : (Ok a ≫= f) = f a.
Proof. reflexivity. Qed.

Lemma bind_Raise (e : exn) (f : A -> result B) : (Raise e ≫= f) = Raise e.
Proof. reflexivity. Qed.

Lemma bind_Ok_inv (m : result A) (f : A -> result B) b :
  (m ≫= f) = Ok b -> exists a, m = Ok a /\ f a = Ok b.
Proof. destruct m as [a|e]; simpl; [eauto | discriminate]. Qed.

(** A loop whose body returns at every element returns the list of the
    results. *)
Lemma for_each_Ok (f : A -> result B) (g : A -> B) (l : list A) :
  (forall a, a ∈ l -> f a = Ok (g a)) -> for_each f l = Ok (g <$> l).
Proof.
  induction l as [|a l IH]; intros Hf; simpl; [done|].
  rewrite Hf by apply list_elem_of_here. simpl.
  rewrite IH; [done|]. intros a' Ha'. apply Hf. by apply list_elem_of_further.
Qed.

End ResultFacts.

(** ** Palettes *)

Section PaletteFacts.
Import HdfcViz.

Lemma corporate_lookup : COLOR_SCHEMES !! "corporate"%string = Some corporate.
Proof. vm_compute. reflexivity. Qed.

(** Every predefined scheme has eight colors. *)
Lemma color_schemes_length name colors :
  COLOR_SCHEMES !! name = Some colors -> length colors = 8.
Proof.
  unfold COLOR_SCHEMES. intros H. apply elem_of_list_to_map_2 in H.
  repeat (apply elem_of_cons in H as [H|H];
          [by injection H as -> ->|]).
  by apply elem_of_nil in H.
Qed.

Lemma selected_colors_usable scheme :
  usable_scheme scheme ->
  exists colors, selected_colors scheme = Ok colors /\ colors <> [].
Proof.
  destruct scheme as [name|colors]; simpl; [intros _|by eauto].
  destruct (COLOR_SCHEMES !! name) as [colors|] eqn:E.
  - exists colors. split; [done|].
    apply color_schemes_length in E. by destruct colors.
  - unfold dict_getitem. rewrite corporate_lookup. by exists corporate.
Qed.

(** The gradient branch: one blended color per category. *)
Lemma gradient_Ok (first final : color) n :
  2 <= n ->
  for_each (fun i => t ← float_div i (n - 1); Ok (Blend first final t)) (seq 0 n)
  = Ok ((fun i => Blend first final (Z.of_nat i # Pos.of_nat (n - 1)))
          <$> seq 0 n).
Proof.
  intros Hn. apply for_each_Ok. intros i _.
  unfold float_div. destruct (n - 1) eqn:E; [lia|reflexivity].
Qed.

Lemma get_gradient_colors_spec scheme n colors :
  selected_colors scheme = Ok colors -> colors <> [] -> 1 <= n ->
  exists out,
    _get_gradient_colors scheme n = Ok out
    /\ length out = n
    /\ (n <= length colors -> out = take n colors)
    /\ (length colors < n ->
        exists first final,
          colors !! 0 = Some first /\ last colors = Some final
          /\ out = (fun i => Blend first final (Z.of_nat i # Pos.of_nat (n - 1)))
                     <$> seq 0 n).
Proof.
  intros Hsel Hne Hn. unfold _get_gradient_colors. rewrite Hsel. simpl.
  destruct (Nat.ltb_spec (length colors) n) as [Hlt|Hge].
  - destruct colors as [|first rest]; [done|].
    destruct (last (first :: rest)) as [lst|] eqn:El.
    2: { apply last_None in El. done. }
    unfold getitem, getitem_last. simpl lookup. rewrite El. simpl.
    assert (2 <= n) by (simpl in Hlt; lia).
    rewrite gradient_Ok by done.
    eexists. split; [reflexivity|].
    split; [by rewrite length_fmap, length_seq|].
    split; [simpl in *; lia|]. intros _. by exists first, lst.
  - exists (take n colors). split; [done|].
    split; [rewrite length_take; lia|]. split; [done|lia].
Qed.

End PaletteFacts.

(** The helper selects the palette the scheme stands for. *)
Lemma selected_colors_palette scheme :
  HdfcViz.selected_colors scheme = Ok (scheme_palette scheme).
Proof.
  destruct scheme as [name|colors]; simpl; [|done].
  destruct (HdfcViz.COLOR_SCHEMES !! name); [done|].
  unfold dict_getitem. by rewrite corporate_lookup.
Qed.

Lemma scheme_palette_nonempty scheme :
  usable_scheme scheme -> scheme_palette scheme <> [].
Proof.
  intros Hs. destruct (selected_colors_usable scheme Hs) as (colors & Hsel & Hne).
  rewrite selected_colors_palette in Hsel. by injection Hsel as ->.
Qed.

(** C2.  For every usable color scheme and every number of series n >= 1,
    [_get_gradient_colors] returns exactly n colors.  They come from the
    palette the scheme stands for (the list itself, the palette of a name
    of COLOR_SCHEMES, which has eight colors, or the corporate palette
    for any other name): its first n colors when it has that many, and
    otherwise the gradient between its first and its last color, sampled
    at the points i/(n-1), i = 0 .. n-1. *)
Theorem get_gradient_colors_supplies_every_series
    (scheme : HdfcViz.color_scheme_arg) (n : nat) :
  usable_scheme scheme -> 1 <= n ->
  exists out,
    HdfcViz._get_gradient_colors scheme n = Ok out
    /\ length out = n
    /\ (n <= length (scheme_palette scheme) ->
        out = take n (scheme_palette scheme))
    /\ (length (scheme_palette scheme) < n ->
        exists first final,
          scheme_palette scheme !! 0 = Some first
          /\ last (scheme_palette scheme) = Some final
          /\ out = gradient first final n)
    /\ (forall name, scheme = HdfcViz.SchemeName name ->
                     length (scheme_palette scheme) = 8).
Proof.
  intros Hs Hn.
  destruct (get_gradient_colors_spec scheme n (scheme_palette scheme)
              (selected_colors_palette scheme)
              (scheme_palette_nonempty scheme Hs) Hn)
    as (out & Hout & Hlen & Htake & Hgrad).
  exists out. split; [done|]. split; [done|]. split; [done|].
  split; [exact Hgrad|].
  intros name ->. simpl.
  destruct (HdfcViz.COLOR_SCHEMES !! name) as [colors|] eqn:E; [|reflexivity].
  by apply color_schemes_length in E.
Qed.

Lemma get_gradient_colors_supplies_every_series_witness :
  HdfcViz._get_gradient_colors (HdfcViz.SchemeName "pastel") 10
  = Ok (gradient (HdfcViz.Hex "#66c2a5") (HdfcViz.Hex "#b3b3b3") 10)
  /\ HdfcViz._get_gradient_colors
       (HdfcViz.SchemeList (HdfcViz.Hex <$> ["#111111"; "#222222"; "#333333"]%string))
       2
     = Ok (HdfcViz.Hex <$> ["#111111"; "#222222"]%string).
Proof.
  split.
  - destruct (get_gradient_colors_supplies_every_series
                (HdfcViz.SchemeName "pastel") 10)
      as (out & Hout & _ & _ & Hgrad & _); [exact I | lia |].
    destruct Hgrad as (first & final & Hfirst & Hfinal & ->);
      [vm_compute; lia|].
    vm_compute in Hfirst, Hfinal.
    injection Hfirst as <-. injection Hfinal as <-. exact Hout.
  - destruct (get_gradient_colors_supplies_every_series
                (HdfcViz.SchemeList
                   (HdfcViz.Hex <$> ["#111111"; "#222222"; "#333333"]%string)) 2)
      as (out & Hout & _ & Htake & _); [discriminate | lia |].
    rewrite Htake in Hout by (simpl; lia). exact Hout.
Defined.

(** ** The grouping step on a table without columns *)

(** C1.  On a table with no columns [create_dashboard]'s automatic
    grouping yields one group, the empty one, where ceil(0/4) = 0 groups
    are due, and the dashboard then fails on that group; the loop of
    [generate_dashboard]'s [main] yields no group on the same table. *)
Theorem auto_column_groups_empty_table :
  HdfcViz.auto_column_groups (HdfcViz.columns empty_frame) = [[]]
  /\ length (HdfcViz.auto_column_groups (HdfcViz.columns empty_frame)) = 1
  /\ ceil_div (length (HdfcViz.columns empty_frame)) 4 = 0
  /\ GenerateDashboard.column_groups (HdfcViz.columns empty_frame) = []
  /\ HdfcViz.create_dashboard empty_frame "Sheet1" automatic_dashboard
     = Raise (ValueError
                ("None of the specified columns exist in the dataframe. "
                 +:+ "Available columns: []")).
Proof.
  split; [reflexivity|]. split; [reflexivity|]. split; [reflexivity|].
  split; [reflexivity|]. vm_compute. reflexivity.
Qed.

(** ** The per-sheet loop of the driver *)

Section MainLoopFacts.
Import GenerateDashboard.
Variable read_excel : string -> string -> result HdfcViz.DataFrame.
Variable dashboard :
  HdfcViz.DataFrame -> string -> HdfcViz.dashboard_options ->
  result (list (HdfcViz.figure * list nat)).
Variable a : args.

Abbreviation try_body := (try_body read_excel dashboard a).
Abbreviation process_sheets := (process_sheets read_excel dashboard a).
Abbreviation lines_of := (sheet_lines read_excel dashboard a).

Lemma process_sheets_console sheets : forall out,
  process_sheets sheets out = (out ++ flat_map lines_of sheets, Ok ()).
Proof.
  induction sheets as [|s rest IH]; intros out; simpl.
  - by rewrite app_nil_r.
  - rewrite IH. f_equal. unfold print, sheet_lines.
    destruct (try_body s); by rewrite <- !app_assoc.
Qed.

Lemma sheet_lines_in_console s sheets line :
  s ∈ sheets -> line ∈ lines_of s -> line ∈ flat_map lines_of sheets.
Proof.
  intros Hs Hl. apply list_elem_of_In, in_flat_map.
  exists s. by rewrite <- !list_elem_of_In.
Qed.

Lemma try_body_raises s e :
  try_body s = Raise e <->
  read_excel (file a) s = Raise e
  \/ exists df, read_excel (file a) s = Ok df
       /\ dashboard df s (dashboard_arguments a s df) = Raise e.
Proof.
  unfold GenerateDashboard.try_body.
  destruct (read_excel (file a) s) as [df|e1]; simpl.
  - destruct (dashboard df s _) as [charts|e2] eqn:E; simpl.
    + split; [discriminate|].
      intros [?|(df' & [= <-] & H)]; [discriminate|]. congruence.
    + split; [intros [= ->]; eauto|].
      intros [?|(df' & [= <-] & H)]; [discriminate|]. congruence.
  - split; [intros [= ->]; eauto|].
    intros [[= ->]|(df & ? & _)]; [done|discriminate].
Qed.

End MainLoopFacts.

(** C3.  In [main], whatever the list of sheets and whatever loading a
    sheet or creating its dashboard does, no exception leaves the loop;
    every sheet of the list is announced on the console, also the ones
    after a failure; and a sheet whose loading or dashboard raises [e]
    leaves the line "Error processing sheet <sheet>: <e>" on the console. *)
Theorem main_loop_continues_after_exception
    (read_excel : string -> string -> result HdfcViz.DataFrame)
    (dashboard : HdfcViz.DataFrame -> string -> HdfcViz.dashboard_options ->
                 result (list (HdfcViz.figure * list nat)))
    (a : GenerateDashboard.args) (sheets : list string)
    (out : GenerateDashboard.console) :
  exists out',
    GenerateDashboard.process_sheets read_excel dashboard a sheets out
      = (out', Ok ())
    /\ out' = out ++ flat_map (sheet_lines read_excel dashboard a) sheets
    /\ (forall s, s ∈ sheets -> ("Processing sheet: " +:+ s)%string ∈ out')
    /\ (forall s e, s ∈ sheets ->
          (read_excel (GenerateDashboard.file a) s = Raise e
           \/ exists df,
                read_excel (GenerateDashboard.file a) s = Ok df
                /\ dashboard df s
                     (GenerateDashboard.dashboard_arguments a s df) = Raise e) ->
          ("Error processing sheet " +:+ s +:+ ": " +:+ exn_str e)%string ∈ out').
Proof.
  eexists. split; [apply process_sheets_console|]. split; [done|]. split.
  - intros s Hs. apply elem_of_app. right.
    apply (sheet_lines_in_console _ _ _ s); [done|]. apply list_elem_of_here.
  - intros s e Hs Hraise. apply try_body_raises in Hraise.
    apply elem_of_app. right.
    apply (sheet_lines_in_console _ _ _ s); [done|].
    unfold sheet_lines. rewrite Hraise.
    apply list_elem_of_further, list_elem_of_here.
Qed.

Lemma main_loop_continues_after_exception_witness :
  exists out',
    GenerateDashboard.process_sheets sample_read_excel HdfcViz.create_dashboard
      sample_args ["Q1"; "Bad"; "Q2"]%string [] = (out', Ok ())
    /\ out' = [ "Processing sheet: Q1";
                "  - Generated 1 chart groups for Q1";
                "Processing sheet: Bad";
                "Error processing sheet Bad: Index Category invalid";
                "Processing sheet: Q2";
                "  - Generated 1 chart groups for Q2" ]%string.
Proof.
  destruct (main_loop_continues_after_exception sample_read_excel
              HdfcViz.create_dashboard sample_args ["Q1"; "Bad"; "Q2"]%string [])
    as (out' & Hrun & Hout & _).
  exists out'. split; [exact Hrun|]. rewrite Hout. vm_compute. reflexivity.
Defined.

(** ** Number formatting *)

Section FormatFacts.
Local Open Scope Q_scope.

Lemma Qltb_lt x y : Qltb x y = true <-> x < y.
Proof.
  unfold Qltb. rewrite Qlt_alt. destruct (x ?= y); split; congruence.
Qed.

Lemma Qltb_ext x y c : (x < c <-> y < c) -> Qltb x c = Qltb y c.
Proof.
  intros H. destruct (Qltb x c) eqn:Ex, (Qltb y c) eqn:Ey; try reflexivity.
  - apply Qltb_lt, H, Qltb_lt in Ex. congruence.
  - apply Qltb_lt, H, Qltb_lt in Ey. congruence.
Qed.

Lemma fractional_part_range x : 0 <= fractional_part x < 1.
Proof.
  unfold fractional_part.
  pose proof (Qfloor_le x). pose proof (Qlt_floor x) as Hlt.
  rewrite inject_Z_plus in Hlt. change (inject_Z 1) with 1 in Hlt. lra.
Qed.

(** The distance from [x] to [round x] is the smaller of the distances to
    the two neighbouring integers. *)
Lemma round_distance x :
  Qabs (x - inject_Z (round x)) == Qmin (fractional_part x) (1 - fractional_part x).
Proof.
  pose proof (fractional_part_range x) as Hr.
  unfold round, mod1. fold (fractional_part x).
  set (r := fractional_part x) in *.
  assert (Hx : x == inject_Z (Qfloor x) + r) by (unfold r, fractional_part; lra).
  assert (Hup : inject_Z (Qfloor x + 1) == inject_Z (Qfloor x) + 1)
    by (rewrite inject_Z_plus; reflexivity).
  destruct (r ?= 1 # 2) eqn:E.
  - apply Qeq_alt in E.
    rewrite Q.min_l by lra.
    destruct (Z.even (Qfloor x)).
    + rewrite Qabs_pos by lra. lra.
    + rewrite Qabs_neg by lra. lra.
  - apply Qlt_alt in E. rewrite Q.min_l by lra. rewrite Qabs_pos by lra. lra.
  - apply Qgt_alt in E. rewrite Q.min_r by lra. rewrite Qabs_neg by lra. lra.
Qed.

Lemma round_near_integer x :
  Qltb (Qabs (x - inject_Z (round x))) (1 # 100) = near_integer x.
Proof.
  unfold near_integer. apply Qltb_ext. by rewrite round_distance.
Qed.

(** [near_integer] says what its name says. *)
Lemma near_integer_spec x :
  near_integer x = true <-> exists n : Z, Qabs (x - inject_Z n) < 1 # 100.
Proof.
  rewrite <- round_near_integer, Qltb_lt. split; [by eauto|].
  intros (n & Hn). rewrite round_distance.
  pose proof (fractional_part_range x) as Hr.
  apply Qabs_Qlt_condition in Hn.
  set (f := Qfloor x) in *.
  assert (Hx : x == inject_Z f + fractional_part x)
    by (unfold fractional_part; fold f; lra).
  assert (Hcases : (n = f \/ n = f + 1)%Z).
  { destruct (Z_le_gt_dec (n + 1) f) as [Hlo|Hlo].
    { exfalso. rewrite Zle_Qle, inject_Z_plus in Hlo.
      change (inject_Z 1) with 1 in Hlo. lra. }
    destruct (Z_le_gt_dec (f + 2) n) as [Hhi|Hhi]; [|lia].
    exfalso. rewrite Zle_Qle, inject_Z_plus in Hhi.
    change (inject_Z 2) with 2 in Hhi. lra. }
  destruct Hcases as [-> | ->].
  - apply Q.min_lt_iff. left. lra.
  - rewrite inject_Z_plus in Hn. change (inject_Z 1) with 1 in Hn.
    apply Q.min_lt_iff. right. lra.
Qed.

End FormatFacts.



(** ** Dropping the subtotal rows *)

Section SubtotalFacts.
Import RemoveSubtotal.
Implicit Types (df : DataFrame) (row : cell * list cell).

Lemma filter_all {A} (P : A -> Prop) `{!forall x, Decision (P x)} (l : list A) :
  Forall P l -> filter P l = l.
Proof.
  induction 1 as [|x l Hx _ IH]; [done|].
  by rewrite filter_cons_True, IH.
Qed.

Lemma existsb_false_Forall {A} (f : A -> bool) (l : list A) :
  existsb f l = false -> Forall (fun x => f x = false) l.
Proof.
  induction l as [|x l IH]; simpl; [constructor|].
  intros [Hx Hl]%orb_false_elim. constructor; auto.
Qed.

(** Selecting by a boolean mask computed from the rows is a filter. *)
Lemma mask_filter {A} (f : A -> bool) (l : list A) :
  (filter (fun rm => rm.2 = false) (zip l (f <$> l))).*1
  = filter (fun x => f x = false) l.
Proof.
  induction l as [|x l IH]; [done|]. simpl.
  destruct (f x) eqn:E.
  - rewrite !filter_cons_False by (simpl; congruence). exact IH.
  - rewrite !filter_cons_True by done. rewrite fmap_cons. simpl. f_equal. exact IH.
Qed.

Lemma drop_masked_spec df j :
  drop_masked df j
  = {| columns := columns df;
       rows := filter (fun row => is_subtotal (cell_at row j) = false) (rows df) |}.
Proof.
  unfold drop_masked.
  destruct (existsb id _) eqn:E.
  - by rewrite mask_filter.
  - destruct df as [cs rs]. simpl in *. f_equal. symmetry. apply filter_all.
    apply existsb_false_Forall in E. by rewrite Forall_fmap in E.
Qed.

(** The loop over the columns keeps the rows that hold the text in none of
    the visited columns. *)
Lemma drop_masked_loop js : forall df,
  foldl drop_masked df js
  = {| columns := columns df;
       rows := filter (fun row =>
                         existsb (fun j => is_subtotal (cell_at row j)) js = false)
                      (rows df) |}.
Proof.
  induction js as [|j js IH]; intros df; simpl.
  - destruct df as [cs rs]. simpl. f_equal. symmetry. by apply filter_all, Forall_true.
  - rewrite IH, drop_masked_spec. simpl. f_equal.
    rewrite list_filter_filter. apply list_filter_iff. intros row.
    rewrite orb_false_iff. tauto.
Qed.

Lemma remove_subtotal_spec r : remove_subtotal r = without_subtotal_rows r.
Proof.
  unfold remove_subtotal, without_subtotal_rows, subtotal_row.
  destruct r as [df|df]; simpl.
  - destruct (in_index df) eqn:E; [reflexivity|].
    destruct df as [cs rs]. simpl. f_equal. symmetry. apply filter_all.
    by apply existsb_false_Forall in E.
  - destruct (in_values df) eqn:E; [apply drop_masked_loop|].
    destruct df as [cs rs]. simpl. f_equal. symmetry. apply filter_all.
    by apply existsb_false_Forall in E.
Qed.


Variable read_excel_category : string -> result DataFrame.
Variable read_excel : string -> DataFrame.


End SubtotalFacts.



(** ** Percentage columns *)

Section PercentageFacts.
Import HdfcViz.





(** With rows to draw and a usable scheme, the body of the loop returns. *)
Lemma draw_subplot_Ok df o settings i col :
  usable_scheme (color_scheme o) -> 1 <= length (index df) ->
  exists colors,
    _get_gradient_colors (color_scheme o) (length (index df)) = Ok colors
    /\ draw_subplot df o settings i col
       = Ok {| sp_axis := i;
               sp_column := col;
               sp_is_percentage := (column_format (value_format o) col).1;
               sp_palette := colors;
               sp_xlabel := match given (xlabel o) with
                            | Some x => Some x
                            | None => given (index_name df)
                            end;
               sp_ylabel := y_label (ylabels o) col
                              (column_format (value_format o) col).1
                              (series df col);
               sp_percent_ticks := (column_format (value_format o) col).1;
               sp_value_format :=
                 if show_values o
                 then Some (column_format (value_format o) col)
                 else None;
               sp_grid_alpha :=
                 if grid o then Some (grid_alpha settings) else None |}.
Proof.
  intros Hs Hrows.
  destruct (selected_colors_usable _ Hs) as (palette & Hsel & Hne).
  destruct (get_gradient_colors_spec _ _ _ Hsel Hne Hrows)
    as (colors & Hcolors & Hlen & _).
  exists colors. split; [done|].
  unfold draw_subplot. destruct (column_format _ col) as [pct prec].
  rewrite Hcolors. simpl.
  destruct colors as [|c0 colors]; [simpl in Hlen; lia|]. reflexivity.
Qed.

End PercentageFacts.


(** ** Drawing the subplots of a figure *)

Section PlotFacts.
Import HdfcViz.
Implicit Types (df : DataFrame) (o : plot_options) (settings : bg_settings).

Lemma for_each_Raise {A B} (f : A -> result B) (l : list A) e :
  for_each f l = Raise e -> exists a, a ∈ l /\ f a = Raise e.
Proof.
  induction l as [|a l IH]; simpl; [discriminate|].
  destruct (f a) as [b|e'] eqn:Ea; simpl.
  - destruct (for_each f l) as [bs|e'']; simpl; [discriminate|].
    intros [= ->]. destruct (IH eq_refl) as (a' & Ha' & Hf).
    exists a'. split; [by apply list_elem_of_further|done].
  - intros [= ->]. exists a. split; [apply list_elem_of_here|done].
Qed.

(** The palette helper raises no [ValueError]. *)
Lemma get_gradient_colors_Raise scheme n e :
  _get_gradient_colors scheme n = Raise e -> is_ValueError e = false.
Proof.
  unfold _get_gradient_colors.
  destruct (selected_colors scheme) as [colors|e'] eqn:Es; simpl.
  - destruct (length colors <? n).
    + unfold getitem, getitem_last.
      destruct (colors !! 0); simpl; [|by intros [= <-]].
      destruct (last colors); simpl; [|by intros [= <-]].
      intros (i & _ & Hi)%for_each_Raise.
      unfold float_div in Hi. destruct (n - 1); [by injection Hi as <-|done].
    + discriminate.
  - intros [= ->]. destruct scheme as [name|colors]; simpl in Es; [|done].
    destruct (COLOR_SCHEMES !! name); [done|].
    unfold dict_getitem in Es. by rewrite corporate_lookup in Es.
Qed.

Lemma draw_subplot_inv df o settings i col sp :
  draw_subplot df o settings i col = Ok sp ->
  sp_axis sp = i /\ sp_column sp = col
  /\ _get_gradient_colors (color_scheme o) (length (index df)) = Ok (sp_palette sp)
  /\ sp_grid_alpha sp = (if grid o then Some (grid_alpha settings) else None).
Proof.
  unfold draw_subplot. destruct (column_format _ col) as [pct prec].
  destruct (_get_gradient_colors _ _) as [colors|e]; simpl; [|discriminate].
  destruct (getitem colors 0); simpl; [|discriminate].
  by intros [= <-].
Qed.

Lemma draw_subplot_Raise df o settings i col e :
  draw_subplot df o settings i col = Raise e -> is_ValueError e = false.
Proof.
  unfold draw_subplot. destruct (column_format _ col) as [pct prec].
  destruct (_get_gradient_colors _ _) as [colors|e'] eqn:Ec; simpl.
  - unfold getitem. destruct (colors !! 0); simpl; [discriminate|].
    by intros [= <-].
  - intros [= ->]. by apply get_gradient_colors_Raise in Ec.
Qed.

(** The loop draws the columns in order, one axis each, until the axes
    run out. *)
Lemma draw_subplots_inv df o settings n_axes valid : forall i sps,
  draw_subplots df o settings n_axes i valid = Ok sps ->
  sp_column <$> sps = take (n_axes - i) valid
  /\ sp_axis <$> sps = seq i (length sps)
  /\ Forall (fun sp => draw_subplot df o settings (sp_axis sp) (sp_column sp)
                       = Ok sp) sps.
Proof.
  induction valid as [|col rest IH]; intros i sps; simpl.
  - intros [= <-]. by rewrite take_nil.
  - destruct (Nat.leb_spec n_axes i) as [Hle|Hlt].
    + intros [= <-]. replace (n_axes - i) with 0 by lia. done.
    + destruct (draw_subplot df o settings i col) as [sp|e] eqn:Esp;
        simpl; [|discriminate].
      destruct (draw_subplots df o settings n_axes (S i) rest) as [sps'|e]
        eqn:Erest; simpl; [|discriminate].
      intros [= <-]. destruct (IH _ _ Erest) as (Hc & Ha & Hf).
      destruct (draw_subplot_inv _ _ _ _ _ _ Esp) as (Hi & Hcol & _).
      replace (n_axes - i) with (S (n_axes - S i)) by lia.
      rewrite !fmap_cons, firstn_cons. cbn [length seq].
      rewrite Hc, Ha, Hi, Hcol. repeat split.
      constructor; [by rewrite Hi, Hcol|done].
Qed.

Lemma draw_subplots_Raise df o settings n_axes valid : forall i e,
  draw_subplots df o settings n_axes i valid = Raise e ->
  is_ValueError e = false.
Proof.
  induction valid as [|col rest IH]; intros i e; simpl; [discriminate|].
  destruct (n_axes <=? i); [discriminate|].
  destruct (draw_subplot df o settings i col) as [sp|e'] eqn:Esp; simpl.
  - destruct (draw_subplots df o settings n_axes (S i) rest) as [sps'|e'']
      eqn:Erest; simpl; [discriminate|].
    intros [= <-]. by eapply IH.
  - intros [= <-]. by eapply draw_subplot_Raise.
Qed.

Lemma draw_subplots_returns df o settings n_axes valid :
  usable_scheme (color_scheme o) -> 1 <= length (index df) ->
  forall i, returns (draw_subplots df o settings n_axes i valid).
Proof.
  intros Hs Hrows. induction valid as [|col rest IH]; intros i; simpl.
  - by eexists.
  - destruct (n_axes <=? i); [by eexists|].
    destruct (draw_subplot_Ok df o settings i col Hs Hrows) as (c & _ & ->).
    destruct (IH (S i)) as (sps & ->). by eexists.
Qed.

Lemma default_style_lookup : BG_STYLES !! "default"%string = Some default_style.
Proof. vm_compute. reflexivity. Qed.

Lemma style_settings_spec bg :
  style_settings bg = Ok (default default_style (BG_STYLES !! bg)).
Proof.
  unfold style_settings, dict_getitem. by rewrite default_style_lookup.
Qed.

(** The automatic grid. *)
Lemma auto_layout_spec n :
  auto_layout n
  = if n <=? 2 then (1, n)
    else if n <=? 4 then (2, 2)
    else (ceil_div n 3, 3).
Proof.
  unfold auto_layout, ceil_div.
  destruct (Nat.leb_spec n 2); [done|]. destruct (Nat.leb_spec n 4); [done|].
  by replace (3 `min` n) with 3 by lia.
Qed.

Lemma auto_layout_fits n :
  n <= (auto_layout n).1 * (auto_layout n).2.
Proof.
  rewrite auto_layout_spec.
  destruct (Nat.leb_spec n 2); [simpl; lia|].
  destruct (Nat.leb_spec n 4); [simpl; lia|]. simpl.
  unfold ceil_div.
  pose proof (Nat.div_mod_eq (n + 3 - 1) 3).
  pose proof (Nat.mod_upper_bound (n + 3 - 1) 3). lia.
Qed.

End PlotFacts.

(** ** plot_bar_chart as a whole *)

Section ChartFacts.
Import HdfcViz.
Implicit Types (df : DataFrame) (o : plot_options) (requested : list string).

Lemma valid_columns_nil df requested :
  valid_columns df requested = []
  <-> forall col, col ∈ requested -> col ∉ columns df.
Proof.
  unfold valid_columns. split.
  - intros H col Hreq Hcol.
    assert (Hin : col ∈ filter (fun c => c ∈ columns df) requested)
      by (by apply list_elem_of_filter).
    rewrite H in Hin. by apply elem_of_nil in Hin.
  - intros H. induction requested as [|c rest IH]; [done|].
    rewrite filter_cons_False by (apply H, list_elem_of_here).
    apply IH. intros col Hcol. by apply H, list_elem_of_further.
Qed.

Lemma truthy_false_nil {A} (l : list A) : truthy l = false <-> l = [].
Proof. by destruct l. Qed.

(** [ValueError] is raised exactly when no requested column is valid. *)
Lemma plot_bar_chart_ValueError df requested o :
  (exists msg, plot_bar_chart df requested o = Raise (ValueError msg))
  <-> valid_columns df requested = [].
Proof.
  unfold plot_bar_chart.
  destruct (truthy (valid_columns df requested)) eqn:Et; simpl.
  - split.
    + intros (msg & Hraise). exfalso.
      destruct (resolve_layout _ _) as [r c].
      rewrite style_settings_spec in Hraise. simpl in Hraise.
      destruct (draw_subplots _ _ _ _ _ _) as [sps|e] eqn:Ed; simpl in Hraise;
        [discriminate|].
      injection Hraise as ->. by apply draw_subplots_Raise in Ed.
    + intros Hnil. rewrite Hnil in Et. discriminate.
  - split; [intros _; by apply truthy_false_nil|by eauto].
Qed.

Lemma plot_bar_chart_inv df requested o fig axes :
  plot_bar_chart df requested o = Ok (fig, axes) ->
  let valid := valid_columns df requested in
  let settings := default default_style (BG_STYLES !! bg_style o) in
  valid <> []
  /\ fig_grid fig = resolve_layout (layout o) (length valid)
  /\ axes = seq 0 ((fig_grid fig).1 * (fig_grid fig).2)
  /\ sp_column <$> fig_subplots fig
     = take ((fig_grid fig).1 * (fig_grid fig).2) valid
  /\ sp_axis <$> fig_subplots fig = seq 0 (length (fig_subplots fig))
  /\ Forall (fun sp => draw_subplot df o settings (sp_axis sp) (sp_column sp)
                       = Ok sp) (fig_subplots fig)
  /\ fig_deleted_axes fig
     = seq (length valid) ((fig_grid fig).1 * (fig_grid fig).2 - length valid)
  /\ fig_theme fig = style settings
  /\ fig_saved_to fig = given (save_path o).
Proof.
  unfold plot_bar_chart.
  destruct (truthy (valid_columns df requested)) eqn:Et; simpl; [|discriminate].
  destruct (resolve_layout _ _) as [r c] eqn:El.
  rewrite style_settings_spec. simpl.
  destruct (draw_subplots _ _ _ _ _ _) as [sps|e] eqn:Ed; simpl; [|discriminate].
  intros [= <- <-]. simpl.
  apply draw_subplots_inv in Ed as (Hc & Ha & Hf).
  rewrite length_seq, Nat.sub_0_r in Hc. rewrite length_seq.
  repeat split; try done.
  intros Hnil. rewrite Hnil in Et. discriminate.
Qed.

Lemma plot_bar_chart_returns df requested o :
  valid_columns df requested <> [] ->
  usable_scheme (color_scheme o) -> 1 <= length (index df) ->
  returns (plot_bar_chart df requested o).
Proof.
  intros Hv Hs Hrows. unfold plot_bar_chart.
  destruct (truthy (valid_columns df requested)) eqn:Et; simpl.
  2: { by apply truthy_false_nil in Et. }
  destruct (resolve_layout _ _) as [r c].
  rewrite style_settings_spec. simpl.
  destruct (draw_subplots_returns df o
              (default default_style (BG_STYLES !! bg_style o))
              (length (seq 0 (r * c))) (valid_columns df requested) Hs Hrows 0)
    as (sps & ->).
  by eexists.
Qed.

End ChartFacts.

(** C7.  With [layout] None or 'auto', a chart that has n valid columns
    (and rows to draw in a usable color scheme) is laid out on the grid
    (1, n) when n <= 2, (2, 2) when 3 <= n <= 4 and (ceil(n/3), 3) when
    n >= 5; the grid has at least n axes, the valid columns are drawn in
    order on the axes 0 .. n-1, one each, and the axes n .. rows*cols-1
    are removed from the figure. *)
Theorem auto_layout_gives_each_column_a_subplot
    (df : HdfcViz.DataFrame) (requested : list string)
    (o : HdfcViz.plot_options) :
  HdfcViz.layout o = None \/ HdfcViz.layout o = Some HdfcViz.LayoutAuto ->
  HdfcViz.valid_columns df requested <> [] ->
  usable_scheme (HdfcViz.color_scheme o) ->
  1 <= length (HdfcViz.index df) ->
  exists fig rows cols,
    let n := length (HdfcViz.valid_columns df requested) in
    HdfcViz.plot_bar_chart df requested o = Ok (fig, seq 0 (rows * cols))
    /\ HdfcViz.fig_grid fig = (rows, cols)
    /\ (rows, cols) = (if n <=? 2 then (1, n)
                       else if n <=? 4 then (2, 2)
                       else (ceil_div n 3, 3))
    /\ n <= rows * cols
    /\ HdfcViz.sp_column <$> HdfcViz.fig_subplots fig
       = HdfcViz.valid_columns df requested
    /\ HdfcViz.sp_axis <$> HdfcViz.fig_subplots fig = seq 0 n
    /\ HdfcViz.fig_deleted_axes fig = seq n (rows * cols - n).
Proof.
  intros Hauto Hv Hs Hrows.
  destruct (plot_bar_chart_returns df requested o Hv Hs Hrows) as ([fig axes] & Hplot).
  destruct (plot_bar_chart_inv _ _ _ _ _ Hplot)
    as (_ & Hgrid & Haxes & Hcols & Hax & _ & Hdel & _).
  assert (Hl : HdfcViz.resolve_layout (HdfcViz.layout o)
                 (length (HdfcViz.valid_columns df requested))
               = HdfcViz.auto_layout (length (HdfcViz.valid_columns df requested)))
    by (by destruct Hauto as [-> | ->]).
  rewrite Hl in Hgrid.
  pose proof (auto_layout_fits (length (HdfcViz.valid_columns df requested))) as Hfit.
  rewrite <- Hgrid in Hfit.
  destruct (HdfcViz.fig_grid fig) as [rows cols] eqn:Eg. simpl in *.
  exists fig, rows, cols. simpl.
  rewrite take_ge in Hcols by done.
  split; [by rewrite Hplot, Haxes|]. split; [done|].
  split; [by rewrite Hgrid, auto_layout_spec|]. split; [done|].
  split; [done|]. split; [|done].
  rewrite Hax. f_equal. by rewrite <- (length_fmap HdfcViz.sp_column), Hcols.
Qed.


Lemma auto_layout_gives_each_column_a_subplot_witness :
  exists fig rows cols,
    HdfcViz.plot_bar_chart sample_frame
      ["Accounts"; "Missing"; "Growth %"; "Balance"]%string sample_options
    = Ok (fig, seq 0 (rows * cols))
    /\ HdfcViz.fig_grid fig = (2, 2)
    /\ HdfcViz.sp_column <$> HdfcViz.fig_subplots fig
       = ["Accounts"; "Growth %"; "Balance"]%string
    /\ HdfcViz.fig_deleted_axes fig = [3].
Proof.
  destruct (auto_layout_gives_each_column_a_subplot sample_frame
              ["Accounts"; "Missing"; "Growth %"; "Balance"]%string
              sample_options)
    as (fig & rows & cols & Hplot & Hgrid & Hrc & _ & Hcols & _ & Hdel);
    [by left | by vm_compute | exact I | simpl; lia |].
  exists fig, rows, cols. split; [exact Hplot|].
  vm_compute in Hrc. injection Hrc as -> ->.
  split; [exact Hgrid|]. split; [by rewrite Hcols|]. by rewrite Hdel.
Defined.

(** ** Valid columns and explicit grids *)

(** C8, as stated, fails under an explicit grid that is too small: with
    all three requested columns present and layout (1, 1), the chart shows
    the first column only. *)
Lemma explicit_grid_leaves_valid_columns_out :
  exists fig axes,
    HdfcViz.plot_bar_chart sample_frame ["Accounts"; "Growth %"; "Balance"]%string
      (with_layout sample_options (Some (HdfcViz.LayoutGrid 1 1)))
    = Ok (fig, axes)
    /\ HdfcViz.valid_columns sample_frame ["Accounts"; "Growth %"; "Balance"]%string
       = ["Accounts"; "Growth %"; "Balance"]%string
    /\ HdfcViz.sp_column <$> HdfcViz.fig_subplots fig = ["Accounts"]%string
    /\ HdfcViz.sp_column <$> HdfcViz.fig_subplots fig
       <> HdfcViz.valid_columns sample_frame
            ["Accounts"; "Growth %"; "Balance"]%string.
Proof.
  eexists _, _. split; [vm_compute; reflexivity|].
  split; [by vm_compute|]. split; [reflexivity|]. by vm_compute.
Qed.

(** C8, amended.  When none of the requested names is a column of the
    table, [plot_bar_chart] raises the [ValueError] that lists the
    available columns, before anything is drawn.  Otherwise the names
    that are no columns are dropped: the valid columns are the requested
    names that are columns, in their requested order, and a chart that is
    returned shows as many of them, from the first, as the grid has axes:
    all of them when the grid is large enough, which the automatic layout
    always is.  (That no other [ValueError] occurs is not stated: the
    plotting library raises its own.) *)
Theorem plot_bar_chart_draws_valid_columns
    (df : HdfcViz.DataFrame) (requested : list string)
    (o : HdfcViz.plot_options) :
  ((forall col, col ∈ requested -> col ∉ HdfcViz.columns df) ->
   HdfcViz.plot_bar_chart df requested o
   = Raise (ValueError
              ("None of the specified columns exist in the dataframe. "
               +:+ "Available columns: "
               +:+ str_list (HdfcViz.columns df))))
  /\ HdfcViz.valid_columns df requested `sublist_of` requested
  /\ (forall col, col ∈ HdfcViz.valid_columns df requested
                  <-> col ∈ requested /\ col ∈ HdfcViz.columns df)
  /\ (forall fig axes,
        HdfcViz.plot_bar_chart df requested o = Ok (fig, axes) ->
        let size := (HdfcViz.fig_grid fig).1 * (HdfcViz.fig_grid fig).2 in
        (exists col, col ∈ requested /\ col ∈ HdfcViz.columns df)
        /\ HdfcViz.sp_column <$> HdfcViz.fig_subplots fig
           = take size (HdfcViz.valid_columns df requested)
        /\ (length (HdfcViz.valid_columns df requested) <= size ->
            HdfcViz.sp_column <$> HdfcViz.fig_subplots fig
            = HdfcViz.valid_columns df requested)
        /\ (HdfcViz.layout o = None
            \/ HdfcViz.layout o = Some HdfcViz.LayoutAuto ->
            HdfcViz.sp_column <$> HdfcViz.fig_subplots fig
            = HdfcViz.valid_columns df requested)).
Proof.
  assert (Hmem : forall col, col ∈ HdfcViz.valid_columns df requested
                             <-> col ∈ requested /\ col ∈ HdfcViz.columns df).
  { intros col. unfold HdfcViz.valid_columns. rewrite list_elem_of_filter. tauto. }
  split.
  { intros Hnone. apply valid_columns_nil in Hnone.
    unfold HdfcViz.plot_bar_chart. by rewrite Hnone. }
  split; [apply sublist_filter|].
  split; [exact Hmem|].
  intros fig axes Hplot size.
  destruct (plot_bar_chart_inv _ _ _ _ _ Hplot) as (Hv & Hgrid & _ & Hcols & _).
  fold size in Hcols. split.
  { destruct (HdfcViz.valid_columns df requested) as [|col rest] eqn:Ev; [done|].
    exists col. apply Hmem. apply list_elem_of_here. }
  split; [done|]. split.
  - intros Hfit. by rewrite Hcols, take_ge.
  - intros Hauto. rewrite Hcols, take_ge; [done|].
    unfold size. rewrite Hgrid.
    replace (HdfcViz.resolve_layout (HdfcViz.layout o) _)
      with (HdfcViz.auto_layout (length (HdfcViz.valid_columns df requested)))
      by (by destruct Hauto as [-> | ->]).
    apply auto_layout_fits.
Qed.

Lemma plot_bar_chart_draws_valid_columns_witness :
  (exists fig axes,
     HdfcViz.plot_bar_chart sample_frame
       ["Missing"; "Balance"; "Accounts"]%string sample_options = Ok (fig, axes)
     /\ HdfcViz.sp_column <$> HdfcViz.fig_subplots fig
        = ["Balance"; "Accounts"]%string)
  /\ HdfcViz.plot_bar_chart sample_frame ["Missing"; "Absent"]%string
       sample_options
     = Raise (ValueError
                ("None of the specified columns exist in the dataframe. "
                 +:+ "Available columns: ['Accounts', 'Growth %', 'Balance']")).
Proof.
  split.
  - destruct (plot_bar_chart_draws_valid_columns sample_frame
                ["Missing"; "Balance"; "Accounts"]%string sample_options)
      as (_ & _ & _ & Hdrawn).
    destruct (HdfcViz.plot_bar_chart sample_frame
                ["Missing"; "Balance"; "Accounts"]%string sample_options)
      as [[fig axes]|e] eqn:E; [|by vm_compute in E].
    exists fig, axes. split; [reflexivity|].
    destruct (Hdrawn fig axes eq_refl) as (_ & _ & _ & Hauto).
    rewrite Hauto by (by left). by vm_compute.
  - destruct (plot_bar_chart_draws_valid_columns sample_frame
                ["Missing"; "Absent"]%string sample_options) as (Hraise & _).
    rewrite Hraise; [reflexivity|].
    apply (proj1 (valid_columns_nil sample_frame _)). by vm_compute.
Defined.

(** ** Unrecognised style names *)

Section FallbackFacts.
Import HdfcViz.






End FallbackFacts.



(** ** File names of the saved charts *)

Section SavePathFacts.
Import HdfcViz.

Lemma lower_ascii_dot c : Ascii.eqb "." (lower_ascii c) = Ascii.eqb "." c.
Proof.
  destruct c as [[] [] [] [] [] [] [] []]; vm_compute; reflexivity.
Qed.

Lemma contains_dot_lower s : contains_char "." (lower s) = contains_char "." s.
Proof.
  induction s as [|c s IH]; cbn [contains_char lower]; [done|].
  by rewrite lower_ascii_dot, IH.
Qed.

Lemma rpartition_None sep s :
  contains_char sep s = false -> rpartition sep s = None.
Proof.
  induction s as [|c s IH]; cbn [contains_char rpartition]; [done|].
  intros [Hc Hs]%orb_false_elim. rewrite IH by done.
  rewrite Ascii.eqb_sym. by rewrite Hc.
Qed.

(** A path whose lower-cased form ends in a dot and a dot-free extension
    splits, at its last dot, into a base and that extension in the
    path's own letter case. *)
Lemma endswith_lower_split path e :
  endswith (lower path) (String "." e) = true ->
  contains_char "." e = false ->
  exists base ext,
    path = base +:+ String "." ext
    /\ lower ext = e
    /\ rpartition "." path = Some (base, ext).
Proof.
  intros Hend He. induction path as [|c p IH]; [discriminate|].
  cbn [lower endswith] in Hend. apply orb_true_iff in Hend as [Heq|Htail].
  - apply String.eqb_eq in Heq. injection Heq as Hc Hp.
    assert (c = "."%char) as ->.
    { symmetry. apply Ascii.eqb_eq. rewrite <- lower_ascii_dot, Hc.
      apply Ascii.eqb_refl. }
    exists EmptyString, p. split; [done|]. split; [done|].
    cbn [rpartition]. rewrite rpartition_None; [done|].
    by rewrite <- contains_dot_lower, Hp.
  - destruct (IH Htail) as (base & ext & -> & Hext & Hrp).
    exists (String c base), ext. split; [done|]. split; [done|].
    cbn [rpartition]. by rewrite Hrp.
Qed.

Lemma image_extension_shape e :
  e ∈ image_extensions ->
  exists e', e = String "." e' /\ contains_char "." e' = false.
Proof.
  unfold image_extensions. intros H.
  repeat (apply elem_of_cons in H as [->|H]; [by eexists|]).
  by apply elem_of_nil in H.
Qed.

Lemma given_nonempty s : s <> EmptyString -> given (Some s) = Some s.
Proof.
  intros Hs. unfold given. destruct (String.eqb_spec s ""); done.
Qed.

Lemma group_suffix_nonempty base i rest :
  base +:+ "_group" +:+ str_nat (i + 1) +:+ rest <> EmptyString.
Proof. by destruct base. Qed.

Lemma group_save_path_spec path i :
  path <> EmptyString ->
  exists saved,
    group_save_path (Some path) i = Ok (Some saved)
    /\ given (Some saved) = Some saved
    /\ (endswith_any (lower path) image_extensions = true ->
        exists base ext,
          path = base +:+ "." +:+ ext
          /\ ("." +:+ lower ext) ∈ image_extensions
          /\ saved = base +:+ "_group" +:+ str_nat (i + 1) +:+ "." +:+ ext)
    /\ (endswith_any (lower path) image_extensions = false ->
        saved = path +:+ "_group" +:+ str_nat (i + 1) +:+ ".png").
Proof.
  intros Hpath. unfold group_save_path. rewrite given_nonempty by done.
  destruct (endswith_any (lower path) image_extensions) eqn:E.
  - unfold endswith_any in E. apply existsb_exists in E as (e & He & Hend).
    apply list_elem_of_In in He.
    destruct (image_extension_shape e He) as (e' & -> & Hdot).
    destruct (endswith_lower_split path e' Hend Hdot)
      as (base & ext & Hsplit & Hext & Hrp).
    unfold rsplit1. rewrite Hrp. simpl.
    eexists. split; [reflexivity|].
    split; [apply given_nonempty, group_suffix_nonempty|].
    split; [|discriminate]. intros _. exists base, ext.
    split; [done|]. split; [by rewrite Hext|done].
  - eexists. split; [reflexivity|].
    split; [apply given_nonempty, group_suffix_nonempty|].
    split; [discriminate|done].
Qed.

End SavePathFacts.

(** ** create_dashboard *)

Section DashboardFacts.
Import HdfcViz.
Implicit Types (df : DataFrame) (o : dashboard_options)
  (schemes : list color_scheme_arg).

(** What the loop body leaves in the figure of group [i]. *)
Lemma draw_group_inv df sheet_name o schemes i group fig axes :
  draw_group df sheet_name o schemes i group = Ok (fig, axes) ->
  exists scheme saved,
    schemes !! (i mod length schemes) = Some scheme
    /\ group_save_path (output_path o) i = Ok saved
    /\ fig_saved_to fig = given saved
    /\ sp_column <$> fig_subplots fig
       = take ((fig_grid fig).1 * (fig_grid fig).2) (valid_columns df group)
    /\ Forall (fun sp => _get_gradient_colors scheme (length (index df))
                         = Ok (sp_palette sp)) (fig_subplots fig).
Proof.
  unfold draw_group, mod_.
  destruct (length schemes =? 0); [discriminate|]. simpl.
  unfold getitem.
  destruct (schemes !! (i mod length schemes)) as [scheme|] eqn:Es;
    simpl; [|discriminate].
  destruct (group_save_path (output_path o) i) as [saved|e] eqn:Ep;
    simpl; [|discriminate].
  intros Hplot.
  destruct (plot_bar_chart_inv _ _ _ _ _ Hplot)
    as (_ & _ & _ & Hcols & _ & Hdrawn & _ & _ & Hsaved).
  exists scheme, saved. repeat split; try done.
  eapply Forall_impl; [exact Hdrawn|]. simpl. intros sp Hsp.
  by destruct (draw_subplot_inv _ _ _ _ _ _ Hsp) as (_ & _ & Hpal & _).
Qed.

Lemma group_save_path_returns output i :
  returns (group_save_path output i).
Proof.
  destruct output as [path|]; [|by eexists].
  destruct (String.eqb_spec path "") as [->|Hne]; [by eexists|].
  destruct (group_save_path_spec path i Hne) as (saved & -> & _). by eexists.
Qed.

Lemma draw_group_returns df sheet_name o schemes i group :
  schemes <> [] -> Forall usable_scheme schemes ->
  1 <= length (index df) -> valid_columns df group <> [] ->
  returns (draw_group df sheet_name o schemes i group).
Proof.
  intros Hne Hus Hrows Hvalid. unfold draw_group, mod_.
  destruct (Nat.eqb_spec (length schemes) 0) as [H0|H0];
    [by destruct schemes|]. simpl.
  destruct (lookup_lt_is_Some_2 schemes (i mod length schemes)) as [scheme Hs];
    [by apply Nat.mod_upper_bound|].
  unfold getitem. rewrite Hs. simpl.
  destruct (group_save_path_returns (output_path o) i) as (saved & ->). simpl.
  apply plot_bar_chart_returns; [done| |done]. simpl.
  rewrite Forall_forall in Hus. eapply Hus, list_elem_of_lookup_2, Hs.
Qed.

(** The loop over the groups returns one pair per group, the pair of
    position [k] being the figure of the group of position [k]. *)
Lemma draw_groups_spec df sheet_name o schemes groups :
  schemes <> [] -> Forall usable_scheme schemes ->
  1 <= length (index df) ->
  Forall (fun group => valid_columns df group <> []) groups ->
  forall i, exists results,
    draw_groups df sheet_name o schemes i groups = Ok results
    /\ length results = length groups
    /\ forall k group,
         groups !! k = Some group ->
         exists r,
           results !! k = Some r
           /\ draw_group df sheet_name o schemes (i + k) group = Ok r.
Proof.
  intros Hne Hus Hrows Hvalid.
  induction Hvalid as [|group rest Hg _ IH]; intros i; simpl.
  - exists []. split; [done|]. split; [done|]. intros k g Hk. done.
  - destruct (draw_group_returns df sheet_name o schemes i group Hne Hus Hrows Hg)
      as (r & Hr).
    destruct (IH (S i)) as (rs & Hrs & Hlen & Hk).
    rewrite Hr, Hrs. simpl. exists (r :: rs). split; [done|].
    split; [simpl; by rewrite Hlen|].
    intros [|k] g; simpl.
    + intros [= <-]. exists r. by rewrite Nat.add_0_r.
    + intros Hg'. destruct (Hk k g Hg') as (r' & Hr' & Hd).
      exists r'. split; [done|]. by rewrite <- Nat.add_succ_comm.
Qed.

End DashboardFacts.

(** C10, as stated, fails on an output path whose image extension is
    written in capitals: "chart.PNG" does not end in any of the listed
    extensions, yet the chart of the first group is saved to
    "chart_group1.PNG" and not to "chart.PNG_group1.png". *)
Lemma capital_extension_is_split :
  endswith_any "chart.PNG" HdfcViz.image_extensions = false
  /\ exists results fig axes,
       HdfcViz.create_dashboard sample_frame "Sheet1"
         (sample_dashboard (Some "chart.PNG"%string)) = Ok results
       /\ results !! 0 = Some (fig, axes)
       /\ HdfcViz.fig_saved_to fig = Some "chart_group1.PNG"%string
       /\ HdfcViz.fig_saved_to fig <> Some "chart.PNG_group1.png"%string.
Proof.
  split; [reflexivity|].
  eexists _, _, _. split; [vm_compute; reflexivity|].
  split; [reflexivity|]. split; [reflexivity|]. discriminate.
Qed.

(** C10, amended.  With a non-empty list of usable color schemes, a table
    that has rows and groups that each name a column of the table,
    [create_dashboard] returns one (figure, axes) pair per column group, in
    group order; the figure of group i shows the group's valid columns in
    the palette of [color_schemes[i mod len(color_schemes)]]; with a
    non-empty [output_path] it is saved to the path with "_group{i+1}"
    inserted before the last dot when the path, compared without regard to
    letter case, ends in .png, .jpg, .jpeg, .pdf or .svg, and to the path
    followed by "_group{i+1}.png" otherwise; it is not saved when
    [output_path] is absent or empty. *)
Theorem create_dashboard_one_figure_per_group
    (df : HdfcViz.DataFrame) (sheet_name : string)
    (o : HdfcViz.dashboard_options)
    (schemes : list HdfcViz.color_scheme_arg) (groups : list (list string)) :
  schemes = default HdfcViz.default_color_schemes (HdfcViz.color_schemes o) ->
  groups = default (HdfcViz.auto_column_groups (HdfcViz.columns df))
             (HdfcViz.column_groups o) ->
  schemes <> [] -> Forall usable_scheme schemes ->
  1 <= length (HdfcViz.index df) ->
  Forall (fun group => HdfcViz.valid_columns df group <> []) groups ->
  exists results,
    HdfcViz.create_dashboard df sheet_name o = Ok results
    /\ length results = length groups
    /\ forall i group,
         groups !! i = Some group ->
         exists fig axes scheme,
           results !! i = Some (fig, axes)
           /\ schemes !! (i mod length schemes) = Some scheme
           /\ HdfcViz.sp_column <$> HdfcViz.fig_subplots fig
              = take ((HdfcViz.fig_grid fig).1 * (HdfcViz.fig_grid fig).2)
                  (HdfcViz.valid_columns df group)
           /\ Forall (fun sp =>
                        HdfcViz._get_gradient_colors scheme
                          (length (HdfcViz.index df))
                        = Ok (HdfcViz.sp_palette sp))
                (HdfcViz.fig_subplots fig)
           /\ (HdfcViz.given (HdfcViz.output_path o) = None ->
               HdfcViz.fig_saved_to fig = None)
           /\ (forall path,
                 HdfcViz.given (HdfcViz.output_path o) = Some path ->
                 (endswith_any (lower path) HdfcViz.image_extensions = true ->
                  exists base ext,
                    path = base +:+ "." +:+ ext
                    /\ ("." +:+ lower ext) ∈ HdfcViz.image_extensions
                    /\ HdfcViz.fig_saved_to fig
                       = Some (base +:+ "_group" +:+ str_nat (i + 1)
                                 +:+ "." +:+ ext))
                 /\ (endswith_any (lower path) HdfcViz.image_extensions = false ->
                     HdfcViz.fig_saved_to fig
                     = Some (path +:+ "_group" +:+ str_nat (i + 1) +:+ ".png"))).
Proof.
  intros -> -> Hne Hus Hrows Hvalid.
  destruct (draw_groups_spec df sheet_name o _ _ Hne Hus Hrows Hvalid 0)
    as (results & Hres & Hlen & Hk).
  exists results. split; [exact Hres|]. split; [exact Hlen|].
  intros i group Hi. destruct (Hk i group Hi) as ([fig axes] & Hr & Hdraw).
  simpl in Hdraw.
  destruct (draw_group_inv _ _ _ _ _ _ _ _ Hdraw)
    as (scheme & saved & Hs & Hp & Hsaved & Hcols & Hpal).
  exists fig, axes, scheme.
  split; [done|]. split; [done|]. split; [done|]. split; [done|]. split.
  - intros Hnone. unfold HdfcViz.group_save_path in Hp. rewrite Hnone in Hp.
    injection Hp as <-. by rewrite Hsaved.
  - intros path Hgiven.
    assert (Hpath : HdfcViz.output_path o = Some path /\ path <> EmptyString).
    { unfold HdfcViz.given in Hgiven.
      destruct (HdfcViz.output_path o) as [p|]; [|done].
      destruct (String.eqb_spec p ""); [done|]. by injection Hgiven as ->. }
    destruct Hpath as [Hout Hpath]. rewrite Hout in Hp.
    destruct (group_save_path_spec path i Hpath)
      as (saved' & Hp' & Hkept & Hext & Hplain).
    rewrite Hp' in Hp. injection Hp as <-. rewrite Hsaved, Hkept. split.
    + intros Hend. destruct (Hext Hend) as (base & ext & Hsplit & Hin & ->).
      by exists base, ext.
    + intros Hend. by rewrite (Hplain Hend).
Qed.

Lemma create_dashboard_one_figure_per_group_witness :
  exists results,
    HdfcViz.create_dashboard sample_frame "Sheet1"
      (sample_dashboard (Some "exports/HDFC_Sheet1.png"%string)) = Ok results
    /\ length results = 2.
Proof.
  destruct (create_dashboard_one_figure_per_group sample_frame "Sheet1"
              (sample_dashboard (Some "exports/HDFC_Sheet1.png"%string))
              _ _ eq_refl eq_refl)
    as (results & Hres & Hlen & _);
    [ discriminate
    | repeat constructor
    | simpl; lia
    | repeat constructor; by vm_compute
    | ].
  exists results. split; [exact Hres | exact Hlen].
Defined.

(** ** Worked examples *)

Example format_value_examples :
  HdfcViz._format_value (Num 1234567) false None = "1,234,567"%string
  /\ HdfcViz._format_value (Num (-12)) false None = "-12"%string
  /\ HdfcViz._format_value (Num (31415 # 10000)) false None = "3.1"%string
  /\ HdfcViz._format_value (Num (1255 # 100)) false None = "12.55"%string
  /\ HdfcViz._format_value (Num (5 # 1000)) false None = "0.0050"%string
  /\ HdfcViz._format_value (Num (1 # 8)) true None = "12.5%"%string
  /\ HdfcViz._format_value NaN true None = "N/A"%string.
Proof. repeat split. Qed.

Example column_groups_example :
  GenerateDashboard.column_groups [1; 2; 3; 4; 5; 6; 7; 8; 9]
  = [[1; 2; 3; 4]; [5; 6; 7; 8]; [9]]
  /\ HdfcViz.auto_column_groups [1; 2; 3] = [[1; 2; 3]].
Proof. repeat split. Qed.

Example group_save_path_examples :
  HdfcViz.group_save_path (Some "exports/HDFC_Q1"%string) 2
  = Ok (Some "exports/HDFC_Q1_group3.png"%string)
  /\ HdfcViz.group_save_path (Some "out.v2/chart.Jpeg"%string) 0
     = Ok (Some "out.v2/chart_group1.Jpeg"%string)
  /\ HdfcViz.group_save_path (Some ""%string) 0 = Ok None.
Proof. repeat split. Qed.

(** * Further properties of the chart helper *)

(** ** When the palette helper raises *)

Section PaletteErrors.
Import HdfcViz.

Lemma get_gradient_colors_nonempty_returns scheme n colors :
  selected_colors scheme = Ok colors -> colors <> [] ->
  returns (_get_gradient_colors scheme n).
Proof.
  intros Hsel Hne. destruct n as [|n].
  - unfold _get_gradient_colors. rewrite Hsel. by eexists.
  - destruct (get_gradient_colors_spec scheme (S n) colors Hsel Hne)
      as (out & -> & _); [lia|]. by eexists.
Qed.

Lemma get_gradient_colors_empty_list n :
  _get_gradient_colors (SchemeList []) n
  = if 0 <? n then Raise (IndexError "list index out of range") else Ok [].
Proof. by destruct n. Qed.

End PaletteErrors.

(** X1.  [_get_gradient_colors] raises exactly when the scheme is an empty
    list of colors and at least one color is asked for, and what it raises
    then is the IndexError of [colors[0]]; in particular the division by
    [num_categories - 1] never fails. *)
Theorem get_gradient_colors_raises_only_on_empty_list
    (scheme : HdfcViz.color_scheme_arg) (n : nat) :
  ((exists e, HdfcViz._get_gradient_colors scheme n = Raise e)
   <-> scheme = HdfcViz.SchemeList [] /\ 1 <= n)
  /\ (forall e, HdfcViz._get_gradient_colors scheme n = Raise e ->
                e = IndexError "list index out of range").
Proof.
  assert (Hok : usable_scheme scheme ->
                forall e, HdfcViz._get_gradient_colors scheme n <> Raise e).
  { intros Hs e He.
    destruct (selected_colors_usable scheme Hs) as (colors & Hsel & Hne).
    destruct (get_gradient_colors_nonempty_returns scheme n colors Hsel Hne)
      as (out & Hout). congruence. }
  destruct scheme as [name|[|c colors]].
  - split; [split|].
    + intros (e & He). by apply Hok in He.
    + by intros [? _].
    + intros e He. by apply Hok in He.
  - rewrite get_gradient_colors_empty_list.
    destruct (Nat.ltb_spec 0 n) as [Hn|Hn]; split; try split.
    + by intros _.
    + intros _. by eexists.
    + by intros e [= <-].
    + by intros (e & ?).
    + intros [_ ?]. lia.
    + done.
  - split; [split|].
    + intros (e & He). by apply Hok in He.
    + by intros [? _].
    + intros e He. by apply Hok in He.
Qed.

(** ** Labels of values close to an integer *)

Section TruncationFacts.
Local Open Scope Q_scope.

Lemma Qfloor_unique (x : Q) (k : Z) :
  inject_Z k <= x -> x < inject_Z (k + 1) -> Qfloor x = k.
Proof.
  intros Hlo Hhi.
  pose proof (Qfloor_le x) as Hf. pose proof (Qlt_floor x) as Hg.
  assert (H1 : (k < Qfloor x + 1)%Z).
  { rewrite Zlt_Qlt. eapply Qle_lt_trans; [exact Hlo|exact Hg]. }
  assert (H2 : (Qfloor x < k + 1)%Z).
  { rewrite Zlt_Qlt. eapply Qle_lt_trans; [exact Hf|exact Hhi]. }
  lia.
Qed.

(** On non-negative numbers [int] is the floor. *)
Lemma int_nonneg (x : Q) : 0 <= x -> int x = Qfloor x.
Proof.
  intros Hx. destruct x as [a d]. unfold int, Qfloor. simpl.
  apply Z.quot_div_nonneg; [|lia].
  unfold Qle in Hx. simpl in Hx. lia.
Qed.

Lemma int_near_integer (v : Q) (n : Z) :
  0 <= v -> Qabs (v - inject_Z n) < 1 # 100 ->
  int v = if Qle_bool (inject_Z n) v then n else (n - 1)%Z.
Proof.
  intros Hv Hn. rewrite int_nonneg by done.
  apply Qabs_Qlt_condition in Hn.
  destruct (Qle_bool (inject_Z n) v) eqn:E.
  - apply Qle_bool_iff in E. apply Qfloor_unique; [done|].
    rewrite inject_Z_plus. change (inject_Z 1) with 1. lra.
  - assert (Hlt : v < inject_Z n).
    { apply Qnot_le_lt. intros Hle. apply Qle_bool_iff in Hle. congruence. }
    apply Qfloor_unique.
    + replace (n - 1)%Z with (n + (-1))%Z by lia.
      rewrite inject_Z_plus. change (inject_Z (-1)) with (-1). lra.
    + replace (n - 1 + 1)%Z with n by lia. done.
Qed.

End TruncationFacts.

(** X2.  A value that is at least 10 and within 0.01 of an integer n is
    labelled, whatever precision is asked for, with a comma-grouped
    integer, and that integer is the value truncated: n when the value is
    not below n, and n - 1 when it is just below. *)
Theorem format_value_truncates_near_integers
    (v : Q) (n : Z) (precision : option nat) :
  (10 <= v)%Q -> (Qabs (v - inject_Z n) < 1 # 100)%Q ->
  HdfcViz._format_value (Num v) false precision
  = format_int_commas (if Qle_bool (inject_Z n) v then n else (n - 1)%Z).
Proof.
  intros Hv Hn. unfold HdfcViz._format_value.
  rewrite round_near_integer.
  assert (Hnear : near_integer v = true) by (apply near_integer_spec; eauto).
  assert (Hten : Qle_bool 10 v = true) by (by apply Qle_bool_iff).
  rewrite Hnear, Hten. simpl. f_equal.
  apply int_near_integer; [|done]. lra.
Qed.

Lemma format_value_truncates_near_integers_witness :
  HdfcViz._format_value (Num (10995 # 1000)) false (Some 2) = "10"%string.
Proof.
  rewrite (format_value_truncates_near_integers (10995 # 1000) 11 (Some 2));
    [reflexivity | by vm_compute | by vm_compute].
Defined.

(** ** When plot_bar_chart returns *)

Section ChartErrors.
Import HdfcViz.
Implicit Types (df : DataFrame) (o : plot_options) (requested : list string).

(** Without rows, or with an empty list of colors, the body of the loop
    fails on the first color of the palette. *)
Lemma draw_subplot_undrawable df o settings i col :
  ~ (1 <= length (index df) /\ usable_scheme (color_scheme o)) ->
  draw_subplot df o settings i col = Raise (IndexError "list index out of range").
Proof.
  intros Hno. unfold draw_subplot. destruct (column_format _ col) as [pct prec].
  destruct (length (index df)) as [|rows] eqn:Erows.
  - assert (Hzero : forall scheme, exists colors,
              selected_colors scheme = Ok colors
              /\ _get_gradient_colors scheme 0 = Ok []).
    { intros [name|colors]; unfold _get_gradient_colors; simpl.
      - destruct (COLOR_SCHEMES !! name) as [colors|]; [by eexists|].
        unfold dict_getitem. rewrite corporate_lookup. by eexists.
      - by eexists. }
    destruct (Hzero (color_scheme o)) as (colors & _ & ->). reflexivity.
  - destruct (color_scheme o) as [name|[|c colors]] eqn:Es.
    + exfalso. apply Hno. split; [lia|done].
    + reflexivity.
    + exfalso. apply Hno. split; [lia|done].
Qed.

(** A chart with a valid column has a grid with at least one axis. *)
Lemma resolve_layout_positive layout n :
  1 <= n -> 1 <= (resolve_layout layout n).1 * (resolve_layout layout n).2.
Proof.
  intros Hn. destruct layout as [[|rows cols]|]; simpl.
  - pose proof (auto_layout_fits n). lia.
  - nia.
  - pose proof (auto_layout_fits n). lia.
Qed.

Lemma plot_bar_chart_undrawable df requested o :
  valid_columns df requested <> [] ->
  ~ (1 <= length (index df) /\ usable_scheme (color_scheme o)) ->
  plot_bar_chart df requested o = Raise (IndexError "list index out of range").
Proof.
  intros Hv Hno. unfold plot_bar_chart.
  destruct (valid_columns df requested) as [|col rest] eqn:Ev; [done|].
  cbn [truthy negb].
  pose proof (resolve_layout_positive (layout o) (length (col :: rest))) as Hpos.
  destruct (resolve_layout _ _) as [r c]. simpl in Hpos.
  rewrite style_settings_spec. simpl. rewrite length_seq.
  destruct (Nat.leb_spec (r * c) 0) as [Hle|_]; [simpl in *; lia|].
  by rewrite draw_subplot_undrawable.
Qed.

(** What a chart that is returned tells about its arguments. *)
Lemma plot_bar_chart_returns_chart df requested o :
  returns (plot_bar_chart df requested o) ->
  valid_columns df requested <> []
  /\ 1 <= length (index df)
  /\ usable_scheme (color_scheme o).
Proof.
  intros ([fig axes] & Hplot).
  destruct (plot_bar_chart_inv _ _ _ _ _ Hplot) as (Hv & _).
  split; [done|].
  assert (Hdec : (1 <= length (index df) /\ usable_scheme (color_scheme o))
                 \/ ~ (1 <= length (index df)
                       /\ usable_scheme (color_scheme o))).
  { destruct (index df); destruct (color_scheme o) as [name|[|c colors]]; simpl;
      try (left; split; [lia|done]); right; intros [? ?]; try lia; done. }
  destruct Hdec as [Hyes|Hno]; [done|].
  rewrite (plot_bar_chart_undrawable df requested o Hv Hno) in Hplot.
  discriminate.
Qed.

Lemma seq_split (n m : nat) :
  seq 0 (n `min` m) ++ seq n (m - n) = seq 0 m.
Proof.
  destruct (Nat.le_gt_cases n m) as [Hle|Hgt].
  - rewrite Nat.min_l by done. rewrite <- seq_app. f_equal. lia.
  - rewrite Nat.min_r by lia. replace (m - n) with 0 by lia.
    apply app_nil_r.
Qed.


End ChartErrors.

(** X3.  [plot_bar_chart] returns a figure only when a requested column
    is a column of the table, the table has a row and the color scheme is
    not an empty list.  With a valid column but no row, or an empty list
    of colors, what it raises is the IndexError of the first color of the
    palette, not the ValueError of the missing columns. *)
Theorem plot_bar_chart_returns_only_if
    (df : HdfcViz.DataFrame) (requested : list string)
    (o : HdfcViz.plot_options) :
  (returns (HdfcViz.plot_bar_chart df requested o) ->
   HdfcViz.valid_columns df requested <> []
   /\ 1 <= length (HdfcViz.index df)
   /\ usable_scheme (HdfcViz.color_scheme o))
  /\ (HdfcViz.valid_columns df requested <> [] ->
      ~ (1 <= length (HdfcViz.index df)
         /\ usable_scheme (HdfcViz.color_scheme o)) ->
      HdfcViz.plot_bar_chart df requested o
      = Raise (IndexError "list index out of range")).
Proof.
  split; [apply plot_bar_chart_returns_chart|apply plot_bar_chart_undrawable].
Qed.

Lemma plot_bar_chart_returns_only_if_witness :
  HdfcViz.plot_bar_chart rowless_frame ["Accounts"]%string sample_options
  = Raise (IndexError "list index out of range").
Proof.
  destruct (plot_bar_chart_returns_only_if rowless_frame ["Accounts"]%string
              sample_options) as (_ & Hraise).
  apply Hraise; [by vm_compute|]. intros [Hrows _]. simpl in Hrows. lia.
Defined.

(** X4.  Whatever the layout, the axes [plot_bar_chart] returns are the
    axes it drew on, in order, followed by the axes it removed: no axis is
    left empty in the figure and none is both drawn on and removed.  The
    number of subplots is the smaller of the number of valid columns and
    the number of axes. *)
Theorem plot_bar_chart_axes_drawn_or_removed
    (df : HdfcViz.DataFrame) (requested : list string)
    (o : HdfcViz.plot_options) (fig : HdfcViz.figure) (axes : list nat) :
  HdfcViz.plot_bar_chart df requested o = Ok (fig, axes) ->
  (HdfcViz.sp_axis <$> HdfcViz.fig_subplots fig) ++ HdfcViz.fig_deleted_axes fig
  = axes
  /\ NoDup axes
  /\ length (HdfcViz.fig_subplots fig)
     = length (HdfcViz.valid_columns df requested) `min` length axes.
Proof.
  intros Hplot.
  destruct (plot_bar_chart_inv _ _ _ _ _ Hplot)
    as (_ & _ & Haxes & Hcols & Hax & _ & Hdel & _).
  assert (Hlen : length (HdfcViz.fig_subplots fig)
                 = length (HdfcViz.valid_columns df requested)
                   `min` ((HdfcViz.fig_grid fig).1 * (HdfcViz.fig_grid fig).2)).
  { rewrite <- (length_fmap HdfcViz.sp_column), Hcols, length_take. lia. }
  rewrite Hax, Hdel, Hlen, Haxes, length_seq.
  split; [apply seq_split|]. split; [apply NoDup_seq|done].
Qed.

Lemma plot_bar_chart_axes_drawn_or_removed_witness :
  exists fig,
    HdfcViz.plot_bar_chart sample_frame
      ["Accounts"; "Growth %"; "Balance"]%string sample_tight_options
    = Ok (fig, [0; 1])
    /\ HdfcViz.sp_axis <$> HdfcViz.fig_subplots fig = [0; 1]
    /\ HdfcViz.fig_deleted_axes fig = [].
Proof.
  destruct (HdfcViz.plot_bar_chart sample_frame
              ["Accounts"; "Growth %"; "Balance"]%string sample_tight_options)
    as [[fig axes]|e] eqn:E; [|by vm_compute in E].
  destruct (plot_bar_chart_axes_drawn_or_removed _ _ _ _ _ E) as (Hall & _ & _).
  assert (Haxes : axes = [0; 1]) by (vm_compute in E; congruence).
  assert (Hdel : HdfcViz.fig_deleted_axes fig = [])
    by (vm_compute in E; injection E as <- _; reflexivity).
  exists fig. rewrite Haxes in Hall |- *. split; [reflexivity|].
  rewrite Hdel, app_nil_r in Hall. by split.
Defined.



(** ** When create_dashboard returns *)

Section DashboardErrors.
Import HdfcViz.
Implicit Types (df : DataFrame) (o : dashboard_options)
  (schemes : list color_scheme_arg).

(** A group without a valid column stops the dashboard with the
    [ValueError] of [plot_bar_chart]. *)
Lemma draw_group_no_valid_column df sheet_name o schemes i group :
  schemes <> [] -> valid_columns df group = [] ->
  exists msg, draw_group df sheet_name o schemes i group = Raise (ValueError msg).
Proof.
  intros Hne Hv. unfold draw_group, mod_.
  destruct (Nat.eqb_spec (length schemes) 0) as [H0|H0];
    [by destruct schemes|]. simpl.
  destruct (lookup_lt_is_Some_2 schemes (i mod length schemes)) as [scheme Hs];
    [by apply Nat.mod_upper_bound|].
  unfold getitem. rewrite Hs. simpl.
  destruct (group_save_path_returns (output_path o) i) as (saved & ->). simpl.
  by apply plot_bar_chart_ValueError.
Qed.

Lemma draw_groups_undrawable df sheet_name o schemes groups :
  schemes <> [] -> Forall usable_scheme schemes ->
  1 <= length (index df) ->
  ~ Forall (fun group => valid_columns df group <> []) groups ->
  forall i, exists msg,
    draw_groups df sheet_name o schemes i groups = Raise (ValueError msg).
Proof.
  intros Hne Hus Hrows. induction groups as [|group rest IH]; intros Hno i.
  - exfalso. apply Hno. constructor.
  - simpl. destruct (valid_columns df group) as [|c cs] eqn:Ev.
    + destruct (draw_group_no_valid_column df sheet_name o schemes i group Hne Ev)
        as (msg & ->). by exists msg.
    + destruct (draw_group_returns df sheet_name o schemes i group Hne Hus Hrows)
        as (r & ->); [by rewrite Ev|]. simpl.
      destruct (IH ltac:(intros Hrest; apply Hno; constructor;
                           [by rewrite Ev|done]) (S i)) as (msg & ->).
      by exists msg.
Qed.

(** The grid of the figure of group [i] comes from the layout option of
    position [i], if there is one. *)
Lemma draw_group_grid df sheet_name o schemes i group fig axes :
  draw_group df sheet_name o schemes i group = Ok (fig, axes) ->
  fig_grid fig
  = resolve_layout (layout_options o ≫= (.!! i))
      (length (valid_columns df group)).
Proof.
  unfold draw_group, mod_.
  destruct (length schemes =? 0); [discriminate|]. simpl.
  destruct (getitem schemes _) as [scheme|e]; simpl; [|discriminate].
  destruct (group_save_path (output_path o) i) as [saved|e];
    simpl; [|discriminate].
  intros Hplot.
  destruct (plot_bar_chart_inv _ _ _ _ _ Hplot) as (_ & Hgrid & _).
  rewrite Hgrid. simpl. by destruct (layout_options o).
Qed.

End DashboardErrors.

(** X6.  [create_dashboard] draws all the groups or returns nothing: it
    returns only when every group names at least one column of the table
    and, if there is a group at all, the table has a row and a color
    scheme is there to draw with.  One group that names no column makes
    the whole call fail, whatever the other groups are. *)
Theorem create_dashboard_returns_only_if
    (df : HdfcViz.DataFrame) (sheet_name : string)
    (o : HdfcViz.dashboard_options)
    (schemes : list HdfcViz.color_scheme_arg) (groups : list (list string)) :
  schemes = default HdfcViz.default_color_schemes (HdfcViz.color_schemes o) ->
  groups = default (HdfcViz.auto_column_groups (HdfcViz.columns df))
             (HdfcViz.column_groups o) ->
  returns (HdfcViz.create_dashboard df sheet_name o) ->
  Forall (fun group => HdfcViz.valid_columns df group <> []) groups
  /\ (groups <> [] -> 1 <= length (HdfcViz.index df) /\ schemes <> []).
Proof.
  intros -> ->. unfold HdfcViz.create_dashboard.
  set (schemes := default HdfcViz.default_color_schemes (HdfcViz.color_schemes o)).
  assert (Hloop : forall groups i,
            returns (HdfcViz.draw_groups df sheet_name o schemes i groups) ->
            Forall (fun group => HdfcViz.valid_columns df group <> []) groups
            /\ (groups <> [] ->
                1 <= length (HdfcViz.index df) /\ schemes <> []));
    [|by apply Hloop].
  induction groups as [|group rest IH]; intros i (results & Hres).
  - split; [constructor|done].
  - cbn [HdfcViz.draw_groups] in Hres.
    apply bind_Ok_inv in Hres as ([fig axes] & Hgroup & Hres).
    apply bind_Ok_inv in Hres as (rs & Hrest & _).
    destruct (IH (S i)) as (Hall & _); [by eexists|].
    assert (Hscheme : schemes <> []).
    { intros Hnil. unfold HdfcViz.draw_group, mod_ in Hgroup.
      rewrite Hnil in Hgroup. discriminate. }
    unfold HdfcViz.draw_group in Hgroup.
    apply bind_Ok_inv in Hgroup as (k & _ & Hgroup).
    apply bind_Ok_inv in Hgroup as (scheme & _ & Hgroup).
    apply bind_Ok_inv in Hgroup as (saved & _ & Hplot).
    match type of Hplot with
    | HdfcViz.plot_bar_chart _ _ ?opts = _ =>
        destruct (plot_bar_chart_returns_chart df group opts) as (Hv & Hrows & _);
          [by eexists|]
    end.
    split; [constructor; assumption|intros _; split; assumption].
Qed.

Lemma create_dashboard_returns_only_if_witness :
  ~ returns (HdfcViz.create_dashboard sample_frame "Sheet1" broken_dashboard).
Proof.
  intros Hret.
  destruct (create_dashboard_returns_only_if sample_frame "Sheet1"
              broken_dashboard _ _ eq_refl eq_refl Hret) as (Hall & _).
  apply Forall_cons in Hall as [_ Hall]. apply Forall_cons in Hall as [Hmissing _].
  by apply Hmissing.
Defined.

(** X7.  With [color_schemes] given as an empty list, [create_dashboard]
    returns the empty list when there is no group and raises
    ZeroDivisionError, from [i % len(color_schemes)], as soon as there is
    one. *)
Theorem create_dashboard_empty_color_schemes
    (df : HdfcViz.DataFrame) (sheet_name : string)
    (o : HdfcViz.dashboard_options) (groups : list (list string)) :
  HdfcViz.color_schemes o = Some [] ->
  groups = default (HdfcViz.auto_column_groups (HdfcViz.columns df))
             (HdfcViz.column_groups o) ->
  (groups = [] -> HdfcViz.create_dashboard df sheet_name o = Ok [])
  /\ (groups <> [] ->
      exists msg,
        HdfcViz.create_dashboard df sheet_name o
        = Raise (ZeroDivisionError msg)).
Proof.
  intros Hschemes ->. unfold HdfcViz.create_dashboard. rewrite Hschemes. simpl.
  destruct (default _ (HdfcViz.column_groups o)) as [|group rest].
  - by split.
  - split; [done|]. intros _. by eexists.
Qed.

Lemma create_dashboard_empty_color_schemes_witness :
  exists msg,
    HdfcViz.create_dashboard sample_frame "Sheet1" colorless_dashboard
    = Raise (ZeroDivisionError msg).
Proof.
  destruct (create_dashboard_empty_color_schemes sample_frame "Sheet1"
              colorless_dashboard _ eq_refl eq_refl) as (_ & Hraise).
  by apply Hraise.
Defined.

(** ** The saved charts of a dashboard do not overwrite each other *)

Section SavePathsDistinct.
Import HdfcViz.







End SavePathsDistinct.



(** X9.  A dashboard whose groups have no entry in [layout_options] (as
    when the option is left out) shows, in the figure of every group, all
    the valid columns of the group in their order: the automatic grid
    never cuts a group short. *)
Theorem dashboard_without_layout_shows_all_valid_columns
    (df : HdfcViz.DataFrame) (sheet_name : string)
    (o : HdfcViz.dashboard_options)
    (schemes : list HdfcViz.color_scheme_arg) (groups : list (list string)) :
  schemes = default HdfcViz.default_color_schemes (HdfcViz.color_schemes o) ->
  groups = default (HdfcViz.auto_column_groups (HdfcViz.columns df))
             (HdfcViz.column_groups o) ->
  schemes <> [] -> Forall usable_scheme schemes ->
  1 <= length (HdfcViz.index df) ->
  Forall (fun group => HdfcViz.valid_columns df group <> []) groups ->
  HdfcViz.layout_options o = None ->
  exists results,
    HdfcViz.create_dashboard df sheet_name o = Ok results
    /\ Forall2 (fun group r =>
                  HdfcViz.sp_column <$> HdfcViz.fig_subplots r.1
                  = HdfcViz.valid_columns df group)
         groups results.
Proof.
  intros -> -> Hne Hus Hrows Hvalid Hlayout.
  destruct (draw_groups_spec df sheet_name o _ _ Hne Hus Hrows Hvalid 0)
    as (results & Hres & Hlen & Hk).
  exists results. split; [exact Hres|].
  apply Forall2_same_length_lookup_2; [done|].
  intros i group [fig axes] Hi Hr.
  destruct (Hk i group Hi) as (r & Hr' & Hdraw). simpl in Hdraw.
  rewrite Hr in Hr'. injection Hr' as <-.
  destruct (draw_group_inv _ _ _ _ _ _ _ _ Hdraw) as (_ & _ & _ & _ & _ & Hcols & _).
  pose proof (draw_group_grid _ _ _ _ _ _ _ _ Hdraw) as Hgrid.
  rewrite Hlayout in Hgrid. simpl in Hgrid.
  simpl. rewrite Hcols, take_ge; [done|]. rewrite Hgrid.
  apply auto_layout_fits.
Qed.

Lemma dashboard_without_layout_shows_all_valid_columns_witness :
  exists results,
    HdfcViz.create_dashboard sample_frame "Sheet1" (sample_dashboard None)
    = Ok results
    /\ Forall2 (fun group r =>
                  HdfcViz.sp_column <$> HdfcViz.fig_subplots r.1
                  = HdfcViz.valid_columns sample_frame group)
         [["Accounts"; "Growth %"]; ["Balance"]]%string results.
Proof.
  apply (dashboard_without_layout_shows_all_valid_columns sample_frame "Sheet1"
           (sample_dashboard None) _ _ eq_refl eq_refl);
    [ discriminate
    | repeat constructor
    | simpl; lia
    | repeat constructor; by vm_compute
    | reflexivity ].
Defined.

(** ** The driver with the chart helper behind it *)

Section DriverFacts.
Import HdfcViz.

(** Every group the driver forms consists of columns of the table. *)
Lemma column_groups_are_valid (df : DataFrame) :
  Forall (fun group => valid_columns df group = group /\ group <> [])
    (GenerateDashboard.column_groups (columns df)).
Proof.
  destruct (main_column_groups_spec (columns df)) as (_ & Hlen & Hcat).
  apply Forall_forall. intros group Hgroup. split.
  - unfold valid_columns. apply filter_all. apply Forall_forall.
    intros col Hcol. rewrite <- Hcat at 1.
    apply list_elem_of_In, in_concat. exists group.
    by rewrite <- !list_elem_of_In.
  - rewrite Forall_forall in Hlen. specialize (Hlen group Hgroup).
    destruct group; simpl in *; [lia|done].
Qed.

(** What [create_dashboard] does with the arguments of the driver. *)
Lemma driver_dashboard (a : GenerateDashboard.args) (sheet_name : string)
    (df : DataFrame) :
  (columns df = [] \/ 1 <= length (index df) ->
   exists charts,
     create_dashboard df sheet_name
       (GenerateDashboard.dashboard_arguments a sheet_name df) = Ok charts
     /\ length charts = ceil_div (length (columns df)) 4)
  /\ (columns df <> [] -> length (index df) = 0 ->
      create_dashboard df sheet_name
        (GenerateDashboard.dashboard_arguments a sheet_name df)
      = Raise (IndexError "list index out of range")).
Proof.
  pose proof (column_groups_are_valid df) as Hvalid.
  destruct (main_column_groups_spec (columns df)) as (Hcount & _ & Hcat).
  unfold create_dashboard. simpl. split.
  - intros [Hnone|Hrows].
    + rewrite Hnone. by exists [].
    + destruct (draw_groups_spec df sheet_name
                  (GenerateDashboard.dashboard_arguments a sheet_name df)
                  [SchemeName (GenerateDashboard.colors a)]
                  (GenerateDashboard.column_groups (columns df)))
        with (i := 0) as (charts & Hcharts & Hlen & _);
        [done | by repeat constructor | done | |].
      { eapply Forall_impl; [exact Hvalid|]. by intros g [-> ?]. }
      exists charts. split; [exact Hcharts|]. by rewrite Hlen.
  - intros Hcols Hrows.
    destruct (GenerateDashboard.column_groups (columns df)) as [|group rest] eqn:Eg.
    { simpl in Hcat. by rewrite <- Hcat in Hcols. }
    apply Forall_cons in Hvalid as [[Hgroup Hne] _].
    simpl. unfold draw_group, mod_. simpl.
    destruct (group_save_path_returns
                (Some (GenerateDashboard.path_join (GenerateDashboard.output a)
                         ("HDFC_" +:+ sheet_name))) 0) as (saved & Hsaved).
    simpl in Hsaved. rewrite Hsaved. simpl.
    rewrite plot_bar_chart_undrawable; [done|by rewrite Hgroup|].
    intros [? _]. lia.
Qed.


End DriverFacts.

(** X10.  In [generate_dashboard], the number of chart groups reported
    for a sheet that loads with N columns is always ceil(N/4): whenever
    the dashboard of the sheet is drawn, the line printed is
    "  - Generated ceil(N/4) chart groups for <sheet>".  A sheet without
    any column is reported so, with zero groups and without an error. *)
Theorem driver_reports_ceil_groups
    (read_excel : string -> string -> result HdfcViz.DataFrame)
    (a : GenerateDashboard.args) (sheet_name : string)
    (df : HdfcViz.DataFrame) :
  read_excel (GenerateDashboard.file a) sheet_name = Ok df ->
  (forall line,
     GenerateDashboard.try_body read_excel HdfcViz.create_dashboard a sheet_name
     = Ok line ->
     line = "  - Generated "
              +:+ str_nat (ceil_div (length (HdfcViz.columns df)) 4)
              +:+ " chart groups for " +:+ sheet_name)
  /\ (HdfcViz.columns df = [] ->
      sheet_lines read_excel HdfcViz.create_dashboard a sheet_name
      = [ "Processing sheet: " +:+ sheet_name;
          "  - Generated 0 chart groups for " +:+ sheet_name ]).
Proof.
  intros Hread.
  destruct (driver_dashboard a sheet_name df) as (Hok & Hfail).
  split.
  - intros line. unfold GenerateDashboard.try_body. rewrite Hread, bind_Ok.
    destruct (HdfcViz.columns df) as [|col cols] eqn:Ecols.
    + destruct Hok as (charts & -> & Hlen); [by left|].
      rewrite bind_Ok. intros [= <-]. by rewrite Hlen.
    + destruct (length (HdfcViz.index df)) as [|rows] eqn:Erows.
      * rewrite Hfail by done. discriminate.
      * destruct Hok as (charts & -> & Hlen); [right; lia|].
        rewrite bind_Ok. intros [= <-]. by rewrite Hlen.
  - intros Hnone. unfold sheet_lines, GenerateDashboard.try_body.
    rewrite Hread, bind_Ok.
    destruct Hok as (charts & -> & Hlen); [by left|].
    rewrite bind_Ok. rewrite Hlen, Hnone. reflexivity.
Qed.

Lemma driver_reports_ceil_groups_witness :
  GenerateDashboard.try_body sample_read_excel HdfcViz.create_dashboard
    sample_args "Q1"
  = Ok "  - Generated 1 chart groups for Q1"%string.
Proof.
  destruct (driver_reports_ceil_groups sample_read_excel sample_args "Q1"
              sample_frame) as (Hline & _); [reflexivity|].
  destruct (GenerateDashboard.try_body sample_read_excel
              HdfcViz.create_dashboard sample_args "Q1")
    as [line|e] eqn:E; [|by vm_compute in E].
  by rewrite (Hline line eq_refl).
Defined.

(** X11.  In [generate_dashboard], a sheet that loads with columns but
    without a single row is reported as an error, "Error processing sheet
    <sheet>: list index out of range": the first chart fails on the first
    color of its empty palette. *)
Theorem driver_reports_rowless_sheet
    (read_excel : string -> string -> result HdfcViz.DataFrame)
    (a : GenerateDashboard.args) (sheet_name : string)
    (df : HdfcViz.DataFrame) :
  read_excel (GenerateDashboard.file a) sheet_name = Ok df ->
  HdfcViz.columns df <> [] -> length (HdfcViz.index df) = 0 ->
  sheet_lines read_excel HdfcViz.create_dashboard a sheet_name
  = [ "Processing sheet: " +:+ sheet_name;
      "Error processing sheet " +:+ sheet_name
        +:+ ": list index out of range" ].
Proof.
  intros Hread Hcols Hrows. unfold sheet_lines, GenerateDashboard.try_body.
  rewrite Hread. simpl.
  destruct (driver_dashboard a sheet_name df) as (_ & Hfail).
  by rewrite (Hfail Hcols Hrows).
Qed.

Lemma driver_reports_rowless_sheet_witness :
  sheet_lines rowless_read_excel HdfcViz.create_dashboard sample_args "Q1"
  = [ "Processing sheet: Q1";
      "Error processing sheet Q1: list index out of range" ]%string.
Proof.
  rewrite (driver_reports_rowless_sheet rowless_read_excel sample_args "Q1"
             rowless_frame); [reflexivity | reflexivity | discriminate | reflexivity].
Defined.



(** * The example gallery *)

Section ExamplesFacts.
Import HdfcViz GenerateExamples.
Implicit Types (df : DataFrame).

(** Requested names that are all columns of the table are all valid. *)
Lemma valid_columns_of_columns df (requested : list string) :
  requested ⊆ columns df -> valid_columns df requested = requested.
Proof.
  intros Hsub. unfold valid_columns. apply filter_all, Forall_forall.
  intros col Hcol. by apply Hsub.
Qed.

Lemma slice_subseteq {A} (l : list A) i j : slice l i j ⊆ l.
Proof.
  unfold slice. etrans; [apply subseteq_take|apply subseteq_drop].
Qed.

Lemma slice_length {A} (l : list A) i j :
  length (slice l i j) = (j - i) `min` (length l - i).
Proof. unfold slice. by rewrite length_take, length_drop. Qed.

Lemma valid_slice df i j :
  valid_columns df (slice (columns df) i j) = slice (columns df) i j.
Proof. apply valid_columns_of_columns, slice_subseteq. Qed.

Lemma professional_columns_subseteq (cols : list string) :
  professional_columns cols ⊆ cols.
Proof.
  unfold professional_columns. destruct (4 <? length cols); apply slice_subseteq.
Qed.

Lemma professional_columns_nonempty (cols : list string) :
  cols <> [] -> professional_columns cols <> [].
Proof.
  intros Hne Hnil. apply length_zero_iff_nil in Hnil. revert Hnil.
  unfold professional_columns.
  assert (1 <= length cols) by (destruct cols; simpl; [done|lia]).
  destruct (Nat.ltb_spec 4 (length cols)); rewrite slice_length; lia.
Qed.

(** A single chart of the gallery, on columns taken from the table that
    has rows, is drawn. *)
Lemma gallery_chart_returns df (cols : list string) (o : plot_options) :
  cols ⊆ columns df -> cols <> [] -> 1 <= length (index df) ->
  usable_scheme (color_scheme o) ->
  exists chart, plot_if_any df cols o = Ok [chart].
Proof.
  intros Hsub Hne Hrows Hs. unfold plot_if_any.
  destruct cols as [|c cs]; [done|]. simpl.
  destruct (plot_bar_chart_returns df (c :: cs) o) as (chart & ->);
    [by rewrite valid_columns_of_columns|done|done|].
  by exists chart.
Qed.

(** The dashboard of the gallery has one figure per group of four
    columns. *)
Lemma gallery_dashboard_returns df (sheet_name : string) :
  1 <= length (index df) ->
  exists dashboard,
    create_dashboard df sheet_name
      (example_dashboard sheet_name
         (foldl (append_group (columns df)) [] (range 0 (length (columns df)) 4)))
    = Ok dashboard
    /\ length dashboard = ceil_div (length (columns df)) 4.
Proof.
  intros Hrows.
  destruct (main_column_groups_spec (columns df)) as (Hcount & _ & _).
  pose proof (column_groups_are_valid df) as Hvalid.
  unfold GenerateDashboard.column_groups in *.
  set (groups := foldl _ _ _) in *.
  destruct (draw_groups_spec df sheet_name (example_dashboard sheet_name groups)
              (SchemeName <$> COLOR_SCHEME_NAMES) groups)
    with (i := 0) as (dashboard & Hd & Hlen & _);
    [done | by repeat constructor | done | |].
  { eapply Forall_impl; [exact Hvalid|]. by intros g [-> ?]. }
  exists dashboard. split; [exact Hd|]. by rewrite Hlen.
Qed.

(** The loop ends at the first sheet whose examples raise. *)
Lemma examples_loop_stops read_excel total (before : list string) bad e :
  Forall (fun s => returns (sheet_examples read_excel s)) before ->
  sheet_examples read_excel bad = Raise e ->
  forall i out, exists out',
    (forall rest,
       GenerateExamples.process_sheets read_excel total i
         (before ++ bad :: rest) out = (out', Raise e))
    /\ last out'
       = Some ("Processing sheet " +:+ str_nat (i + length before + 1)
                 +:+ "/" +:+ str_nat total +:+ ": " +:+ bad)%string.
Proof.
  intros Hbefore Hbad. induction Hbefore as [|s before Hs _ IH]; intros i out.
  - eexists. split.
    + intros rest. simpl. rewrite Hbad. reflexivity.
    + unfold GenerateDashboard.print. rewrite last_snoc.
      by rewrite Nat.add_0_r.
  - destruct Hs as ([figs line] & Hs).
    destruct (IH (S i)
                (GenerateDashboard.print line
                   (GenerateDashboard.print
                      ("Processing sheet " +:+ str_nat (i + 1) +:+ "/"
                         +:+ str_nat total +:+ ": " +:+ s)%string out)))
      as (out' & Hrun & Hlast).
    exists out'. split.
    + intros rest. simpl. rewrite Hs. apply Hrun.
    + rewrite Hlast.
      by replace (i + length (s :: before) + 1) with (S i + length before + 1)
        by (simpl; lia).
Qed.

End ExamplesFacts.

(** X13.  [generate_examples] has no handler around a sheet: when the
    examples of a sheet raise, the exception leaves the script, the last
    line on the console is that sheet's "Processing sheet k/n: <sheet>",
    and the sheets listed after it have no effect at all: they are not
    loaded and the closing line is not printed. *)
Theorem generate_examples_stops_at_first_failure
    (read_excel : string -> result HdfcViz.DataFrame)
    (before : list string) (bad : string) (e : exn) :
  Forall (fun s => returns (GenerateExamples.sheet_examples read_excel s))
    before ->
  GenerateExamples.sheet_examples read_excel bad = Raise e ->
  forall after, exists out,
    GenerateExamples.generate_examples read_excel (before ++ bad :: after)
    = (out, Raise e)
    /\ last out
       = Some ("Processing sheet " +:+ str_nat (length before + 1) +:+ "/"
                 +:+ str_nat (length (before ++ bad :: after))
                 +:+ ": " +:+ bad)%string
    /\ forall after',
         length after' = length after ->
         GenerateExamples.generate_examples read_excel (before ++ bad :: after')
         = (out, Raise e).
Proof.
  intros Hbefore Hbad after.
  destruct (examples_loop_stops read_excel (length (before ++ bad :: after))
              before bad e Hbefore Hbad 0 []) as (out & Hrun & Hlast).
  exists out. unfold GenerateExamples.generate_examples.
  split; [by rewrite Hrun|]. split; [exact Hlast|].
  intros after' Hlen.
  replace (length (before ++ bad :: after'))
    with (length (before ++ bad :: after))
    by (rewrite !length_app; simpl; lia).
  by rewrite Hrun.
Qed.

Lemma generate_examples_stops_at_first_failure_witness :
  GenerateExamples.generate_examples (sample_read_excel "HDFC_modified.xlsx")
    ["Q1"; "Bad"; "Q2"]%string
  = ([ "Processing sheet 1/3: Q1";
       "  - Created 4 visualizations for Q1";
       "Processing sheet 2/3: Bad" ]%string,
     Raise (ValueError "Index Category invalid")).
Proof.
  destruct (generate_examples_stops_at_first_failure
              (sample_read_excel "HDFC_modified.xlsx") ["Q1"]%string "Bad"
              (ValueError "Index Category invalid"))
    with (after := ["Q2"]%string) as (out & Hrun & _).
  - repeat constructor. vm_compute. by eexists.
  - reflexivity.
  - simpl in Hrun. rewrite Hrun. f_equal.
    vm_compute in Hrun. by injection Hrun as <-.
Defined.

(** X14.  On a sheet that loads without any column, the examples raise
    ValueError: the first chart is requested unconditionally, while the
    second and the third are guarded by [len(columns) > 0]. *)
Theorem examples_fail_on_table_without_columns
    (read_excel : string -> result HdfcViz.DataFrame)
    (sheet_name : string) (df : HdfcViz.DataFrame) :
  read_excel sheet_name = Ok df -> HdfcViz.columns df = [] ->
  (exists msg,
     GenerateExamples.sheet_examples read_excel sheet_name
     = Raise (ValueError msg))
  /\ GenerateExamples.plot_if_any df
       (GenerateExamples.professional_columns (HdfcViz.columns df))
       (GenerateExamples.professional_options sheet_name) = Ok []
  /\ GenerateExamples.plot_if_any df
       (slice (HdfcViz.columns df) 0 (6 `min` length (HdfcViz.columns df)))
       (GenerateExamples.gradient_options sheet_name) = Ok [].
Proof.
  intros Hread Hcols. split; [|by rewrite Hcols].
  unfold GenerateExamples.sheet_examples. rewrite Hread, bind_Ok. cbv beta zeta.
  destruct (proj2 (plot_bar_chart_ValueError df
                     (slice (HdfcViz.columns df) 0
                        (4 `min` length (HdfcViz.columns df)))
                     (GenerateExamples.basic_options sheet_name)))
    as (msg & ->); [by rewrite Hcols|].
  by exists msg.
Qed.

Lemma examples_fail_on_table_without_columns_witness :
  exists msg,
    GenerateExamples.sheet_examples (fun _ => Ok empty_frame) "Q1"
    = Raise (ValueError msg).
Proof.
  eapply (examples_fail_on_table_without_columns
            (fun _ => Ok empty_frame) "Q1" empty_frame); reflexivity.
Defined.

(** On a sheet with a column and a row every example is drawn. *)
Lemma sheet_examples_complete
    (read_excel : string -> result HdfcViz.DataFrame)
    (sheet_name : string) (df : HdfcViz.DataFrame) :
  read_excel sheet_name = Ok df ->
  HdfcViz.columns df <> [] -> 1 <= length (HdfcViz.index df) ->
  exists figures,
    GenerateExamples.sheet_examples read_excel sheet_name
    = Ok (figures,
          "  - Created "
            +:+ str_nat (3 + ceil_div (length (HdfcViz.columns df)) 4)
            +:+ " visualizations for " +:+ sheet_name)
    /\ length figures = 3 + ceil_div (length (HdfcViz.columns df)) 4.
Proof.
  intros Hread Hcols Hrows.
  assert (Hn : 1 <= length (HdfcViz.columns df))
    by (destruct (HdfcViz.columns df); simpl; [done|lia]).
  unfold GenerateExamples.sheet_examples. rewrite Hread, bind_Ok. cbv beta zeta.
  destruct (plot_bar_chart_returns df
              (slice (HdfcViz.columns df) 0 (4 `min` length (HdfcViz.columns df)))
              (GenerateExamples.basic_options sheet_name))
    as (basic & ->); [|done|done|].
  { rewrite valid_slice. intros Hnil. apply length_zero_iff_nil in Hnil.
    rewrite slice_length in Hnil. lia. }
  rewrite bind_Ok. cbv beta.
  destruct (gallery_chart_returns df
              (GenerateExamples.professional_columns (HdfcViz.columns df))
              (GenerateExamples.professional_options sheet_name))
    as (professional & ->);
    [apply professional_columns_subseteq
    |by apply professional_columns_nonempty|done|done|].
  rewrite bind_Ok. cbv beta.
  destruct (gallery_chart_returns df
              (slice (HdfcViz.columns df) 0 (6 `min` length (HdfcViz.columns df)))
              (GenerateExamples.gradient_options sheet_name))
    as (gradient & ->); [apply slice_subseteq| |done|done|].
  { intros Hnil. apply length_zero_iff_nil in Hnil.
    rewrite slice_length in Hnil. lia. }
  rewrite bind_Ok. cbv beta.
  destruct (gallery_dashboard_returns df sheet_name Hrows)
    as (dashboard & -> & Hlen).
  rewrite bind_Ok. cbv beta. rewrite Hlen. eexists. split; [reflexivity|].
  simpl. by rewrite Hlen.
Qed.

(** X15.  Whenever the examples of a sheet are completed, the sheet has
    loaded with N >= 1 columns and at least one row, and exactly
    3 + ceil(N/4) figures have been drawn, the three single charts and
    one per group of four columns, which is the number the script
    prints. *)
Theorem examples_draw_what_they_report
    (read_excel : string -> result HdfcViz.DataFrame)
    (sheet_name : string) (figures : list (HdfcViz.figure * list nat))
    (line : string) :
  GenerateExamples.sheet_examples read_excel sheet_name = Ok (figures, line) ->
  exists df,
    read_excel sheet_name = Ok df
    /\ HdfcViz.columns df <> []
    /\ 1 <= length (HdfcViz.index df)
    /\ length figures = 3 + ceil_div (length (HdfcViz.columns df)) 4
    /\ line = "  - Created "
                +:+ str_nat (3 + ceil_div (length (HdfcViz.columns df)) 4)
                +:+ " visualizations for " +:+ sheet_name.
Proof.
  intros Hdone. pose proof Hdone as Hsteps.
  unfold GenerateExamples.sheet_examples in Hsteps.
  apply bind_Ok_inv in Hsteps as (df & Hread & Hsteps).
  apply bind_Ok_inv in Hsteps as (basic & Hbasic & _).
  destruct (plot_bar_chart_returns_chart df _ _ (ex_intro _ basic Hbasic))
    as (Hvalid & Hrows & _).
  assert (Hcols : HdfcViz.columns df <> []).
  { intros Hnil. apply Hvalid. rewrite Hnil. reflexivity. }
  destruct (sheet_examples_complete read_excel sheet_name df Hread Hcols Hrows)
    as (figures' & Hsame & Hlen).
  rewrite Hsame in Hdone. injection Hdone as <- <-.
  by exists df.
Qed.

Lemma examples_draw_what_they_report_witness :
  exists figures,
    GenerateExamples.sheet_examples (sample_read_excel "HDFC_modified.xlsx") "Q1"
    = Ok (figures, "  - Created 4 visualizations for Q1"%string)
    /\ length figures = 4.
Proof.
  destruct (GenerateExamples.sheet_examples
              (sample_read_excel "HDFC_modified.xlsx") "Q1")
    as [[figures line]|e] eqn:E; [|by vm_compute in E].
  destruct (examples_draw_what_they_report _ _ _ _ E)
    as (df & Hread & _ & _ & Hlen & Hline).
  injection Hread as <-.
  exists figures. split; [by rewrite Hline|exact Hlen].
Defined.

(** ** Titles of the figures *)

Section TitleFacts.
Import HdfcViz GenerateExamples.

Lemma plot_bar_chart_titles df requested o fig axes :
  plot_bar_chart df requested o = Ok (fig, axes) ->
  fig_title fig = given (title o)
  /\ fig_subtitle fig = match given (title o) with
                        | Some _ => given (subtitle o)
                        | None => None
                        end.
Proof.
  unfold plot_bar_chart.
  destruct (negb _); [discriminate|]. destruct (resolve_layout _ _) as [r c].
  destruct (style_settings _) as [settings|e]; simpl; [|discriminate].
  destruct (draw_subplots _ _ _ _ _ _) as [sps|e]; simpl; [|discriminate].
  by intros [= <- _].
Qed.

Lemma draw_group_titles df sheet_name o schemes i group fig axes :
  draw_group df sheet_name o schemes i group = Ok (fig, axes) ->
  fig_title fig = given (Some (group_title o sheet_name i))
  /\ fig_subtitle fig = match given (Some (group_title o sheet_name i)) with
                        | Some _ => given (custom_subtitles o ≫= (.!! i))
                        | None => None
                        end.
Proof.
  unfold draw_group, mod_.
  destruct (length schemes =? 0); [discriminate|]. simpl.
  destruct (getitem schemes _) as [scheme|e]; simpl; [|discriminate].
  destruct (group_save_path (output_path o) i) as [saved|e];
    simpl; [|discriminate].
  intros Hplot. by apply plot_bar_chart_titles in Hplot.
Qed.

(** Each result of the loop over the groups is the figure of the group of
    the same position. *)
Lemma draw_groups_inv df sheet_name o schemes groups : forall i results,
  draw_groups df sheet_name o schemes i groups = Ok results ->
  length results = length groups
  /\ forall k r, results !! k = Some r ->
       exists group, groups !! k = Some group
         /\ draw_group df sheet_name o schemes (i + k) group = Ok r.
Proof.
  induction groups as [|group rest IH]; intros i results; simpl.
  - intros [= <-]. split; [done|]. intros k r Hk. done.
  - destruct (draw_group df sheet_name o schemes i group) as [r0|e] eqn:E0;
      simpl; [|discriminate].
    destruct (draw_groups df sheet_name o schemes (S i) rest) as [rs|e] eqn:Er;
      simpl; [|discriminate].
    intros [= <-]. destruct (IH _ _ Er) as (Hlen & Hk).
    split; [simpl; by rewrite Hlen|].
    intros [|k] r; simpl.
    + intros [= <-]. exists group. by rewrite Nat.add_0_r.
    + intros Hr. destruct (Hk k r Hr) as (g & Hg & Hd).
      exists g. split; [done|]. by rewrite <- Nat.add_succ_comm.
Qed.

(** The dictionary of custom titles has an entry for each group index and
    no other. *)
Lemma custom_group_titles_lookup sheet_name n j :
  custom_group_titles sheet_name n !! j
  = if decide (j < n)
    then Some ("HDFC " +:+ sheet_name +:+ " - Group " +:+ str_nat (j + 1))%string
    else None.
Proof.
  unfold custom_group_titles.
  assert (Hgen : forall a (m : gmap nat string),
    foldl (fun titles j =>
             <[j := ("HDFC " +:+ sheet_name +:+ " - Group "
                     +:+ str_nat (j + 1))%string]> titles) m (seq a n) !! j
    = if decide (a <= j < a + n)
      then Some ("HDFC " +:+ sheet_name +:+ " - Group " +:+ str_nat (j + 1))%string
      else m !! j).
  { induction n as [|n IH]; intros a m; simpl.
    - case_decide; [lia|done].
    - rewrite IH. rewrite lookup_insert.
      repeat case_decide; try done; try lia. by subst. }
  rewrite Hgen, lookup_empty. repeat case_decide; try done; lia.
Qed.

End TitleFacts.

(** X16.  The figure [create_dashboard] returns at position i is titled
    with the entry of [custom_titles] for i when there is one, and with
    "<title_prefix> <sheet> Analysis - Group <i+1>" otherwise.  An empty
    custom title leaves the figure without title and, because the
    subtitle is only drawn under a title, without subtitle as well. *)
Theorem dashboard_figure_titles
    (df : HdfcViz.DataFrame) (sheet_name : string)
    (o : HdfcViz.dashboard_options)
    (results : list (HdfcViz.figure * list nat))
    (i : nat) (fig : HdfcViz.figure) (axes : list nat) :
  HdfcViz.create_dashboard df sheet_name o = Ok results ->
  results !! i = Some (fig, axes) ->
  (HdfcViz.custom_titles o ≫= (.!! i) = None ->
   HdfcViz.fig_title fig
   = Some (HdfcViz.title_prefix o +:+ " " +:+ sheet_name
             +:+ " Analysis - Group " +:+ str_nat (i + 1)))
  /\ (forall t, HdfcViz.custom_titles o ≫= (.!! i) = Some t ->
        t <> EmptyString -> HdfcViz.fig_title fig = Some t)
  /\ (HdfcViz.custom_titles o ≫= (.!! i) = Some EmptyString ->
      HdfcViz.fig_title fig = None /\ HdfcViz.fig_subtitle fig = None).
Proof.
  intros Hdash Hi. unfold HdfcViz.create_dashboard in Hdash.
  destruct (draw_groups_inv _ _ _ _ _ _ _ Hdash) as (_ & Hk).
  destruct (Hk i _ Hi) as (group & _ & Hdraw). simpl in Hdraw.
  destruct (draw_group_titles _ _ _ _ _ _ _ _ Hdraw) as (Ht & Hs).
  unfold group_title in *. split; [|split].
  - intros Hnone. rewrite Hnone in Ht. rewrite Ht.
    apply given_nonempty. by destruct (HdfcViz.title_prefix o).
  - intros t Hsome Hne. rewrite Hsome in Ht. rewrite Ht.
    by apply given_nonempty.
  - intros Hempty. rewrite Hempty in Ht, Hs. by rewrite Ht, Hs.
Qed.

Lemma dashboard_figure_titles_witness :
  exists results fig axes,
    HdfcViz.create_dashboard sample_frame "Q1" (sample_dashboard None)
    = Ok results
    /\ results !! 1 = Some (fig, axes)
    /\ HdfcViz.fig_title fig = Some "HDFC Q1 Analysis - Group 2"%string.
Proof.
  destruct (HdfcViz.create_dashboard sample_frame "Q1" (sample_dashboard None))
    as [results|e] eqn:E; [|by vm_compute in E].
  destruct (results !! 1) as [[fig axes]|] eqn:E1;
    [|vm_compute in E; injection E as <-; discriminate E1].
  exists results, fig, axes. split; [reflexivity|]. split; [exact E1|].
  destruct (dashboard_figure_titles sample_frame "Q1" (sample_dashboard None)
              results 1 fig axes E E1) as (Hdefault & _).
  by rewrite Hdefault.
Defined.

(** X17.  Every figure of the dashboard that [generate_examples] builds
    for a sheet carries the custom title "HDFC <sheet> - Group <j+1>" of
    its position j: the dictionary of titles the script fills has an
    entry for every group. *)
Theorem example_dashboard_titles
    (df : HdfcViz.DataFrame) (sheet_name : string)
    (groups : list (list string))
    (results : list (HdfcViz.figure * list nat))
    (j : nat) (fig : HdfcViz.figure) (axes : list nat) :
  HdfcViz.create_dashboard df sheet_name
    (GenerateExamples.example_dashboard sheet_name groups) = Ok results ->
  results !! j = Some (fig, axes) ->
  j < length groups
  /\ HdfcViz.fig_title fig
     = Some ("HDFC " +:+ sheet_name +:+ " - Group " +:+ str_nat (j + 1)).
Proof.
  intros Hdash Hj. unfold HdfcViz.create_dashboard in Hdash.
  destruct (draw_groups_inv _ _ _ _ _ _ _ Hdash) as (Hlen & Hk).
  destruct (Hk j _ Hj) as (group & Hgroup & Hdraw). simpl in *.
  apply lookup_lt_Some in Hgroup.
  split; [done|].
  destruct (draw_group_titles _ _ _ _ _ _ _ _ Hdraw) as (Ht & _).
  unfold group_title in Ht. simpl in Ht.
  rewrite custom_group_titles_lookup in Ht.
  rewrite decide_True in Ht by done. rewrite Ht.
  apply given_nonempty. discriminate.
Qed.

Lemma example_dashboard_titles_witness :
  exists results fig axes,
    HdfcViz.create_dashboard sample_frame "Q1"
      (GenerateExamples.example_dashboard "Q1" [["Accounts"]; ["Balance"]]%string)
    = Ok results
    /\ results !! 1 = Some (fig, axes)
    /\ HdfcViz.fig_title fig = Some "HDFC Q1 - Group 2"%string.
Proof.
  destruct (HdfcViz.create_dashboard sample_frame "Q1"
              (GenerateExamples.example_dashboard "Q1"
                 [["Accounts"]; ["Balance"]]%string))
    as [results|e] eqn:E; [|by vm_compute in E].
  destruct (results !! 1) as [[fig axes]|] eqn:E1;
    [|vm_compute in E; injection E as <-; discriminate E1].
  exists results, fig, axes. split; [reflexivity|]. split; [exact E1|].
  destruct (example_dashboard_titles sample_frame "Q1" _ results 1 fig axes E E1)
    as (_ & Ht).
  by rewrite Ht.
Defined.

(** * Further properties of the cleaning script *)

Section CleaningFacts.
Import RemoveSubtotal.

Lemma existsb_false_iff {A} (f : A -> bool) (l : list A) :
  existsb f l = false <-> Forall (fun x => f x = false) l.
Proof.
  split; [apply existsb_false_Forall|].
  induction 1 as [|x l Hx _ IH]; simpl; [done|]. by rewrite Hx, IH.
Qed.

Lemma without_subtotal_rows_clean r :
  Forall (fun row => subtotal_row r row = false)
    (rows (without_subtotal_rows r)).
Proof.
  apply Forall_forall. intros row Hrow. simpl in Hrow.
  by apply list_elem_of_filter in Hrow as [? _].
Qed.

Lemma subtotal_row_reread r df row :
  columns df = columns (frame r) ->
  subtotal_row (reread r df) row = subtotal_row r row.
Proof.
  intros Hcols. unfold subtotal_row. destruct r; simpl in *; [done|].
  by rewrite Hcols.
Qed.

End CleaningFacts.

(** X18.  After the cleaning step no row of a sheet is labelled
    "Sub total" any more, by the very test the script applies, and
    cleaning the result again, read the same way, changes nothing. *)
Theorem remove_subtotal_is_idempotent (r : RemoveSubtotal.sheet_read) :
  Forall (fun row => subtotal_row r row = false)
    (RemoveSubtotal.rows (RemoveSubtotal.remove_subtotal r))
  /\ (RemoveSubtotal.has_category_index r = true ->
      RemoveSubtotal.in_index (RemoveSubtotal.remove_subtotal r) = false)
  /\ (RemoveSubtotal.has_category_index r = false ->
      RemoveSubtotal.in_values (RemoveSubtotal.remove_subtotal r) = false)
  /\ RemoveSubtotal.remove_subtotal
       (reread r (RemoveSubtotal.remove_subtotal r))
     = RemoveSubtotal.remove_subtotal r.
Proof.
  rewrite !remove_subtotal_spec.
  pose proof (without_subtotal_rows_clean r) as Hclean.
  split; [exact Hclean|]. split; [|split].
  - intros Hcat. unfold RemoveSubtotal.in_index. apply existsb_false_iff.
    eapply Forall_impl; [exact Hclean|]. intros row Hrow.
    unfold subtotal_row in Hrow. by rewrite Hcat in Hrow.
  - intros Hcat. unfold RemoveSubtotal.in_values. apply existsb_false_iff.
    eapply Forall_impl; [exact Hclean|]. intros row Hrow.
    unfold subtotal_row in Hrow. by rewrite Hcat in Hrow.
  - unfold without_subtotal_rows at 1.
    assert (Hframe : RemoveSubtotal.frame (reread r (without_subtotal_rows r))
                     = without_subtotal_rows r) by (by destruct r).
    rewrite Hframe. rewrite filter_all; [reflexivity|].
    eapply Forall_impl; [exact Hclean|]. intros row Hrow.
    by rewrite subtotal_row_reread.
Qed.

Lemma remove_subtotal_is_idempotent_witness :
  RemoveSubtotal.in_index
    (RemoveSubtotal.remove_subtotal (RemoveSubtotal.WithCategory sample_summary))
  = false.
Proof.
  destruct (remove_subtotal_is_idempotent
              (RemoveSubtotal.WithCategory sample_summary)) as (_ & H & _).
  apply H. reflexivity.
Defined.

(** ** The files the script touches *)

Section FilesFacts.
Import RemoveSubtotal RemoveSubtotalFiles.
Context {workbook : Type}.
Variable sheet_names : workbook -> list string.
Variable read_excel_category : workbook -> string -> result DataFrame.
Variable read_excel : workbook -> string -> DataFrame.
Variable to_excel : list written_sheet -> workbook.

Abbreviation run_script :=
  (run workbook sheet_names read_excel_category read_excel to_excel).
Abbreviation written_from w :=
  (to_excel (script (read_excel_category w) (read_excel w) (sheet_names w))).

(** A run that returns found the original, made sure of a backup and wrote
    the modified workbook from the original. *)
Lemma run_inv (fs fs' : gmap string workbook) :
  run_script fs = Ok fs' ->
  exists w,
    fs !! original_file = Some w
    /\ fs' = <[modified_file := written_from w]>
               (match fs !! backup_file with
                | Some _ => fs
                | None => <[backup_file := w]> fs
                end).
Proof.
  unfold run, make_backup, open_file.
  destruct (fs !! backup_file) as [b|] eqn:Eb; simpl.
  - destruct (fs !! original_file) as [w|]; simpl; [|discriminate].
    intros [= <-]. by exists w.
  - destruct (fs !! original_file) as [w|] eqn:Ew; simpl; [|discriminate].
    rewrite lookup_insert_ne by done. rewrite Ew. simpl.
    intros [= <-]. by exists w.
Qed.

Lemma run_returns (fs : gmap string workbook) :
  returns (run_script fs) <-> is_Some (fs !! original_file).
Proof.
  split.
  - intros (fs' & Hrun). apply run_inv in Hrun as (w & -> & _). by eexists.
  - intros (w & Hw). unfold run, make_backup, open_file.
    destruct (fs !! backup_file) as [b|] eqn:Eb; simpl.
    + rewrite Hw. by eexists.
    + rewrite Hw. simpl. rewrite lookup_insert_ne by done. rewrite Hw.
      by eexists.
Qed.

End FilesFacts.

(** X19.  The cleaning script returns exactly when HDFC.xlsx exists.  It
    then leaves HDFC.xlsx as it was, leaves an existing HDFC_backup.xlsx
    as it was and otherwise creates it as a copy of HDFC.xlsx, writes
    HDFC_modified.xlsx, and touches no other file. *)
Theorem cleaning_script_keeps_original_and_backup
    (workbook : Type)
    (sheet_names : workbook -> list string)
    (read_excel_category : workbook -> string -> result RemoveSubtotal.DataFrame)
    (read_excel : workbook -> string -> RemoveSubtotal.DataFrame)
    (to_excel : list RemoveSubtotal.written_sheet -> workbook)
    (fs : gmap string workbook) :
  (returns (RemoveSubtotalFiles.run workbook sheet_names read_excel_category
              read_excel to_excel fs)
   <-> is_Some (fs !! RemoveSubtotalFiles.original_file))
  /\ forall fs',
       RemoveSubtotalFiles.run workbook sheet_names read_excel_category
         read_excel to_excel fs = Ok fs' ->
       fs' !! RemoveSubtotalFiles.original_file
       = fs !! RemoveSubtotalFiles.original_file
       /\ (forall b, fs !! RemoveSubtotalFiles.backup_file = Some b ->
                     fs' !! RemoveSubtotalFiles.backup_file = Some b)
       /\ (fs !! RemoveSubtotalFiles.backup_file = None ->
           fs' !! RemoveSubtotalFiles.backup_file
           = fs !! RemoveSubtotalFiles.original_file)
       /\ is_Some (fs' !! RemoveSubtotalFiles.modified_file)
       /\ (forall path,
             path <> RemoveSubtotalFiles.backup_file ->
             path <> RemoveSubtotalFiles.modified_file ->
             fs' !! path = fs !! path).
Proof.
  split; [apply run_returns|].
  intros fs' Hrun. apply run_inv in Hrun as (w & Hw & ->).
  destruct (fs !! RemoveSubtotalFiles.backup_file) as [b|] eqn:Eb.
  - split; [by rewrite lookup_insert_ne|].
    split; [intros b' [= <-]; by rewrite lookup_insert_ne|].
    split; [done|].
    split; [rewrite lookup_insert_eq; by eexists|].
    intros path _ Hmod. by rewrite lookup_insert_ne.
  - split; [by rewrite !lookup_insert_ne|].
    split; [done|].
    split; [intros _; rewrite lookup_insert_ne by done;
            by rewrite lookup_insert_eq|].
    split; [rewrite lookup_insert_eq; by eexists|].
    intros path Hback Hmod. by rewrite !lookup_insert_ne.
Qed.

Lemma cleaning_script_keeps_original_and_backup_witness :
  exists fs',
    RemoveSubtotalFiles.run _ workbook_sheet_names workbook_read_category
      workbook_read_plain id sample_directory = Ok fs'
    /\ fs' !! "HDFC.xlsx"%string = Some sample_workbook
    /\ fs' !! "HDFC_backup.xlsx"%string = Some sample_workbook.
Proof.
  destruct (cleaning_script_keeps_original_and_backup _ workbook_sheet_names
              workbook_read_category workbook_read_plain id sample_directory)
    as (Hreturns & Hkept).
  destruct (proj2 Hreturns) as (fs' & Hrun); [by eexists|].
  destruct (Hkept fs' Hrun) as (Horig & _ & Hback & _).
  exists fs'. split; [exact Hrun|]. split.
  - exact (eq_trans Horig eq_refl).
  - exact (eq_trans (Hback eq_refl) eq_refl).
Defined.

(** X20.  Running the cleaning script a second time changes nothing: the
    backup is already there and is kept, and HDFC_modified.xlsx is written
    again from the same HDFC.xlsx. *)
Theorem cleaning_script_is_idempotent
    (workbook : Type)
    (sheet_names : workbook -> list string)
    (read_excel_category : workbook -> string -> result RemoveSubtotal.DataFrame)
    (read_excel : workbook -> string -> RemoveSubtotal.DataFrame)
    (to_excel : list RemoveSubtotal.written_sheet -> workbook)
    (fs fs' : gmap string workbook) :
  RemoveSubtotalFiles.run workbook sheet_names read_excel_category
    read_excel to_excel fs = Ok fs' ->
  RemoveSubtotalFiles.run workbook sheet_names read_excel_category
    read_excel to_excel fs' = Ok fs'.
Proof.
  intros Hrun. apply run_inv in Hrun as (w & Hw & ->).
  set (fs1 := match fs !! RemoveSubtotalFiles.backup_file with
              | Some _ => fs
              | None => <[RemoveSubtotalFiles.backup_file := w]> fs
              end).
  assert (Hback : is_Some (fs1 !! RemoveSubtotalFiles.backup_file)).
  { unfold fs1. destruct (fs !! RemoveSubtotalFiles.backup_file) eqn:Eb.
    - rewrite Eb. by eexists.
    - rewrite lookup_insert_eq. by eexists. }
  assert (Horig : fs1 !! RemoveSubtotalFiles.original_file = Some w).
  { unfold fs1. destruct (fs !! RemoveSubtotalFiles.backup_file); [done|].
    by rewrite lookup_insert_ne. }
  destruct Hback as (b & Hb).
  unfold RemoveSubtotalFiles.run, RemoveSubtotalFiles.make_backup,
    RemoveSubtotalFiles.open_file.
  rewrite lookup_insert_ne by done. rewrite Hb. simpl.
  rewrite lookup_insert_ne by done. rewrite Horig. simpl.
  by rewrite insert_insert_eq.
Qed.

Lemma cleaning_script_is_idempotent_witness :
  exists fs',
    RemoveSubtotalFiles.run _ workbook_sheet_names workbook_read_category
      workbook_read_plain id sample_directory = Ok fs'
    /\ RemoveSubtotalFiles.run _ workbook_sheet_names workbook_read_category
         workbook_read_plain id fs' = Ok fs'.
Proof.
  destruct (RemoveSubtotalFiles.run _ workbook_sheet_names workbook_read_category
              workbook_read_plain id sample_directory) as [fs'|e] eqn:E;
    [|by vm_compute in E].
  exists fs'. split; [reflexivity|].
  by apply (cleaning_script_is_idempotent _ _ _ _ _ sample_directory).
Defined.

(** * vix-claude.py: groups, axes and bars *)

Section VixFacts.
Import VixClaude.

Lemma concat_filter_nonempty {A} (L : list (list A)) :
  concat (filter (fun g => g <> []) L) = concat L.
Proof.
  induction L as [|g L IH]; [done|].
  rewrite filter_cons. destruct (decide (g <> [])) as [Hg|Hg]; simpl.
  - by rewrite IH.
  - apply dec_stable in Hg. subst g. by rewrite IH.
Qed.

Lemma concat_five_slices {A} (l : list A) : concat (five_slices l) = l.
Proof.
  unfold five_slices. simpl. rewrite app_nil_r.
  replace (drop 12 l) with (drop 2 (drop 10 l)) by (by rewrite drop_drop).
  rewrite take_drop.
  replace (drop 10 l) with (drop 4 (drop 6 l)) by (by rewrite drop_drop).
  rewrite take_drop.
  replace (drop 6 l) with (drop 4 (drop 2 l)) by (by rewrite drop_drop).
  by rewrite !take_drop.
Qed.

Lemma predefined_groups_spec (numeric_cols : list string) :
  predefined_groups numeric_cols
  = filter (fun g => g <> []) (five_slices numeric_cols).
Proof.
  do 13 (destruct numeric_cols as [|? numeric_cols]; [reflexivity|]).
  reflexivity.
Qed.


Lemma filter_nil_Forall {A} (P : A -> Prop) `{!forall x, Decision (P x)}
    (l : list A) :
  filter P l = [] <-> Forall (fun x => ~ P x) l.
Proof.
  induction l as [|x l IH]; [by split; [constructor|]|].
  rewrite filter_cons. destruct (decide (P x)) as [Hx|Hx].
  - split; [done|]. by inversion 1.
  - rewrite IH. split; [by constructor|]. by inversion 1.
Qed.

Lemma truthy_true {A} (l : list A) : truthy l = true <-> l <> [].
Proof. by destruct l. Qed.

Lemma bar_columns_imap (f : nat -> string -> bar_series) (l : list string) :
  (forall j col, bar_column (f j col) = col) ->
  bar_column <$> imap f l = l.
Proof.
  intros Hf. rewrite fmap_imap.
  rewrite (imap_ext _ (const id)); [|intros; simpl; apply Hf].
  by rewrite imap_const, list_fmap_id.
Qed.

Lemma draw_axis_inv df category_col i group_cols ax :
  draw_axis df category_col i group_cols = Ok ax ->
  axis_columns ax = filter (fun col => col ∈ column_names df) group_cols
  /\ (axis_hidden ax = true <->
      filter (fun col => col ∈ column_names df) group_cols = []).
Proof.
  unfold draw_axis.
  destruct (filter (fun col => col ∈ column_names df) group_cols)
    as [|col valid] eqn:Evalid; cbn [truthy].
  - by intros [= <-].
  - destruct (bool_decide (category_col ∈ column_names df)); [|done].
    intros [= <-]. split; [|done].
    cbn [axis_columns].
    set (n := S (length valid)).
    refine (bar_columns_imap
              (fun j c => {| bar_column := c; bar_offset := offset j n;
                             bar_width_ := bar_width n;
                             bar_label := display_name c; bar_color := j |})
              (col :: valid) _).
    done.
Qed.

Lemma draw_axis_returns df category_col i group_cols :
  returns (draw_axis df category_col i group_cols)
  <-> category_col ∈ column_names df
      \/ filter (fun col => col ∈ column_names df) group_cols = [].
Proof.
  unfold draw_axis.
  destruct (filter (fun col => col ∈ column_names df) group_cols)
    as [|col valid] eqn:Evalid; cbn [truthy].
  - split; [by right|]. by eexists.
  - destruct (bool_decide_reflect (category_col ∈ column_names df)) as [Hc|Hc].
    + split; [by left|]. by eexists.
    + split; [by intros [? ?]|]. by intros [?|?].
Qed.

Lemma draw_axis_KeyError df category_col i group_cols :
  ~ returns (draw_axis df category_col i group_cols) ->
  draw_axis df category_col i group_cols = Raise (KeyError category_col).
Proof.
  unfold draw_axis.
  destruct (filter _ group_cols); cbn [truthy]; [intros []; by eexists|].
  destruct (bool_decide _); [intros []; by eexists|done].
Qed.

Lemma draw_axes_inv df category_col groups : forall i axes,
  draw_axes df category_col i groups = Ok axes ->
  Forall2 (fun g ax =>
             axis_columns ax = filter (fun col => col ∈ column_names df) g
             /\ (axis_hidden ax = true <->
                 filter (fun col => col ∈ column_names df) g = []))
          groups axes.
Proof.
  induction groups as [|g groups IH]; intros i axes; cbn [draw_axes].
  - intros [= <-]. constructor.
  - intros H. apply bind_Ok_inv in H as (ax & Hax & H).
    apply bind_Ok_inv in H as (rest & Hrest & [= <-]).
    constructor; [by eapply draw_axis_inv|by eapply IH].
Qed.

Lemma draw_axes_returns df category_col groups : forall i,
  returns (draw_axes df category_col i groups)
  <-> category_col ∈ column_names df
      \/ Forall (fun g => filter (fun col => col ∈ column_names df) g = [])
           groups.
Proof.
  induction groups as [|g groups IH]; intros i; cbn [draw_axes].
  - split; [right; constructor|]. by eexists.
  - split.
    + intros (axes & H). apply bind_Ok_inv in H as (ax & Hax & H).
      apply bind_Ok_inv in H as (rest & Hrest & _).
      destruct (proj1 (draw_axis_returns df category_col i g)) as [?|Hg];
        [by eexists|by left|].
      destruct (proj1 (IH (S i))) as [?|Hrest']; [by eexists|by left|].
      right. by constructor.
    + intros H.
      destruct (proj2 (draw_axis_returns df category_col i g)) as (ax & ->).
      { destruct H as [?|H]; [by left|right; by inversion H]. }
      destruct (proj2 (IH (S i))) as (rest & ->).
      { destruct H as [?|H]; [by left|right; by inversion H]. }
      by eexists.
Qed.

Lemma draw_axes_raises df category_col groups : forall i,
  ~ returns (draw_axes df category_col i groups) ->
  draw_axes df category_col i groups = Raise (KeyError category_col).
Proof.
  induction groups as [|g groups IH]; intros i; cbn [draw_axes].
  - intros []. by eexists.
  - intros H. destruct (draw_axis df category_col i g) as [ax|e] eqn:Eax.
    + rewrite bind_Ok.
      rewrite IH; [done|]. intros (rest & Hrest). apply H.
      rewrite bind_Ok, Hrest. by eexists.
    + rewrite draw_axis_KeyError in Eax; [by injection Eax as <-|].
      rewrite Eax. by intros [? ?].
Qed.

Lemma remove_subseteq x (l : list string) : remove x l ⊆ l.
Proof.
  induction l as [|y l IH]; cbn [remove]; [done|].
  destruct (String.eqb y x).
  - by apply list_subseteq_cons.
  - intros z. rewrite !elem_of_cons. intros [?|?]; [by left|right; by apply IH].
Qed.

Lemma select_numeric_subseteq df : select_numeric df ⊆ column_names df.
Proof.
  intros col. unfold select_numeric, column_names.
  rewrite !list_elem_of_fmap. intros (c & -> & Hc).
  apply list_elem_of_filter in Hc as [_ Hc]. by exists c.
Qed.

Lemma filter_all_valid df (g : list string) :
  g ⊆ column_names df -> filter (fun col => col ∈ column_names df) g = g.
Proof.
  intros Hg. apply filter_all. apply Forall_forall. intros col Hcol.
  by apply Hg.
Qed.




Lemma draw_axes_all_valid df category_col groups :
  category_col ∈ column_names df ->
  Forall (fun g => g <> []
                   /\ filter (fun col => col ∈ column_names df) g = g) groups ->
  forall i, exists axes,
    draw_axes df category_col i groups = Ok axes
    /\ axis_columns <$> axes = groups
    /\ Forall (fun ax => axis_hidden ax = false) axes.
Proof.
  intros Hcat. induction 1 as [|g groups [Hg Hvalid] _ IH]; intros i.
  - exists []. by repeat split.
  - destruct (proj2 (draw_axis_returns df category_col i g)) as (ax & Hax);
      [by left|].
    destruct (IH (S i)) as (axes & Haxes & Hcols & Hshown).
    exists (ax :: axes). cbn [draw_axes]. rewrite Hax, bind_Ok, Haxes, bind_Ok.
    apply draw_axis_inv in Hax as [Hax Hhidden]. rewrite Hvalid in Hax, Hhidden.
    split; [done|]. split; [by rewrite fmap_cons, Hax, Hcols|].
    constructor; [|done].
    destruct (axis_hidden ax); [|done]. by destruct Hg, (proj1 Hhidden).
Qed.

Lemma elem_of_concat_group {A} (x : A) (g : list A) (L : list (list A)) :
  x ∈ g -> g ∈ L -> x ∈ concat L.
Proof.
  intros Hx. induction L as [|g' L IH]; intros Hg; [by inversion Hg|].
  cbn [concat]. apply elem_of_app.
  apply elem_of_cons in Hg as [->|Hg]; [by left|right; by apply IH].
Qed.

End VixFacts.

(** X21.  The predefined grouping cuts the numeric columns into the first
    two, the next four, the next four, the next two and the rest, leaving
    out the groups that would be empty: no group is empty, there are at
    most five, and read in order they give back every numeric column
    once. *)
Theorem predefined_groups_partition (numeric_cols : list string) :
  VixClaude.predefined_groups numeric_cols
  = filter (fun g => g <> []) (five_slices numeric_cols)
  /\ concat (VixClaude.predefined_groups numeric_cols) = numeric_cols
  /\ Forall (fun g => g <> []) (VixClaude.predefined_groups numeric_cols)
  /\ (length (VixClaude.predefined_groups numeric_cols) <= 5)%nat.
Proof.
  rewrite predefined_groups_spec. split; [done|]. split; [|split].
  - by rewrite concat_filter_nonempty, concat_five_slices.
  - apply Forall_forall. intros g Hg.
    by apply list_elem_of_filter in Hg as [? _].
  - etrans; [apply length_filter|]. done.
Qed.

(** X22.  The grouped bar plots need at least one group, and the category
    column unless no group names a column of the table; without a group
    the call raises ValueError, otherwise a failure is the KeyError of the
    category column.  When the call returns there is one axis per group,
    showing the group's columns that the table has, in their order, and
    an axis is hidden exactly when the table has none of them. *)
Theorem grouped_barplots_axes (df : VixClaude.DataFrame)
    (column_groups : list (list string)) (category_col : string) :
  let valid g := filter (fun col => col ∈ VixClaude.column_names df) g in
  (returns (VixClaude.create_grouped_barplots df column_groups category_col)
   <-> column_groups <> []
       /\ (category_col ∈ VixClaude.column_names df
           \/ Forall (fun g => valid g = []) column_groups))
  /\ (column_groups = [] ->
      exists msg,
        VixClaude.create_grouped_barplots df column_groups category_col
        = Raise (ValueError msg))
  /\ (column_groups <> [] ->
      ~ returns (VixClaude.create_grouped_barplots df column_groups
                   category_col) ->
      VixClaude.create_grouped_barplots df column_groups category_col
      = Raise (KeyError category_col))
  /\ forall axes,
       VixClaude.create_grouped_barplots df column_groups category_col
       = Ok axes ->
       length axes = length column_groups
       /\ forall i g ax,
            column_groups !! i = Some g -> axes !! i = Some ax ->
            axis_columns ax = valid g
            /\ (axis_hidden ax = true <-> valid g = []).
Proof.
  intros valid. unfold VixClaude.create_grouped_barplots.
  destruct column_groups as [|g0 groups]; cbn [length Nat.eqb].
  - split; [split; [by intros [? ?]|by intros [? _]]|].
    split; [by eexists|]. split; [done|]. done.
  - split; [|split; [done|split]].
    + rewrite draw_axes_returns. split; [by intros ?|by intros [_ ?]].
    + intros _. apply draw_axes_raises.
    + intros axes Haxes. apply draw_axes_inv in Haxes.
      split; [exact (eq_sym (Forall2_length _ _ _ Haxes))|].
      intros i g ax Hg Hax.
      by apply (Forall2_lookup_lr _ _ _ i g ax Haxes).
Qed.

Lemma grouped_barplots_axes_witness :
  exists axes,
    VixClaude.create_grouped_barplots status_frame
      [["CAP_12_cohort"; "Missing"]; ["Absent"]]%string "Category"
    = Ok axes
    /\ axis_columns <$> axes = [["CAP_12_cohort"]%string; []]
    /\ axis_hidden <$> axes = [false; true].
Proof.
  destruct (grouped_barplots_axes status_frame
              [["CAP_12_cohort"; "Missing"]; ["Absent"]]%string "Category")
    as (Hreturns & _ & _ & _).
  destruct (proj2 Hreturns) as (axes & Haxes).
  { split; [done|]. left. vm_compute; constructor. }
  exists axes. split; [exact Haxes|].
  vm_compute in Haxes. injection Haxes as <-. by vm_compute.
Defined.

(** X23.  When the table has its category column and a numeric column
    besides it, the predefined plot returns at most five axes, none of
    them hidden, which show every numeric column other than the category
    column exactly once and in the table's order; one line is printed per
    axis after the heading.  With no such numeric column the call raises
    ValueError. *)
Theorem predefined_plot_shows_every_numeric_column
    (df : VixClaude.DataFrame) (category_col : string) :
  let numeric_cols :=
    VixClaude.remove category_col (VixClaude.select_numeric df) in
  (numeric_cols = [] ->
   exists msg,
     (VixClaude.create_predefined_groups_plot df category_col).2
     = Raise (ValueError msg))
  /\ (numeric_cols <> [] ->
      category_col ∈ VixClaude.column_names df ->
      exists axes,
        (VixClaude.create_predefined_groups_plot df category_col).2 = Ok axes
        /\ (0 < length axes <= 5)%nat
        /\ Forall (fun ax => axis_hidden ax = false) axes
        /\ concat (axis_columns <$> axes) = numeric_cols
        /\ length (VixClaude.create_predefined_groups_plot df category_col).1
           = S (length axes)).
Proof.
  intros numeric_cols. unfold VixClaude.create_predefined_groups_plot.
  fold numeric_cols. cbn [fst snd].
  pose proof (predefined_groups_spec numeric_cols) as Hspec.
  assert (Hconcat : concat (VixClaude.predefined_groups numeric_cols)
                    = numeric_cols)
    by (by rewrite Hspec, concat_filter_nonempty, concat_five_slices).
  assert (Hnonempty : Forall (fun g => g <> [])
                        (VixClaude.predefined_groups numeric_cols)).
  { rewrite Hspec. apply Forall_forall. intros g Hg.
    by apply list_elem_of_filter in Hg as [? _]. }
  assert (Hfive : (length (VixClaude.predefined_groups numeric_cols) <= 5)%nat).
  { rewrite Hspec. etrans; [apply length_filter|]. done. }
  split.
  - intros Hnil. rewrite Hnil. by eexists.
  - intros Hcols Hcat.
    assert (Hvalid : Forall (fun g => g <> []
                /\ filter (fun col => col ∈ VixClaude.column_names df) g = g)
              (VixClaude.predefined_groups numeric_cols)).
    { apply Forall_forall. intros g Hg. split.
      - by apply (proj1 (Forall_forall _ _) Hnonempty).
      - apply filter_all_valid. intros col Hcol.
        apply select_numeric_subseteq.
        apply (remove_subseteq category_col). fold numeric_cols.
        rewrite <- Hconcat. by apply (elem_of_concat_group _ g). }
    destruct (draw_axes_all_valid df category_col _ Hcat Hvalid 0)
      as (axes & Haxes & Hshown & Hvisible).
    assert (Hlen : length axes
                   = length (VixClaude.predefined_groups numeric_cols))
      by (by rewrite <- Hshown, length_fmap).
    assert (Hgroups : VixClaude.predefined_groups numeric_cols <> []).
    { intros Hnil. rewrite Hnil in Hconcat. by apply Hcols. }
    exists axes. unfold VixClaude.create_grouped_barplots, VixClaude.group_lines.
    cbn [length]. rewrite length_imap, Hshown, Hconcat, Hlen.
    destruct (VixClaude.predefined_groups numeric_cols) as [|g0 groups] eqn:E;
      [done|]. cbn [length Nat.eqb] in *.
    repeat split; [done|lia|lia|done].
Qed.

Lemma predefined_plot_shows_every_numeric_column_witness :
  exists axes,
    (VixClaude.create_predefined_groups_plot status_frame "Category").2
    = Ok axes
    /\ axis_columns <$> axes
       = [["CAP_LRM_cohort"; "CAP_12_cohort"]; ["Average_KPI"]]%string.
Proof.
  destruct (predefined_plot_shows_every_numeric_column status_frame "Category")
    as (_ & Hplot).
  destruct Hplot as (axes & Haxes & _); [done| |].
  { vm_compute; constructor. }
  exists axes. split; [exact Haxes|].
  vm_compute in Haxes. injection Haxes as <-. by vm_compute.
Defined.


